(** * nursery-maint: the task / checklist lifecycle and the asset directory

    A shallow embedding of [mainapp/models.py], [mainapp/views.py] and the
    declarations of [mainapp/admin.py].  Rows are records, a table is the
    list of its rows in insertion order with its primary-key sequence, a
    request handler is a function from the database and the request to the
    new database and a response.

    Modelling boundary.
    - Text is [string]: a sequence of characters with code points below
      256; [__icontains] folds the case of ASCII letters.
    - The Python and Django library routines the views call ([Decimal],
      [int] on a primary-key lookup value, [parse_datetime], [strftime]
      ...) are the fields of the class [Runtime]; every theorem holds for
      every instance.
    - The ORM is a faithful store: [save] writes the in-memory row,
      [create] appends a row under the next value of the table's
      sequence, writes persist when a later step of the request raises.
      The one column whose values the views do not control is the
      decimal answer of a checklist item: its [save] stores the number as
      the [DecimalField(max_digits=12, decimal_places=3)] column takes
      it, and raises when the column refuses it.  The admin validates a
      row in its form, so the rows it writes are taken as stored.
    - The file storage is an input of the request, like the clock: it
      answers with the name under which it keeps a file.
    - The clock is an input of the request: one reading for the statement
      that stamps a row, one for the report.
    - A report is the sequence of calls of the layout helpers of
      [_build_task_report_pdf]; line breaking, the vertical cursor and
      page breaks stay in reportlab.
    - The store holds the six tables the views read and write: sites,
      assets, tasks, checklist templates, template items and checklist
      items.  [MaintenancePlan] and the users of [auth] are no tables of
      it: the [plan] of a task is left out, [created_by] is a plain value.

    Layout: the models, the store, the views, the admin operations, the
    system as a whole, then the vocabulary of the properties and the
    properties themselves. *)

From Stdlib Require Import Ascii.
From stdpp Require Import gmap strings list sorting pretty.

Open Scope string_scope.
Open Scope Z_scope.

(** ** Python strings *)

(** [str.isspace] on one character, for code points below 256. *)
Definition isspace (c : ascii) : bool :=
  let n := N_of_ascii c in
  ((9 <=? n) && (n <=? 13) || (28 <=? n) && (n <=? 32)
   || (n =? 133) || (n =? 160))%N.

Fixpoint lstrip (s : string) : string :=
  match s with
  | "" => ""
  | String c s' => if isspace c then lstrip s' else s
  end.

Fixpoint rstrip (s : string) : string :=
  match s with
  | "" => ""
  | String c s' =>
      match rstrip s' with
      | "" => if isspace c then "" else String c ""
      | r => String c r
      end
  end.

(** [s.strip()] *)
Definition strip (s : string) : string := lstrip (rstrip s).

(** Truthiness of a [str]: [if value:]. *)
Definition truthy (s : string) : bool := negb (bool_decide (s = "")).

(** The case folding behind [__icontains] ([UPPER(col) LIKE UPPER(pattern)]),
    on ASCII letters. *)
Definition upper_char (c : ascii) : ascii :=
  let n := N_of_ascii c in
  if ((97 <=? n) && (n <=? 122))%N then ascii_of_N (n - 32) else c.

Fixpoint upper (s : string) : string :=
  match s with
  | "" => ""
  | String c s' => String (upper_char c) (upper s')
  end.

Fixpoint startswith (p s : string) : bool :=
  match p, s with
  | "", _ => true
  | String a p', String b s' => bool_decide (a = b) && startswith p' s'
  | String _ _, "" => false
  end.

(** [needle in hay] *)
Fixpoint contains (needle hay : string) : bool :=
  startswith needle hay ||
  match hay with
  | "" => false
  | String _ hay' => contains needle hay'
  end.

(** [field__icontains=q] *)
Definition icontains (field q : string) : bool :=
  contains (upper q) (upper field).

(** ** Library values *)

(** A [decimal.Decimal] value, as [as_tuple()] shows it. *)
Inductive decimal : Type :=
  | Finite (negative : bool) (coefficient : N) (exponent : Z)
  | Infinity (negative : bool)
  | NaN (negative : bool) (signaling : bool) (payload : N).

Global Instance decimal_eq_dec : EqDecision decimal.
Proof. solve_decision. Defined.

(** What [parse_datetime] / [datetime.fromisoformat] hand back: a wall-clock
    reading without zone, or an instant. *)
Inductive datetime : Type :=
  | Naive (wall : Z)
  | Aware (instant : Z).

Inductive parsed (A : Type) : Type :=
  | Parsed (a : A)
  | Malformed                (* the routine returns [None] *)
  | Invalid.                 (* the routine raises [ValueError] *)
Arguments Parsed {A} a.
Arguments Malformed {A}.
Arguments Invalid {A}.

Class Runtime := {
  (** [Decimal(value)] on a [str]; [None] is [InvalidOperation]. *)
  Decimal : string → option decimal;
  (** [str(d)], as an f-string renders a [Decimal]. *)
  str_decimal : decimal → string;
  (** [int(value)], which the ORM applies to a primary-key lookup value
      given as text; [None] is the [ValueError] it raises. *)
  to_pk : string → option Z;
  (** [django.utils.dateparse.parse_datetime] *)
  parse_datetime : string → parsed datetime;
  (** [datetime.fromisoformat]; [None] is [ValueError]. *)
  fromisoformat : string → option datetime;
  (** [timezone.make_aware(_, get_current_timezone())] *)
  make_aware : Z → Z;
  (** [timezone.localtime(value).strftime("%d/%m/%Y %H:%M")] *)
  strftime : Z → string;
  (** [connection.ops.adapt_decimalfield_value(value, 12, 3)] on a finite
      value, read back from the column: the value rounded to three
      places; [None] is the [InvalidOperation] of a value with more
      digits than the column has. *)
  adapt_decimalfield_value : decimal → option decimal;
  (** Whether the database adapter binds the integer as a query
      parameter; when it does not (SQLite: beyond 64 bits), evaluating
      the query raises [OverflowError]. *)
  binds_integer : Z → bool;
}.

(** An uploaded or stored file, by its content. *)
Definition File : Type := string.

(** ** models.py *)

Module Site.
Record t := mk {
    id : Z;
    name : string;
    address : string;
    notes : string;
  }.
End Site.

Module Asset.
Definition STATUS_CHOICES : list (string * string) :=
    [ ("active", "Attivo");
      ("out_of_service", "Fuori servizio");
      ("disposed", "Dismesso") ].

Record t := mk {
    id : Z;
    site : Z;                       (* ForeignKey(Site, CASCADE) *)
    name : string;
    asset_type : string;
    serial : string;
    vendor : string;
    status : string;
    qr_token : N;                   (* UUIDField(default=uuid4, unique, editable=False) *)
    created_at : Z;
  }.

  (** The fields a model form can write: everything but [id], [qr_token]
      ([editable=False]) and [created_at] ([auto_now_add]). *)
Record form := mk_form {
    f_site : Z;
    f_name : string;
    f_asset_type : string;
    f_serial : string;
    f_vendor : string;
    f_status : string;
  }.

(** A change form saved onto an existing asset. *)
Definition write_form (form : form) (a : t) : t :=
  mk (id a) (f_site form) (f_name form) (f_asset_type form) (f_serial form)
     (f_vendor form) (f_status form) (qr_token a) (created_at a).
End Asset.

(** The report of [_build_task_report_pdf], as the sequence of calls of its
    layout helpers; line breaking and pagination stay in reportlab. *)
Inductive Draw : Type :=
  | Heading (text : string)                   (* the 16pt title line *)
  | SectionTitle (title : string)             (* draw_section_title *)
  | LabelValue (label value : string)         (* draw_label_value *)
  | Wrapped (text font : string) (size : Z)     (* draw_wrapped *)
  | BlankLine                                 (* an empty line of the notes *)
  | Gap.                                      (* y -= 1.5 * mm *)

Global Instance Draw_eq_dec : EqDecision Draw.
Proof. solve_decision. Defined.

(** A stored report: the name under which the storage keeps the file, and
    its content. *)
Record StoredReport := mk_report {
  report_name : string;
  report_body : list Draw;
}.

Module MaintenanceTask.
Definition STATUS_CHOICES : list (string * string) :=
    [ ("scheduled", "Programmato");
      ("in_progress", "In corso");
      ("done", "Chiuso");
      ("cancelled", "Annullato") ].

Record t := mk {
    id : Z;
    site : Z;                       (* ForeignKey(Site, CASCADE) *)
    title : string;
    scheduled_for : Z;
    status : string;
    notes : string;
    report_pdf : option StoredReport;
    completed_at : option Z;
    created_by : option Z;          (* ForeignKey(User, SET_NULL) *)
  }.

(** [report_pdf = models.FileField(upload_to="reports/", ...)] *)
Definition report_pdf_upload_to : string := "reports/".

Definition set_status (v : string) (x : t) : t :=
    mk (id x) (site x) (title x) (scheduled_for x) v (notes x)
       (report_pdf x) (completed_at x) (created_by x).
Definition set_completed_at (v : option Z) (x : t) : t :=
    mk (id x) (site x) (title x) (scheduled_for x) (status x) (notes x)
       (report_pdf x) v (created_by x).
Definition set_report_pdf (v : option StoredReport) (x : t) : t :=
    mk (id x) (site x) (title x) (scheduled_for x) (status x) (notes x)
       v (completed_at x) (created_by x).
End MaintenanceTask.

Module ChecklistTemplate.
Record t := mk {
    id : Z;
    name : string;
    site : option Z;                (* ForeignKey(Site, null=True, SET_NULL) *)
  }.
End ChecklistTemplate.

Module ChecklistTemplateItem.
Definition TYPE_CHOICES : list (string * string) :=
    [ ("yesno", "SI/NO");
      ("number", "Numero");
      ("text", "Testo");
      ("photo", "Foto") ].

Record t := mk {
    id : Z;
    template : Z;                   (* ForeignKey(ChecklistTemplate, CASCADE) *)
    order : N;                      (* PositiveIntegerField *)
    label : string;
    item_type : string;
    required : bool;
    unit : string;
  }.

  (** [Meta.ordering = ["order", "id"]] *)
Definition ordering (a b : t) : Prop :=
    (order a < order b)%N ∨ (order a = order b ∧ id a ≤ id b).

Global Instance ordering_dec : RelDecision ordering.
Proof. intros a b. unfold ordering. apply _. Defined.
End ChecklistTemplateItem.

Module TaskChecklistItem.
Record t := mk {
    id : Z;
    task : Z;                       (* ForeignKey(MaintenanceTask, CASCADE) *)
    asset : option Z;               (* ForeignKey(Asset, SET_NULL) *)
    template_item : option Z;       (* ForeignKey(ChecklistTemplateItem, SET_NULL) *)
    label_snapshot : string;
    item_type : string;
    required : bool;
    unit : string;
    value_text : string;
    value_number : option decimal;
    value_bool : option bool;
    attachment : option File;
  }.

Definition set_id (v : Z) (x : t) : t :=
    mk v (task x) (asset x) (template_item x) (label_snapshot x)
       (item_type x) (required x) (unit x) (value_text x) (value_number x)
       (value_bool x) (attachment x).
Definition set_asset (v : option Z) (x : t) : t :=
    mk (id x) (task x) v (template_item x) (label_snapshot x)
       (item_type x) (required x) (unit x) (value_text x) (value_number x)
       (value_bool x) (attachment x).
Definition set_template_item (v : option Z) (x : t) : t :=
    mk (id x) (task x) (asset x) v (label_snapshot x)
       (item_type x) (required x) (unit x) (value_text x) (value_number x)
       (value_bool x) (attachment x).
Definition set_value_text (v : string) (x : t) : t :=
    mk (id x) (task x) (asset x) (template_item x) (label_snapshot x)
       (item_type x) (required x) (unit x) v (value_number x)
       (value_bool x) (attachment x).
Definition set_value_number (v : option decimal) (x : t) : t :=
    mk (id x) (task x) (asset x) (template_item x) (label_snapshot x)
       (item_type x) (required x) (unit x) (value_text x) v
       (value_bool x) (attachment x).
Definition set_value_bool (v : option bool) (x : t) : t :=
    mk (id x) (task x) (asset x) (template_item x) (label_snapshot x)
       (item_type x) (required x) (unit x) (value_text x) (value_number x)
       v (attachment x).
Definition set_attachment (v : option File) (x : t) : t :=
    mk (id x) (task x) (asset x) (template_item x) (label_snapshot x)
       (item_type x) (required x) (unit x) (value_text x) (value_number x)
       (value_bool x) v.

  (** [TaskChecklistItem(task=, asset=, template_item=, label_snapshot=,
      item_type=, required=, unit=)]: an unsaved row, the value fields at
      their declared defaults.  The primary key is given by the table's
      sequence when the row is inserted. *)
Definition new (task : Z) (asset template_item : option Z)
      (label_snapshot item_type : string) (required : bool) (unit : string) : t :=
    mk 0 task asset template_item label_snapshot item_type required unit
       "" None None None.
End TaskChecklistItem.

Global Instance Site_eq_dec : EqDecision Site.t.
Proof. solve_decision. Defined.
Global Instance Asset_eq_dec : EqDecision Asset.t.
Proof. solve_decision. Defined.
Global Instance StoredReport_eq_dec : EqDecision StoredReport.
Proof. solve_decision. Defined.
Global Instance MaintenanceTask_eq_dec : EqDecision MaintenanceTask.t.
Proof. solve_decision. Defined.
Global Instance ChecklistTemplate_eq_dec : EqDecision ChecklistTemplate.t.
Proof. solve_decision. Defined.
Global Instance ChecklistTemplateItem_eq_dec : EqDecision ChecklistTemplateItem.t.
Proof. solve_decision. Defined.
Global Instance TaskChecklistItem_eq_dec : EqDecision TaskChecklistItem.t.
Proof. solve_decision. Defined.

(** ** The store *)

(** A model class: its primary key. *)
Class Model (A : Type) := {
  pk : A → Z;
  set_pk : Z → A → A;
}.

Global Instance Site_Model : Model Site.t :=
  {| pk := Site.id;
     set_pk v x := Site.mk v (Site.name x) (Site.address x) (Site.notes x) |}.
Global Instance Asset_Model : Model Asset.t :=
  {| pk := Asset.id;
     set_pk v x :=
       Asset.mk v (Asset.site x) (Asset.name x) (Asset.asset_type x)
         (Asset.serial x) (Asset.vendor x) (Asset.status x)
         (Asset.qr_token x) (Asset.created_at x) |}.
Global Instance MaintenanceTask_Model : Model MaintenanceTask.t :=
  {| pk := MaintenanceTask.id;
     set_pk v x :=
       MaintenanceTask.mk v (MaintenanceTask.site x) (MaintenanceTask.title x)
         (MaintenanceTask.scheduled_for x) (MaintenanceTask.status x)
         (MaintenanceTask.notes x) (MaintenanceTask.report_pdf x)
         (MaintenanceTask.completed_at x) (MaintenanceTask.created_by x) |}.
Global Instance ChecklistTemplate_Model : Model ChecklistTemplate.t :=
  {| pk := ChecklistTemplate.id;
     set_pk v x :=
       ChecklistTemplate.mk v (ChecklistTemplate.name x) (ChecklistTemplate.site x) |}.
Global Instance ChecklistTemplateItem_Model : Model ChecklistTemplateItem.t :=
  {| pk := ChecklistTemplateItem.id;
     set_pk v x :=
       ChecklistTemplateItem.mk v (ChecklistTemplateItem.template x)
         (ChecklistTemplateItem.order x) (ChecklistTemplateItem.label x)
         (ChecklistTemplateItem.item_type x) (ChecklistTemplateItem.required x)
         (ChecklistTemplateItem.unit x) |}.
Global Instance TaskChecklistItem_Model : Model TaskChecklistItem.t :=
  {| pk := TaskChecklistItem.id; set_pk := TaskChecklistItem.set_id |}.

(** A table: its rows in insertion order and the next value of its
    primary-key sequence. *)
Record Table (A : Type) := mk_table {
  rows : list A;
  next_pk : Z;
}.
Arguments mk_table {A} rows next_pk.
Arguments rows {A} _.
Arguments next_pk {A} _.

Module objects.
Section objects.
Context {A : Type} `{Model A}.

(** [Model.objects.filter(id=k).first()] *)
Definition get (t : Table A) (k : Z) : option A :=
  find (λ r, bool_decide (pk r = k)) (rows t).

(** [Model.objects.filter(cond)] *)
Definition filter (cond : A → bool) (t : Table A) : list A :=
  List.filter cond (rows t).

(** [Model.objects.create(...)]: the row gets the next primary key. *)
Definition create (x : A) (t : Table A) : Table A :=
  mk_table (rows t ++ [set_pk (next_pk t) x]) (next_pk t + 1).

(** [Model.objects.bulk_create(items)] *)
Definition bulk_create (items : list A) (t : Table A) : Table A :=
  foldl (λ t x, create x t) t items.

(** [x.save()] of a row read from the table: an UPDATE by primary key. *)
Definition save (x : A) (t : Table A) : Table A :=
  mk_table (map (λ r, if bool_decide (pk r = pk x) then x else r) (rows t))
           (next_pk t).

(** [x.save(update_fields=...)]: [f] writes the listed fields. *)
Definition update (k : Z) (f : A → A) (t : Table A) : Table A :=
  mk_table (map (λ r, if bool_decide (pk r = k) then f r else r) (rows t))
           (next_pk t).

(** Rows removed by a DELETE. *)
Definition delete (cond : A → bool) (t : Table A) : Table A :=
  mk_table (List.filter (λ r, negb (cond r)) (rows t)) (next_pk t).

(** A column rewritten in place (the [SET_NULL] of a deleted referent). *)
Definition rewrite (f : A → A) (t : Table A) : Table A :=
  mk_table (map f (rows t)) (next_pk t).
End objects.
End objects.

Record DB := mk_db {
  sites : Table Site.t;
  assets : Table Asset.t;
  tasks : Table MaintenanceTask.t;
  templates : Table ChecklistTemplate.t;
  template_items : Table ChecklistTemplateItem.t;
  checklist_items : Table TaskChecklistItem.t;
}.

Definition set_sites (v : Table Site.t) (db : DB) : DB :=
  mk_db v (assets db) (tasks db) (templates db) (template_items db)
        (checklist_items db).
Definition set_assets (v : Table Asset.t) (db : DB) : DB :=
  mk_db (sites db) v (tasks db) (templates db) (template_items db)
        (checklist_items db).
Definition set_tasks (v : Table MaintenanceTask.t) (db : DB) : DB :=
  mk_db (sites db) (assets db) v (templates db) (template_items db)
        (checklist_items db).
Definition set_templates (v : Table ChecklistTemplate.t) (db : DB) : DB :=
  mk_db (sites db) (assets db) (tasks db) v (template_items db)
        (checklist_items db).
Definition set_template_items (v : Table ChecklistTemplateItem.t) (db : DB) : DB :=
  mk_db (sites db) (assets db) (tasks db) (templates db) v
        (checklist_items db).
Definition set_checklist_items (v : Table TaskChecklistItem.t) (db : DB) : DB :=
  mk_db (sites db) (assets db) (tasks db) (templates db) (template_items db) v.

(** ** Requests and responses *)

Record Request := mk_request {
  method : string;
  GET : gmap string string;
  POST : gmap string string;
  FILES : gmap string File;
  user : option Z;                  (* [request.user], when authenticated *)
  (** The readings of [timezone.now()] while the request is served: the one
      that stamps a row, and the one inside the report. *)
  now : Z;
  report_now : Z;
  (** [default_storage.save(name, content)] while the request is served:
      the name under which the storage keeps a file offered as [name],
      which is [name] itself when it is free and carries a random suffix
      otherwise. *)
  storage_save : string → string;
}.

(** [QueryDict.get(key, default)] *)
Definition QueryDict_get (d : gmap string string) (key dflt : string) : string :=
  default dflt (d !! key).

Inductive Exn : Type :=
  | Http404
  | ValueError
  | MultipleObjectsReturned
  | ValidationError            (* django.core.exceptions *)
  | InvalidOperation           (* decimal *)
  | OverflowError.

Record TaskPage := mk_task_page {
  page_task : MaintenanceTask.t;
  page_items : list TaskChecklistItem.t;
  page_related_assets : list Asset.t;
  page_checklist_templates : list ChecklistTemplate.t;
  page_site_assets : list Asset.t;
}.

Inductive Response : Type :=
  | Redirect (view : string) (task_id : Z)
  | RedirectToLogin
  | Raised (e : Exn)
  | RenderTask (page : TaskPage)
  | RenderAssets (assets : list Asset.t) (status_filter query : string)
  | RenderTasks (tasks : list MaintenanceTask.t)
  | RenderAsset (asset : Asset.t)
  | RenderDashboard (total_assets total_sites open_tasks : nat)
  | RenderSite (site : Site.t) (assets : list Asset.t)
      (open_tasks : list MaintenanceTask.t)
  | RenderSites (sites : list Site.t)
  | Plain (body : string)
  | QrPng (asset : Asset.t)
  | LabelPdf (asset : Asset.t)
  | FileResponse (report : StoredReport).

(** [order_by(key)], ascending, for an integer and for a text column. *)
Definition order_by_Z {A : Type} (key : A → Z) (a b : A) : Prop := key a ≤ key b.
Definition order_by_str {A : Type} (key : A → string) (a b : A) : Prop :=
  String.le (key a) (key b).

Definition order_by_Z_desc {A : Type} (key : A → Z) (a b : A) : Prop := key b ≤ key a.

Global Instance order_by_Z_desc_dec {A} (key : A → Z) : RelDecision (order_by_Z_desc key).
Proof. intros a b. unfold order_by_Z_desc. apply _. Defined.
Global Instance order_by_Z_dec {A} (key : A → Z) : RelDecision (order_by_Z key).
Proof. intros a b. unfold order_by_Z. apply _. Defined.
Global Instance order_by_str_dec {A} (key : A → string) : RelDecision (order_by_str key).
Proof. intros a b. unfold order_by_str. apply _. Defined.

(** ** views.py *)

Section Views.
Context {RT : Runtime}.

Definition valid_status : list string := MaintenanceTask.STATUS_CHOICES.*1.
Definition valid_types : list string := ChecklistTemplateItem.TYPE_CHOICES.*1.

(** [task.site], [item.asset]: the referenced row.  The foreign key keeps
    it present; a blank row stands for a dangling reference. *)
Definition related_site (db : DB) (k : Z) : Site.t :=
  default (Site.mk k "" "" "") (objects.get (sites db) k).
Definition related_asset (db : DB) (k : Z) : Asset.t :=
  default (Asset.mk k 0 "" "" "" "" "" 0%N 0) (objects.get (assets db) k).

(** [@login_required] *)
Definition login_required (view : DB → Request → DB * Response)
    (db : DB) (request : Request) : DB * Response :=
  match user request with
  | None => (db, RedirectToLogin)
  | Some _ => view db request
  end.

(** [Asset.objects.filter(id=asset_id, site=site).first() if asset_id else None];
    the outer [None] is the [ValueError] of a lookup value that is no number. *)
Definition asset_of_site (db : DB) (asset_id : string) (site : Z)
    : option (option Asset.t) :=
  if truthy asset_id then
    k ← to_pk asset_id;
    Some (find (λ a, bool_decide (Asset.id a = k) && bool_decide (Asset.site a = site))
               (rows (assets db)))
  else Some None.

(** [template.items.all()], under [Meta.ordering]. *)
Definition template_items_all (db : DB) (template : ChecklistTemplate.t)
    : list ChecklistTemplateItem.t :=
  merge_sort ChecklistTemplateItem.ordering
    (objects.filter
       (λ i, bool_decide (ChecklistTemplateItem.template i = ChecklistTemplate.id template))
       (template_items db)).

Definition _parse_datetime_local (now : Z) (value : string) : option Z :=
  let aware d := match d with Naive w => make_aware w | Aware i => i end in
  if negb (truthy value) then Some now
  else match parse_datetime value with
       | Invalid => None
       | Parsed d => Some (aware d)
       | Malformed =>
           match fromisoformat value with
           | None => Some now
           | Some d => Some (aware d)
           end
       end.

Definition _format_datetime_for_pdf (value : option Z) : string :=
  match value with
  | None => "-"
  | Some v => strftime v
  end.

Definition _create_checklist_from_template (db : DB) (task : MaintenanceTask.t)
    (template : ChecklistTemplate.t) (asset : option Asset.t) : DB :=
  let items :=
    map (λ item,
           TaskChecklistItem.new (MaintenanceTask.id task) (Asset.id <$> asset)
             (Some (ChecklistTemplateItem.id item))
             (ChecklistTemplateItem.label item)
             (ChecklistTemplateItem.item_type item)
             (ChecklistTemplateItem.required item)
             (ChecklistTemplateItem.unit item))
        (template_items_all db template) in
  match items with
  | [] => db
  | _ => set_checklist_items (objects.bulk_create items (checklist_items db)) db
  end.

Definition _format_task_item_answer (item : TaskChecklistItem.t) : string :=
  if bool_decide (TaskChecklistItem.item_type item = "yesno") then
    match TaskChecklistItem.value_bool item with
    | Some true => "SI"
    | Some false => "NO"
    | None => "-"
    end
  else if bool_decide (TaskChecklistItem.item_type item = "number") then
    match TaskChecklistItem.value_number item with
    | None => "-"
    | Some d =>
        let unit := if truthy (TaskChecklistItem.unit item)
                    then " " +:+ TaskChecklistItem.unit item else "" in
        str_decimal d +:+ unit
    end
  else if bool_decide (TaskChecklistItem.item_type item = "photo") then
    match TaskChecklistItem.attachment item with
    | Some _ => "Foto allegata"
    | None => "-"
    end
  else if truthy (TaskChecklistItem.value_text item)
       then TaskChecklistItem.value_text item else "-".

(** [str.splitlines()] *)
Definition is_linebreak (c : ascii) : bool :=
  let n := N_of_ascii c in
  ((10 <=? n) && (n <=? 13) || (28 <=? n) && (n <=? 30) || (n =? 133))%N.

Fixpoint splitlines_go (cur : string) (s : string) : list string :=
  match s with
  | "" => if truthy cur then [String.rev cur] else []
  | String c s' =>
      if bool_decide (c = "013"%char) then
        match s' with
        | String "010"%char s'' => String.rev cur :: splitlines_go "" s''
        | _ => String.rev cur :: splitlines_go "" s'
        end
      else if is_linebreak c then String.rev cur :: splitlines_go "" s'
      else splitlines_go (String c cur) s'
  end.

Definition splitlines (s : string) : list string := splitlines_go "" s.

(** [task.get_status_display()] *)
Definition get_status_display (task : MaintenanceTask.t) : string :=
  match find (λ c, bool_decide (c.1 = MaintenanceTask.status task))
             MaintenanceTask.STATUS_CHOICES with
  | Some c => c.2
  | None => MaintenanceTask.status task
  end.

(** [draw_label_value(label, value)] inside the report *)
Definition draw_label_value (label value : string) : Draw :=
  LabelValue label (if truthy value then value else "-").

(** The entries of one checklist item, numbered from [idx]. *)
Definition draw_item (db : DB) (idx : nat) (item : TaskChecklistItem.t) : list Draw :=
  [ Wrapped (pretty idx +:+ ". " +:+ TaskChecklistItem.label_snapshot item)
            "Helvetica-Bold" 10;
    Wrapped ("Risposta: " +:+ _format_task_item_answer item) "Helvetica" 10 ]
  ++ match TaskChecklistItem.asset item with
     | Some a => [ Wrapped ("Asset: " +:+ Asset.name (related_asset db a)) "Helvetica" 9 ]
     | None => []
     end
  ++ [ Gap ].

Definition _build_task_report_pdf (db : DB) (report_now : Z)
    (task : MaintenanceTask.t) (items : list TaskChecklistItem.t) : list Draw :=
  [ Heading "Report intervento";
    SectionTitle "Dati intervento";
    draw_label_value "Sede" (Site.name (related_site db (MaintenanceTask.site task)));
    draw_label_value "Titolo" (MaintenanceTask.title task);
    draw_label_value "Stato" (get_status_display task);
    draw_label_value "Pianificato"
      (_format_datetime_for_pdf (Some (MaintenanceTask.scheduled_for task)));
    draw_label_value "Data esecuzione"
      (_format_datetime_for_pdf (MaintenanceTask.completed_at task));
    draw_label_value "Report generato" (_format_datetime_for_pdf (Some report_now)) ]
  ++ (if truthy (MaintenanceTask.notes task) then
        SectionTitle "Note" ::
        map (λ raw_line, if truthy raw_line then Wrapped raw_line "Helvetica" 10
                         else BlankLine)
            (splitlines (MaintenanceTask.notes task))
      else [])
  ++ [ SectionTitle "Checklist" ]
  ++ concat (imap (λ i item, draw_item db (S i) item) items)
  ++ match items with
     | [] => [ Wrapped "Nessuna voce in checklist." "Helvetica" 10 ]
     | _ => []
     end.

(** *** task_detail *)

(** [if action == "update_task":] *)
Definition task_detail_update_task (db : DB) (request : Request)
    (task : MaintenanceTask.t) : DB * Response :=
  let status := strip (QueryDict_get (POST request) "status" "") in
  let db :=
    if bool_decide (status ∈ valid_status) then
      let was_done := bool_decide (MaintenanceTask.status task = "done") in
      let stamp :=
        bool_decide (status = "done")
        && (negb was_done || bool_decide (MaintenanceTask.completed_at task = None)) in
      set_tasks
        (objects.update (MaintenanceTask.id task)
           (λ row,
              let row := MaintenanceTask.set_status status row in
              if stamp then MaintenanceTask.set_completed_at (Some (now request)) row
              else row)
           (tasks db)) db
    else db in
  (db, Redirect "task_detail" (MaintenanceTask.id task)).

(** [if action == "generate_checklist":] *)
Definition task_detail_generate_checklist (db : DB) (request : Request)
    (task : MaintenanceTask.t) : DB * Response :=
  let template_id := strip (QueryDict_get (POST request) "template_id" "") in
  if truthy template_id then
    match to_pk template_id with
    | None => (db, Raised ValueError)
    | Some k =>
        match objects.get (templates db) k with
        | None => (db, Raised Http404)
        | Some template =>
            let asset_id := strip (QueryDict_get (POST request) "asset_id" "") in
            match asset_of_site db asset_id (MaintenanceTask.site task) with
            | None => (db, Raised ValueError)
            | Some asset =>
                (_create_checklist_from_template db task template asset,
                 Redirect "task_detail" (MaintenanceTask.id task))
            end
        end
    end
  else (db, Redirect "task_detail" (MaintenanceTask.id task)).

(** [if action == "add_checklist_item":] *)
Definition task_detail_add_checklist_item (db : DB) (request : Request)
    (task : MaintenanceTask.t) : DB * Response :=
  let label := strip (QueryDict_get (POST request) "label" "") in
  if truthy label then
    let item_type := strip (QueryDict_get (POST request) "item_type" "yesno") in
    let item_type := if bool_decide (item_type ∈ valid_types) then item_type else "yesno" in
    let required := bool_decide (POST request !! "required" = Some "on") in
    let unit := strip (QueryDict_get (POST request) "unit" "") in
    let asset_id := strip (QueryDict_get (POST request) "asset_id" "") in
    match asset_of_site db asset_id (MaintenanceTask.site task) with
    | None => (db, Raised ValueError)
    | Some asset =>
        (set_checklist_items
           (objects.create
              (TaskChecklistItem.new (MaintenanceTask.id task) (Asset.id <$> asset)
                 None label item_type required unit)
              (checklist_items db)) db,
         Redirect "task_detail" (MaintenanceTask.id task))
    end
  else (db, Redirect "task_detail" (MaintenanceTask.id task)).

(** The body of [for item in items:] under [save_answers], up to
    [item.save()]. *)
Definition capture_answer (request : Request) (item : TaskChecklistItem.t)
    : TaskChecklistItem.t :=
  let key suffix := "item_" +:+ pretty (TaskChecklistItem.id item) +:+ suffix in
  if bool_decide (TaskChecklistItem.item_type item = "yesno") then
    let value := QueryDict_get (POST request) (key "_yesno") "" in
    if bool_decide (value = "yes") then TaskChecklistItem.set_value_bool (Some true) item
    else if bool_decide (value = "no") then TaskChecklistItem.set_value_bool (Some false) item
    else TaskChecklistItem.set_value_bool None item
  else if bool_decide (TaskChecklistItem.item_type item = "number") then
    let value := strip (QueryDict_get (POST request) (key "_number") "") in
    if truthy value then TaskChecklistItem.set_value_number (Decimal value) item
    else TaskChecklistItem.set_value_number None item
  else if bool_decide (TaskChecklistItem.item_type item = "text") then
    TaskChecklistItem.set_value_text
      (strip (QueryDict_get (POST request) (key "_text") "")) item
  else if bool_decide (TaskChecklistItem.item_type item = "photo") then
    match FILES request !! key "_photo" with
    | Some upload => TaskChecklistItem.set_attachment (Some upload) item
    | None => item
    end
  else item.

(** [if request.POST.get("close_task") == "1":] *)
Definition close_task (db : DB) (request : Request) (task : MaintenanceTask.t)
    (items : list TaskChecklistItem.t) : DB :=
  let completed_changed :=
    negb (bool_decide (MaintenanceTask.status task = "done"))
    || bool_decide (MaintenanceTask.completed_at task = None) in
  let task :=
    if completed_changed
    then MaintenanceTask.set_completed_at (Some (now request)) task else task in
  let pdf_bytes := _build_task_report_pdf db (report_now request) task items in
  let filename := "task-" +:+ pretty (MaintenanceTask.id task) +:+ "-report.pdf" in
  (* [task.report_pdf.save(filename, ...)]: offered under [upload_to], kept
     under the name the storage answers *)
  let name := storage_save request (MaintenanceTask.report_pdf_upload_to +:+ filename) in
  let report := Some (mk_report name pdf_bytes) in
  set_tasks
    (objects.update (MaintenanceTask.id task)
       (λ row,
          let row := MaintenanceTask.set_report_pdf report
                       (MaintenanceTask.set_status "done" row) in
          if completed_changed
          then MaintenanceTask.set_completed_at (MaintenanceTask.completed_at task) row
          else row)
       (tasks db)) db.

(** [DecimalField(max_digits=12, decimal_places=3).get_db_prep_save(d)]:
    the value the column takes, or the exception the save raises: a value
    that is not finite is refused by the field, a finite one with too many
    digits by the adapter. *)
Definition get_db_prep_save (d : decimal) : Exn + decimal :=
  match d with
  | Finite _ _ _ =>
      match adapt_decimalfield_value d with
      | Some stored => inr stored
      | None => inl InvalidOperation
      end
  | Infinity _ | NaN _ _ _ => inl ValidationError
  end.

(** The row that [item.save()] writes for a checklist item, or the
    exception it raises: every column takes the field as it is but for
    [value_number]. *)
Definition row_for_save (item : TaskChecklistItem.t) : Exn + TaskChecklistItem.t :=
  match TaskChecklistItem.value_number item with
  | None => inr item
  | Some d =>
      match get_db_prep_save d with
      | inl e => inl e
      | inr stored => inr (TaskChecklistItem.set_value_number (Some stored) item)
      end
  end.

(** [for item in items: ...; item.save()]: the database when the loop
    ends, or when a [save] leaves it with an exception; the items saved
    until then stay saved. *)
Fixpoint save_answers_items (db : DB) (request : Request)
    (items : list TaskChecklistItem.t) : DB * option Exn :=
  match items with
  | [] => (db, None)
  | item :: items =>
      match row_for_save (capture_answer request item) with
      | inl e => (db, Some e)
      | inr row =>
          save_answers_items
            (set_checklist_items (objects.save row (checklist_items db)) db)
            request items
      end
  end.

(** [if action == "save_answers":] *)
Definition task_detail_save_answers (db : DB) (request : Request)
    (task : MaintenanceTask.t) : DB * Response :=
  let items :=
    objects.filter
      (λ i, bool_decide (TaskChecklistItem.task i = MaintenanceTask.id task))
      (checklist_items db) in
  match save_answers_items db request items with
  | (db, Some e) => (db, Raised e)
  | (db, None) =>
      (* the items in memory hold the answers as captured *)
      let items := map (capture_answer request) items in
      let db :=
        if bool_decide (POST request !! "close_task" = Some "1")
        then close_task db request task items else db in
      (db, Redirect "task_detail" (MaintenanceTask.id task))
  end.

(** The page of a GET (or of a POST with no known action). *)
Definition task_detail_page (db : DB) (task : MaintenanceTask.t) : TaskPage :=
  let on_task i := bool_decide (TaskChecklistItem.task i = MaintenanceTask.id task) in
  {| page_task := task;
     page_items :=
       merge_sort (order_by_Z TaskChecklistItem.id)
         (objects.filter on_task (checklist_items db));
     page_related_assets :=
       objects.filter
         (λ a, existsb (λ i, on_task i
                             && bool_decide (TaskChecklistItem.asset i = Some (Asset.id a)))
                       (rows (checklist_items db)))
         (assets db);
     page_checklist_templates :=
       merge_sort (order_by_str ChecklistTemplate.name)
         (objects.filter
            (λ t, bool_decide (ChecklistTemplate.site t = Some (MaintenanceTask.site task))
                  || bool_decide (ChecklistTemplate.site t = None))
            (templates db));
     page_site_assets :=
       merge_sort (order_by_str Asset.name)
         (objects.filter (λ a, bool_decide (Asset.site a = MaintenanceTask.site task))
            (assets db)) |}.

Definition task_detail_view (task_id : Z) (db : DB) (request : Request)
    : DB * Response :=
  match objects.get (tasks db) task_id with
  | None => (db, Raised Http404)
  | Some task =>
      let action := QueryDict_get (POST request) "action" "" in
      if negb (bool_decide (method request = "POST")) then
        (db, RenderTask (task_detail_page db task))
      else if bool_decide (action = "update_task") then
        task_detail_update_task db request task
      else if bool_decide (action = "generate_checklist") then
        task_detail_generate_checklist db request task
      else if bool_decide (action = "add_checklist_item") then
        task_detail_add_checklist_item db request task
      else if bool_decide (action = "save_answers") then
        task_detail_save_answers db request task
      else (db, RenderTask (task_detail_page db task))
  end.

Definition task_detail (db : DB) (request : Request) (task_id : Z) : DB * Response :=
  login_required (task_detail_view task_id) db request.

(** *** asset_list *)

Definition asset_list_view (db : DB) (request : Request) : DB * Response :=
  let status_filter := strip (QueryDict_get (GET request) "status" "") in
  let query := strip (QueryDict_get (GET request) "q" "") in
  let assets := rows (assets db) in
  let assets :=
    if truthy status_filter
    then List.filter (λ a, bool_decide (Asset.status a = status_filter)) assets
    else assets in
  let assets :=
    if truthy query
    then List.filter
           (λ a, icontains (Asset.name a) query
                 || icontains (Asset.asset_type a) query
                 || icontains (Asset.serial a) query
                 || icontains (Site.name (related_site db (Asset.site a))) query
                 || icontains (Asset.vendor a) query)
           assets
    else assets in
  let assets := merge_sort (order_by_str Asset.name) assets in
  (db, RenderAssets assets status_filter query).

Definition asset_list (db : DB) (request : Request) : DB * Response :=
  login_required asset_list_view db request.

(** *** task_list *)

(** The listing below the creation form.  The queryset is evaluated when
    the page is rendered: a site key the adapter cannot bind raises
    there. *)
Definition task_list_page (db : DB) (request : Request) : DB * Response :=
  let status_filter := strip (QueryDict_get (GET request) "status" "") in
  let site_filter := strip (QueryDict_get (GET request) "site" "") in
  let query := strip (QueryDict_get (GET request) "q" "") in
  let tasks := rows (tasks db) in
  let tasks :=
    if truthy status_filter
    then List.filter (λ t, bool_decide (MaintenanceTask.status t = status_filter)) tasks
    else tasks in
  let tasks : option (list MaintenanceTask.t * bool) :=
    if truthy site_filter
    then k ← to_pk site_filter;
         Some (List.filter (λ t, bool_decide (MaintenanceTask.site t = k)) tasks,
               binds_integer k)
    else Some (tasks, true) in
  match tasks with
  | None => (db, Raised ValueError)
  | Some (tasks, bound) =>
      let tasks :=
        if truthy query
        then List.filter
               (λ t, icontains (MaintenanceTask.title t) query
                     || icontains (MaintenanceTask.notes t) query)
               tasks
        else tasks in
      if bound
      then (db, RenderTasks
                  (merge_sort (order_by_Z_desc MaintenanceTask.scheduled_for) tasks))
      else (db, Raised OverflowError)
  end.

(** [if template_id:] after the task is created. *)
Definition create_task_checklist (db : DB) (request : Request) (site : Site.t)
    (task : MaintenanceTask.t) : DB * Response :=
  let template_id := strip (QueryDict_get (POST request) "template_id" "") in
  let asset_id := strip (QueryDict_get (POST request) "asset_id" "") in
  if truthy template_id then
    match to_pk template_id with
    | None => (db, Raised ValueError)
    | Some k =>
        match objects.get (templates db) k with
        | None => (db, Raised Http404)
        | Some template =>
            let template :=
              match ChecklistTemplate.site template with
              | Some site_id =>
                  if negb (bool_decide (site_id = 0))
                     && negb (bool_decide (site_id = Site.id site))
                  then None else Some template
              | None => Some template
              end in
            match asset_of_site db asset_id (Site.id site) with
            | None => (db, Raised ValueError)
            | Some asset =>
                match template with
                | Some template =>
                    (_create_checklist_from_template db task template asset,
                     Redirect "task_detail" (MaintenanceTask.id task))
                | None => (db, Redirect "task_detail" (MaintenanceTask.id task))
                end
            end
        end
    end
  else (db, Redirect "task_detail" (MaintenanceTask.id task)).

Definition task_list_view (db : DB) (request : Request) : DB * Response :=
  if bool_decide (method request = "POST")
     && bool_decide (POST request !! "action" = Some "create_task") then
    let title := strip (QueryDict_get (POST request) "title" "") in
    let site_id := strip (QueryDict_get (POST request) "site_id" "") in
    if truthy title && truthy site_id then
      match to_pk site_id with
      | None => (db, Raised ValueError)
      | Some k =>
          match objects.get (sites db) k with
          | None => (db, Raised Http404)
          | Some site =>
              match _parse_datetime_local (now request)
                      (strip (QueryDict_get (POST request) "scheduled_for" "")) with
              | None => (db, Raised ValueError)
              | Some scheduled_for =>
                  let status := strip (QueryDict_get (POST request) "status" "scheduled") in
                  let status :=
                    if bool_decide (status ∈ valid_status) then status else "scheduled" in
                  let notes := strip (QueryDict_get (POST request) "notes" "") in
                  let task :=
                    MaintenanceTask.mk (next_pk (tasks db)) (Site.id site) title
                      scheduled_for status notes None None (user request) in
                  let db := set_tasks (objects.create task (tasks db)) db in
                  create_task_checklist db request site task
              end
          end
      end
    else task_list_page db request
  else task_list_page db request.

Definition task_list (db : DB) (request : Request) : DB * Response :=
  login_required task_list_view db request.

(** *** dashboard *)

Definition dashboard_page (db : DB) : DB * Response :=
  (db,
   RenderDashboard
     (length (rows (assets db)))
     (length (rows (sites db)))
     (length (List.filter
                (λ t, negb (bool_decide (MaintenanceTask.status t ∈ ["done"; "cancelled"])))
                (rows (tasks db))))).

Definition dashboard_view (db : DB) (request : Request) : DB * Response :=
  if bool_decide (method request = "POST")
     && bool_decide (POST request !! "action" = Some "start_task") then
    let task_id := strip (QueryDict_get (POST request) "task_id" "") in
    if truthy task_id then
      match to_pk task_id with
      | None => (db, Raised ValueError)
      | Some k =>
          match objects.get (tasks db) k with
          | None => (db, Raised Http404)
          | Some task =>
              let db :=
                if bool_decide (MaintenanceTask.status task ∈ ["scheduled"; "in_progress"])
                then set_tasks
                       (objects.update (MaintenanceTask.id task)
                          (MaintenanceTask.set_status "in_progress") (tasks db)) db
                else db in
              (db, Redirect "task_detail" (MaintenanceTask.id task))
          end
      end
    else dashboard_page db
  else dashboard_page db.

Definition dashboard (db : DB) (request : Request) : DB * Response :=
  login_required dashboard_view db request.

(** *** The views that only read *)

Definition healthz (db : DB) (request : Request) : DB * Response :=
  (db, Plain "ok").

Definition asset_by_token_view (token : N) (db : DB) (request : Request)
    : DB * Response :=
  match objects.filter (λ a, bool_decide (Asset.qr_token a = token)) (assets db) with
  | [] => (db, Raised Http404)
  | [asset] => (db, RenderAsset asset)
  | _ => (db, Raised MultipleObjectsReturned)
  end.

Definition asset_by_token (db : DB) (request : Request) (token : N) : DB * Response :=
  login_required (asset_by_token_view token) db request.

Definition asset_qr_png (db : DB) (request : Request) (asset_id : Z) : DB * Response :=
  match objects.get (assets db) asset_id with
  | None => (db, Raised Http404)
  | Some asset => (db, QrPng asset)
  end.

Definition asset_label_pdf (db : DB) (request : Request) (asset_id : Z) : DB * Response :=
  match objects.get (assets db) asset_id with
  | None => (db, Raised Http404)
  | Some asset => (db, LabelPdf asset)
  end.

Definition task_report_pdf_view (task_id : Z) (db : DB) (request : Request)
    : DB * Response :=
  match objects.get (tasks db) task_id with
  | None => (db, Raised Http404)
  | Some task =>
      match MaintenanceTask.report_pdf task with
      | None => (db, Raised Http404)
      | Some report => (db, FileResponse report)
      end
  end.

Definition task_report_pdf (db : DB) (request : Request) (task_id : Z) : DB * Response :=
  login_required (task_report_pdf_view task_id) db request.

Definition site_detail_view (site_id : Z) (db : DB) (request : Request)
    : DB * Response :=
  match objects.get (sites db) site_id with
  | None => (db, Raised Http404)
  | Some site =>
      (db,
       RenderSite site
         (merge_sort (order_by_str Asset.name)
            (objects.filter (λ a, bool_decide (Asset.site a = Site.id site)) (assets db)))
         (merge_sort (order_by_Z MaintenanceTask.scheduled_for)
            (objects.filter
               (λ t, bool_decide (MaintenanceTask.site t = Site.id site)
                     && negb (bool_decide (MaintenanceTask.status t ∈ ["done"; "cancelled"])))
               (tasks db))))
  end.

Definition site_detail (db : DB) (request : Request) (site_id : Z) : DB * Response :=
  login_required (site_detail_view site_id) db request.

Definition site_list_view (db : DB) (request : Request) : DB * Response :=
  let query := strip (QueryDict_get (GET request) "q" "") in
  let sites := merge_sort (order_by_str Site.name) (rows (sites db)) in
  let sites :=
    if truthy query
    then List.filter
           (λ s, icontains (Site.name s) query || icontains (Site.address s) query) sites
    else sites in
  (db, RenderSites sites).

Definition site_list (db : DB) (request : Request) : DB * Response :=
  login_required site_list_view db request.

End Views.

(** ** admin.py: the row operations of the admin site

    Every model is registered, so each table has an add, a change and a
    delete.  They are modelled at the level of the rows written, under the
    constraints [models.py] declares: the foreign keys, their [on_delete]
    and the [unique] token.  [None] is an operation the store refuses. *)

Inductive AdminOp : Type :=
  | AddSite (row : Site.t)
  | ChangeSite (row : Site.t)
  | DeleteSite (k : Z)
  | AddAsset (form : Asset.form) (uuid4 : N) (created_at : Z)
  | ChangeAsset (k : Z) (form : Asset.form)
  | DeleteAsset (k : Z)
  | AddTask (row : MaintenanceTask.t)
  | ChangeTask (row : MaintenanceTask.t)
  | DeleteTask (k : Z)
  | AddTemplate (row : ChecklistTemplate.t)
  | ChangeTemplate (row : ChecklistTemplate.t)
  | DeleteTemplate (k : Z)
  | AddTemplateItem (row : ChecklistTemplateItem.t)
  | ChangeTemplateItem (row : ChecklistTemplateItem.t)
  | DeleteTemplateItem (k : Z)
  | AddChecklistItem (row : TaskChecklistItem.t)
  | ChangeChecklistItem (row : TaskChecklistItem.t)
  | DeleteChecklistItem (k : Z).

Definition has_pk {A} `{Model A} (t : Table A) (k : Z) : bool :=
  bool_decide (is_Some (objects.get t k)).

(** A nullable foreign key is satisfied by [None]. *)
Definition has_pk_opt {A} `{Model A} (t : Table A) (k : option Z) : bool :=
  match k with
  | None => true
  | Some k => has_pk t k
  end.

(** [on_delete=SET_NULL] on the two weak references of a checklist item. *)
Definition null_asset (gone : Z → bool) (i : TaskChecklistItem.t) : TaskChecklistItem.t :=
  match TaskChecklistItem.asset i with
  | Some a => if gone a then TaskChecklistItem.set_asset None i else i
  | None => i
  end.

Definition null_template_item (gone : Z → bool) (i : TaskChecklistItem.t)
    : TaskChecklistItem.t :=
  match TaskChecklistItem.template_item i with
  | Some a => if gone a then TaskChecklistItem.set_template_item None i else i
  | None => i
  end.

Definition null_template_site (gone : Z → bool) (t : ChecklistTemplate.t)
    : ChecklistTemplate.t :=
  match ChecklistTemplate.site t with
  | Some s => if gone s
              then ChecklistTemplate.mk (ChecklistTemplate.id t) (ChecklistTemplate.name t) None
              else t
  | None => t
  end.

(** Deleting assets nulls the items that point at them. *)
Definition delete_assets (cond : Asset.t → bool) (db : DB) : DB :=
  let gone k := existsb (λ a, cond a && bool_decide (Asset.id a = k)) (rows (assets db)) in
  set_assets (objects.delete cond (assets db))
    (set_checklist_items (objects.rewrite (null_asset gone) (checklist_items db)) db).

(** Deleting tasks deletes their checklist items. *)
Definition delete_tasks (cond : MaintenanceTask.t → bool) (db : DB) : DB :=
  let gone k :=
    existsb (λ t, cond t && bool_decide (MaintenanceTask.id t = k)) (rows (tasks db)) in
  set_tasks (objects.delete cond (tasks db))
    (set_checklist_items
       (objects.delete (λ i, gone (TaskChecklistItem.task i)) (checklist_items db)) db).

(** Deleting template items nulls [template_item] on the snapshots. *)
Definition delete_template_items (cond : ChecklistTemplateItem.t → bool) (db : DB) : DB :=
  let gone k :=
    existsb (λ t, cond t && bool_decide (ChecklistTemplateItem.id t = k))
            (rows (template_items db)) in
  set_template_items (objects.delete cond (template_items db))
    (set_checklist_items
       (objects.rewrite (null_template_item gone) (checklist_items db)) db).

(** Deleting a template deletes its items. *)
Definition delete_template (k : Z) (db : DB) : DB :=
  let db :=
    delete_template_items (λ i, bool_decide (ChecklistTemplateItem.template i = k)) db in
  set_templates
    (objects.delete (λ t, bool_decide (ChecklistTemplate.id t = k)) (templates db)) db.

(** Deleting a site deletes its assets and tasks and turns its templates
    into global ones. *)
Definition delete_site (k : Z) (db : DB) : DB :=
  let db := delete_assets (λ a, bool_decide (Asset.site a = k)) db in
  let db := delete_tasks (λ t, bool_decide (MaintenanceTask.site t = k)) db in
  let db :=
    set_templates
      (objects.rewrite (null_template_site (λ s, bool_decide (s = k))) (templates db)) db in
  set_sites (objects.delete (λ s, bool_decide (Site.id s = k)) (sites db)) db.

Definition admin_site (db : DB) (op : AdminOp) : option DB :=
  match op with
  | AddSite row => Some (set_sites (objects.create row (sites db)) db)
  | ChangeSite row =>
      if has_pk (sites db) (Site.id row)
      then Some (set_sites (objects.save row (sites db)) db) else None
  | DeleteSite k =>
      if has_pk (sites db) k then Some (delete_site k db) else None
  | AddAsset form uuid4 created_at =>
      if has_pk (sites db) (Asset.f_site form)
         && negb (existsb (λ a, bool_decide (Asset.qr_token a = uuid4)) (rows (assets db)))
      then
        Some (set_assets
                (objects.create
                   (Asset.mk 0 (Asset.f_site form) (Asset.f_name form)
                      (Asset.f_asset_type form) (Asset.f_serial form)
                      (Asset.f_vendor form) (Asset.f_status form) uuid4 created_at)
                   (assets db)) db)
      else None
  | ChangeAsset k form =>
      if has_pk (assets db) k && has_pk (sites db) (Asset.f_site form)
      then
        Some (set_assets (objects.update k (Asset.write_form form) (assets db)) db)
      else None
  | DeleteAsset k =>
      if has_pk (assets db) k
      then Some (delete_assets (λ a, bool_decide (Asset.id a = k)) db) else None
  | AddTask row =>
      if has_pk (sites db) (MaintenanceTask.site row)
      then Some (set_tasks (objects.create row (tasks db)) db) else None
  | ChangeTask row =>
      if has_pk (tasks db) (MaintenanceTask.id row)
         && has_pk (sites db) (MaintenanceTask.site row)
      then Some (set_tasks (objects.save row (tasks db)) db) else None
  | DeleteTask k =>
      if has_pk (tasks db) k
      then Some (delete_tasks (λ t, bool_decide (MaintenanceTask.id t = k)) db) else None
  | AddTemplate row =>
      if has_pk_opt (sites db) (ChecklistTemplate.site row)
      then Some (set_templates (objects.create row (templates db)) db) else None
  | ChangeTemplate row =>
      if has_pk (templates db) (ChecklistTemplate.id row)
         && has_pk_opt (sites db) (ChecklistTemplate.site row)
      then Some (set_templates (objects.save row (templates db)) db) else None
  | DeleteTemplate k =>
      if has_pk (templates db) k then Some (delete_template k db) else None
  | AddTemplateItem row =>
      if has_pk (templates db) (ChecklistTemplateItem.template row)
      then Some (set_template_items (objects.create row (template_items db)) db) else None
  | ChangeTemplateItem row =>
      if has_pk (template_items db) (ChecklistTemplateItem.id row)
         && has_pk (templates db) (ChecklistTemplateItem.template row)
      then Some (set_template_items (objects.save row (template_items db)) db) else None
  | DeleteTemplateItem k =>
      if has_pk (template_items db) k
      then Some (delete_template_items (λ i, bool_decide (ChecklistTemplateItem.id i = k)) db)
      else None
  | AddChecklistItem row =>
      if has_pk (tasks db) (TaskChecklistItem.task row)
         && has_pk_opt (assets db) (TaskChecklistItem.asset row)
         && has_pk_opt (template_items db) (TaskChecklistItem.template_item row)
      then Some (set_checklist_items (objects.create row (checklist_items db)) db) else None
  | ChangeChecklistItem row =>
      if has_pk (checklist_items db) (TaskChecklistItem.id row)
         && has_pk (tasks db) (TaskChecklistItem.task row)
         && has_pk_opt (assets db) (TaskChecklistItem.asset row)
         && has_pk_opt (template_items db) (TaskChecklistItem.template_item row)
      then Some (set_checklist_items (objects.save row (checklist_items db)) db) else None
  | DeleteChecklistItem k =>
      if has_pk (checklist_items db) k
      then Some (set_checklist_items
                   (objects.delete (λ i, bool_decide (TaskChecklistItem.id i = k))
                      (checklist_items db)) db)
      else None
  end.

(** ** The system: every entry point of [urls.py] *)

Inductive Event : Type :=
  | Dashboard (request : Request)
  | Healthz (request : Request)
  | AssetList (request : Request)
  | TaskList (request : Request)
  | SiteList (request : Request)
  | SiteDetail (request : Request) (site_id : Z)
  | AssetByToken (request : Request) (token : N)
  | AssetQrPng (request : Request) (asset_id : Z)
  | AssetLabelPdf (request : Request) (asset_id : Z)
  | TaskDetail (request : Request) (task_id : Z)
  | TaskReportPdf (request : Request) (task_id : Z)
  | Admin (op : AdminOp).

Definition serve {RT : Runtime} (db : DB) (e : Event) : DB * option Response :=
  let view r := (r.1, Some r.2) in
  match e with
  | Dashboard request => view (dashboard db request)
  | Healthz request => view (healthz db request)
  | AssetList request => view (asset_list db request)
  | TaskList request => view (task_list db request)
  | SiteList request => view (site_list db request)
  | SiteDetail request site_id => view (site_detail db request site_id)
  | AssetByToken request token => view (asset_by_token db request token)
  | AssetQrPng request asset_id => view (asset_qr_png db request asset_id)
  | AssetLabelPdf request asset_id => view (asset_label_pdf db request asset_id)
  | TaskDetail request task_id => view (task_detail db request task_id)
  | TaskReportPdf request task_id => view (task_report_pdf db request task_id)
  | Admin op => (default db (admin_site db op), None)
  end.

(** The database after a sequence of events. *)
Definition run {RT : Runtime} (db : DB) (events : list Event) : DB :=
  foldl (λ db e, (serve db e).1) db events.

(** The database of a fresh installation. *)
Definition empty_db : DB :=
  mk_db (mk_table [] 1) (mk_table [] 1) (mk_table [] 1)
        (mk_table [] 1) (mk_table [] 1) (mk_table [] 1).

(** ** A runtime for the worked examples

    It reads plain numerals: [Decimal] accepts an optional sign, digits
    and at most one point, and the words [NaN] and [Infinity]; a primary
    key is a run of digits; a date is a number of seconds.  The decimal
    column rounds to three places, half to even, and holds twelve digits;
    the adapter binds signed 64-bit integers. *)

Fixpoint plain_digits (s : string) (coeff : N) (count : nat) (places : option nat)
    : option (N * nat) :=
  match s with
  | "" => if bool_decide (count = 0%nat) then None else Some (coeff, default 0%nat places)
  | String c r =>
      if bool_decide (c = "."%char) then
        match places with
        | Some _ => None
        | None => plain_digits r coeff count (Some 0%nat)
        end
      else
        match Ascii.is_nat c with
        | Some d => plain_digits r (10 * coeff + N.of_nat d)%N (S count) (S <$> places)
        | None => None
        end
  end.

Definition plain_Decimal (s : string) : option decimal :=
  let '(negative, body) :=
    match s with
    | String "-"%char r => (true, r)
    | String "+"%char r => (false, r)
    | _ => (false, s)
    end in
  if bool_decide (body = "NaN") then Some (NaN negative false 0)
  else if bool_decide (body = "Infinity") then Some (Infinity negative)
  else
    '(coeff, places) ← plain_digits body 0%N 0%nat None;
    Some (Finite negative coeff (- Z.of_nat places)).

(** [coeff / unit], rounded half to even. *)
Definition plain_round (coeff unit : N) : N :=
  let q := (coeff / unit)%N in
  let r := (coeff mod unit)%N in
  if (unit <? 2 * r)%N || ((2 * r =? unit)%N && N.odd q) then (q + 1)%N else q.

Definition plain_adapt_decimal (d : decimal) : option decimal :=
  match d with
  | Finite negative coeff exponent =>
      let coeff :=
        if decide (-3 ≤ exponent)
        then (coeff * 10 ^ Z.to_N (exponent + 3))%N
        else plain_round coeff (10 ^ Z.to_N (- 3 - exponent)) in
      if (coeff <? 10 ^ 12)%N then Some (Finite negative coeff (-3)) else None
  | _ => None
  end.

Definition plain_int (s : string) : option Z :=
  '(n, places) ← plain_digits s 0%N 0%nat (Some 0%nat);
  Some (Z.of_N n).

Definition plain_str_decimal (d : decimal) : string :=
  match d with
  | Finite negative coeff exponent =>
      (if negative then "-" else "") +:+ pretty coeff +:+ "E" +:+ pretty exponent
  | Infinity negative => (if negative then "-" else "") +:+ "Infinity"
  | NaN negative _ _ => (if negative then "-" else "") +:+ "NaN"
  end.

Definition plain_runtime : Runtime :=
  {| Decimal := plain_Decimal;
     str_decimal := plain_str_decimal;
     to_pk := plain_int;
     parse_datetime s := match plain_int s with
                         | Some t => Parsed (Aware t)
                         | None => Malformed
                         end;
     fromisoformat s := None;
     make_aware w := w;
     strftime := pretty;
     adapt_decimalfield_value := plain_adapt_decimal;
     binds_integer k := bool_decide (- 2 ^ 63 ≤ k < 2 ^ 63) |}.

(** ** A small installation, for the worked examples *)

Module Demo.
Definition pump : Asset.t :=
  Asset.mk 1 1 "Pompa irrigazione" "pompa" "PX-100" "Idrotec" "active" 1001 10.
Definition boiler : Asset.t :=
  Asset.mk 2 2 "Caldaia" "caldaia" "CB-7" "Thermo" "out_of_service" 1002 11.

Definition monthly : MaintenanceTask.t :=
  MaintenanceTask.mk 1 1 "Controllo mensile" 50 "scheduled" "" None None None.
Definition overhaul : MaintenanceTask.t :=
  MaintenanceTask.mk 2 2 "Revisione caldaia" 60 "done" "" None (Some 70) None.
Definition inspection : MaintenanceTask.t :=
  MaintenanceTask.mk 3 2 "Ispezione" 80 "in_progress" "" None None None.

Definition pump_template : ChecklistTemplate.t :=
  ChecklistTemplate.mk 1 "Controllo pompa" (Some 1).
Definition general_template : ChecklistTemplate.t :=
  ChecklistTemplate.mk 2 "Generale" None.

Definition pressure : ChecklistTemplateItem.t :=
  ChecklistTemplateItem.mk 1 1 2 "Pressione" "number" true "bar".
Definition leaks : ChecklistTemplateItem.t :=
  ChecklistTemplateItem.mk 2 1 1 "Perdite visibili" "yesno" true "".
Definition remarks : ChecklistTemplateItem.t :=
  ChecklistTemplateItem.mk 3 2 0 "Osservazioni" "text" false "".
Definition picture : ChecklistTemplateItem.t :=
  ChecklistTemplateItem.mk 4 1 1 "Foto" "photo" false "".

Definition leaks_answer : TaskChecklistItem.t :=
  TaskChecklistItem.mk 1 1 None (Some 2) "Perdite visibili" "yesno" true ""
    "" None (Some true) None.
Definition pressure_answer : TaskChecklistItem.t :=
  TaskChecklistItem.mk 2 1 (Some 1) (Some 1) "Pressione" "number" true "bar"
    "" (Some (Finite false 2500 (-3))) None None.
Definition remarks_answer : TaskChecklistItem.t :=
  TaskChecklistItem.mk 3 1 None None "Osservazioni" "text" false ""
    "tutto in ordine" None None None.
Definition picture_answer : TaskChecklistItem.t :=
  TaskChecklistItem.mk 4 1 None (Some 4) "Foto" "photo" false ""
    "" None None (Some "pompa.jpg").

Definition answers : list TaskChecklistItem.t :=
  [leaks_answer; pressure_answer; remarks_answer; picture_answer].

Definition db : DB :=
  mk_db (mk_table [Site.mk 1 "Vivaio Nord" "" ""; Site.mk 2 "Serra Sud" "" ""] 3)
        (mk_table [pump; boiler] 3)
        (mk_table [monthly; overhaul; inspection] 4)
        (mk_table [pump_template; general_template] 3)
        (mk_table [pressure; leaks; remarks; picture] 5)
        (mk_table answers 5).

(** The same installation with a second number item on the monthly
    check. *)
Definition flow_answer : TaskChecklistItem.t :=
  TaskChecklistItem.mk 5 1 None None "Portata" "number" false "l/min"
    "" (Some (Finite false 7000 (-3))) None None.

Definition two_numbers : DB :=
  set_checklist_items (mk_table (answers ++ [flow_answer]) 6) db.

(** A logged-in POST of the given form fields at instant [900], with a
    storage in which every name is free. *)
Definition post (fields : list (string * string)) : Request :=
  mk_request "POST" ∅ (list_to_map fields) ∅ (Some 7) 900 901 id.

(** A logged-in GET with the given query string. *)
Definition get (query : list (string * string)) : Request :=
  mk_request "GET" (list_to_map query) ∅ ∅ (Some 7) 900 901 id.
End Demo.

(** ** The vocabulary of the properties *)

(** *** Requests and the task lifecycle *)

(** A logged-in POST whose [action] field is [action]. *)
Definition posts (request : Request) (action : string) : Prop :=
  is_Some (user request) ∧ method request = "POST"
  ∧ POST request !! "action" = Some action.

Global Instance posts_dec request action : Decision (posts request action).
Proof. unfold posts. apply _. Defined.

(** The completion time the stamping rule leaves on a task that enters
    [done] at instant [now]. *)
Definition stamped (now : Z) (task : MaintenanceTask.t) : option Z :=
  if decide (MaintenanceTask.status task ≠ "done"
             ∨ MaintenanceTask.completed_at task = None)
  then Some now else MaintenanceTask.completed_at task.

(** The checklist items of a task, in the order [save_answers] walks
    them: the order of the table, which hands out rows as they were
    inserted. *)
Definition items_of (db : DB) (task_id : Z) : list TaskChecklistItem.t :=
  objects.filter (λ i, bool_decide (TaskChecklistItem.task i = task_id))
                 (checklist_items db).

(** The store takes the answer captured for the item: its [save] does not
    raise. *)
Definition accepted {RT : Runtime} (request : Request) (item : TaskChecklistItem.t)
    : bool :=
  match row_for_save (capture_answer request item) with
  | inr _ => true
  | inl _ => false
  end.

(** The row stored for an item whose answer the store takes. *)
Definition stored_answer {RT : Runtime} (request : Request) (item : TaskChecklistItem.t)
    : TaskChecklistItem.t :=
  match row_for_save (capture_answer request item) with
  | inr row => row
  | inl _ => item
  end.

(** The store takes every answer of the submission for the task. *)
Definition answers_accepted {RT : Runtime} (db : DB) (request : Request) (task_id : Z)
    : Prop :=
  Forall (λ item, accepted request item = true) (items_of db task_id).

Global Instance answers_accepted_dec {RT : Runtime} db request task_id :
  Decision (answers_accepted db request task_id).
Proof. unfold answers_accepted. apply _. Defined.

(** The items the loop of [save_answers] has saved when it ends or is
    left: those before the first one the store refuses. *)
Fixpoint answers_reached {RT : Runtime} (request : Request)
    (items : list TaskChecklistItem.t) : list TaskChecklistItem.t :=
  match items with
  | [] => []
  | item :: items =>
      if accepted request item then item :: answers_reached request items else []
  end.

(** The rows the loop of [save_answers] has written when it ends or is
    left, in the order of the items, and the exception that ends it. *)
Fixpoint answers_saved {RT : Runtime} (request : Request)
    (items : list TaskChecklistItem.t) : list TaskChecklistItem.t :=
  match items with
  | [] => []
  | item :: items =>
      match row_for_save (capture_answer request item) with
      | inl _ => []
      | inr row => row :: answers_saved request items
      end
  end.

Fixpoint answers_refused {RT : Runtime} (request : Request)
    (items : list TaskChecklistItem.t) : option Exn :=
  match items with
  | [] => None
  | item :: items =>
      match row_for_save (capture_answer request item) with
      | inl e => Some e
      | inr _ => answers_refused request items
      end
  end.

(** The request moves the task into [done]: a status update whose trimmed
    target is [done], or a submission of answers that closes the task and
    whose answers the store takes. *)
Definition enters_done {RT : Runtime} (db : DB) (request : Request) (task_id : Z)
    : Prop :=
  (posts request "update_task"
   ∧ strip (QueryDict_get (POST request) "status" "") = "done")
  ∨ (posts request "save_answers" ∧ POST request !! "close_task" = Some "1"
     ∧ answers_accepted db request task_id).

Global Instance enters_done_dec {RT : Runtime} db request task_id :
  Decision (enters_done db request task_id).
Proof. unfold enters_done. apply _. Defined.

(** *** Frame conditions *)

(** [db'] differs from [db] in the checklist items at most. *)
Definition only_checklist_items (db db' : DB) : Prop :=
  sites db' = sites db ∧ assets db' = assets db ∧ tasks db' = tasks db
  ∧ templates db' = templates db ∧ template_items db' = template_items db.

(** [db'] differs from [db] in the task rows at most. *)
Definition only_tasks (db db' : DB) : Prop :=
  sites db' = sites db ∧ assets db' = assets db
  ∧ templates db' = templates db ∧ template_items db' = template_items db
  ∧ checklist_items db' = checklist_items db.

(** *** Answers *)

(** The form field that carries the answer of an item. *)
Definition answer_key (item : TaskChecklistItem.t) (suffix : string) : string :=
  "item_" +:+ pretty (TaskChecklistItem.id item) +:+ suffix.

(** Only the value field that the type of the item selects is populated. *)
Definition only_selected_value (i : TaskChecklistItem.t) : Prop :=
  (TaskChecklistItem.item_type i ≠ "text" → TaskChecklistItem.value_text i = "")
  ∧ (TaskChecklistItem.item_type i ≠ "number" → TaskChecklistItem.value_number i = None)
  ∧ (TaskChecklistItem.item_type i ≠ "yesno" → TaskChecklistItem.value_bool i = None)
  ∧ (TaskChecklistItem.item_type i ≠ "photo" → TaskChecklistItem.attachment i = None).

Global Instance only_selected_value_dec i : Decision (only_selected_value i).
Proof. unfold only_selected_value. apply _. Defined.

(** [after] is [before] with, at most, the value field of its type written. *)
Definition wrote_selected_value (before after : TaskChecklistItem.t) : Prop :=
  TaskChecklistItem.id after = TaskChecklistItem.id before
  ∧ TaskChecklistItem.task after = TaskChecklistItem.task before
  ∧ TaskChecklistItem.asset after = TaskChecklistItem.asset before
  ∧ TaskChecklistItem.template_item after = TaskChecklistItem.template_item before
  ∧ TaskChecklistItem.label_snapshot after = TaskChecklistItem.label_snapshot before
  ∧ TaskChecklistItem.item_type after = TaskChecklistItem.item_type before
  ∧ TaskChecklistItem.required after = TaskChecklistItem.required before
  ∧ TaskChecklistItem.unit after = TaskChecklistItem.unit before
  ∧ (TaskChecklistItem.item_type before ≠ "text" →
     TaskChecklistItem.value_text after = TaskChecklistItem.value_text before)
  ∧ (TaskChecklistItem.item_type before ≠ "number" →
     TaskChecklistItem.value_number after = TaskChecklistItem.value_number before)
  ∧ (TaskChecklistItem.item_type before ≠ "yesno" →
     TaskChecklistItem.value_bool after = TaskChecklistItem.value_bool before)
  ∧ (TaskChecklistItem.item_type before ≠ "photo" →
     TaskChecklistItem.attachment after = TaskChecklistItem.attachment before).

Definition checklist_ok (db : DB) : Prop :=
  Forall only_selected_value (rows (checklist_items db)).

(** *** Batches *)

(** What a sequence of [save]s leaves in the place of row [r]. *)
Definition overwritten {A : Type} `{Model A} (r : A) (items : list A) : A :=
  foldl (λ r x, if bool_decide (pk r = pk x) then x else r) r items.

(** The primary-key constraint of a table, with a sequence ahead of every
    key in use. *)
Definition table_ok {A : Type} `{Model A} (t : Table A) : Prop :=
  NoDup (pk <$> rows t) ∧ Forall (λ r, pk r < next_pk t) (rows t).

(** *** Instantiation *)

(** The checklist item that [_create_checklist_from_template] builds from
    one template item, before it is inserted. *)
Definition snapshot (task : MaintenanceTask.t) (asset : option Asset.t)
    (item : ChecklistTemplateItem.t) : TaskChecklistItem.t :=
  TaskChecklistItem.new (MaintenanceTask.id task) (Asset.id <$> asset)
    (Some (ChecklistTemplateItem.id item))
    (ChecklistTemplateItem.label item) (ChecklistTemplateItem.item_type item)
    (ChecklistTemplateItem.required item) (ChecklistTemplateItem.unit item).

(** [ci] is a copy of the template item [ti] on [task], unanswered. *)
Definition copies (task : MaintenanceTask.t) (asset : option Asset.t)
    (ti : ChecklistTemplateItem.t) (ci : TaskChecklistItem.t) : Prop :=
  TaskChecklistItem.task ci = MaintenanceTask.id task
  ∧ TaskChecklistItem.asset ci = (Asset.id <$> asset)
  ∧ TaskChecklistItem.template_item ci = Some (ChecklistTemplateItem.id ti)
  ∧ TaskChecklistItem.label_snapshot ci = ChecklistTemplateItem.label ti
  ∧ TaskChecklistItem.item_type ci = ChecklistTemplateItem.item_type ti
  ∧ TaskChecklistItem.required ci = ChecklistTemplateItem.required ti
  ∧ TaskChecklistItem.unit ci = ChecklistTemplateItem.unit ti
  ∧ TaskChecklistItem.value_text ci = ""
  ∧ TaskChecklistItem.value_number ci = None
  ∧ TaskChecklistItem.value_bool ci = None
  ∧ TaskChecklistItem.attachment ci = None.

(** [ci'] is [ci] but for its link back to the template item. *)
Definition same_snapshot (ci ci' : TaskChecklistItem.t) : Prop :=
  TaskChecklistItem.set_template_item None ci'
  = TaskChecklistItem.set_template_item None ci.

(** The admin operations on a template and on its questions. *)
Definition edits_template (op : AdminOp) : bool :=
  match op with
  | AddTemplate _ | ChangeTemplate _ | DeleteTemplate _
  | AddTemplateItem _ | ChangeTemplateItem _ | DeleteTemplateItem _ => true
  | _ => false
  end.

Definition is_template_edit (e : Event) : bool :=
  match e with
  | Admin op => edits_template op
  | _ => false
  end.

(** *** Reports and search *)

(** The line the report carries when the checklist is empty. *)
Definition no_entries_marker : Draw := Wrapped "Nessuna voce in checklist." "Helvetica" 10.

(** [q] occurs in [field], letter case aside. *)
Definition ci_substring (q field : string) : Prop :=
  ∃ l r, upper field = l +:+ upper q +:+ r.

(** [q] occurs in the name, type, serial or vendor of the asset, or in the
    name of its site. *)
Definition matches_query (db : DB) (q : string) (a : Asset.t) : Prop :=
  ci_substring q (Asset.name a)
  ∨ ci_substring q (Asset.asset_type a)
  ∨ ci_substring q (Asset.serial a)
  ∨ ci_substring q (Asset.vendor a)
  ∨ ∃ site, objects.get (sites db) (Asset.site a) = Some site
            ∧ ci_substring q (Site.name site).

(** The status filter of the request lets the asset through: none is
    given, or the asset has the status asked for. *)
Definition status_admits (request : Request) (a : Asset.t) : Prop :=
  let status_filter := strip (QueryDict_get (GET request) "status" "") in
  status_filter = "" ∨ Asset.status a = status_filter.

(** *** Asset tokens *)

(** The constraints the store keeps on the asset table: the unique token,
    the primary key, and a sequence ahead of every key in use. *)
Definition asset_table_ok (t : Table Asset.t) : Prop :=
  NoDup (Asset.qr_token <$> rows t)
  ∧ NoDup (Asset.id <$> rows t)
  ∧ Forall (λ a, Asset.id a < next_pk t) (rows t).

(** Every asset of [t'] whose key was issued before [t] is an asset of [t]
    with the same key and the same token. *)
Definition tokens_kept (t t' : Table Asset.t) : Prop :=
  next_pk t ≤ next_pk t'
  ∧ ∀ a', a' ∈ rows t' → Asset.id a' < next_pk t →
      ∃ a, a ∈ rows t ∧ Asset.id a = Asset.id a' ∧ Asset.qr_token a = Asset.qr_token a'.

(** *** Entry points *)

(** The request of a view event; an admin operation has none. *)
Definition event_request (e : Event) : option Request :=
  match e with
  | Dashboard request | Healthz request | AssetList request | TaskList request
  | SiteList request | SiteDetail request _ | AssetByToken request _
  | AssetQrPng request _ | AssetLabelPdf request _ | TaskDetail request _
  | TaskReportPdf request _ => Some request
  | Admin _ => None
  end.

(** The event is a closing submission of answers on a task page. *)
Definition is_closing (e : Event) : Prop :=
  match e with
  | TaskDetail request _ =>
      posts request "save_answers" ∧ POST request !! "close_task" = Some "1"
  | _ => False
  end.

(** The stored report of every task, by primary key. *)
Definition reports (db : DB) : list (Z * option StoredReport) :=
  (λ t, (MaintenanceTask.id t, MaintenanceTask.report_pdf t)) <$> rows (tasks db).

(** Every task carries one of the four status codes. *)
Definition statuses_valid (db : DB) : Prop :=
  Forall (λ t, MaintenanceTask.status t ∈ valid_status) (rows (tasks db)).

(** Every task that is [done] has a completion time. *)
Definition done_has_time (db : DB) : Prop :=
  Forall (λ t, MaintenanceTask.status t = "done"
               → is_Some (MaintenanceTask.completed_at t))
         (rows (tasks db)).

(** The row [dashboard]'s start shortcut leaves for a task. *)
Definition started (task : MaintenanceTask.t) : MaintenanceTask.t :=
  if bool_decide (MaintenanceTask.status task ∈ ["scheduled"; "in_progress"])
  then MaintenanceTask.set_status "in_progress" task else task.

(** The views that contain no write. *)
Definition is_read_only_view (e : Event) : bool :=
  match e with
  | Healthz _ | AssetList _ | SiteList _ | SiteDetail _ _ | AssetByToken _ _
  | AssetQrPng _ _ | AssetLabelPdf _ _ | TaskReportPdf _ _ => true
  | Dashboard _ | TaskList _ | TaskDetail _ _ | Admin _ => false
  end.

(** *** Checklist rows *)

(** The checklist item carries no answer. *)
Definition unanswered (i : TaskChecklistItem.t) : Prop :=
  TaskChecklistItem.value_text i = "" ∧ TaskChecklistItem.value_number i = None
  ∧ TaskChecklistItem.value_bool i = None ∧ TaskChecklistItem.attachment i = None.

(** The asset link of a checklist item is empty or names an asset of the
    given site. *)
Definition tagged_within (db : DB) (site : Z) (i : TaskChecklistItem.t) : Prop :=
  TaskChecklistItem.asset i = None
  ∨ ∃ a, a ∈ rows (assets db) ∧ TaskChecklistItem.asset i = Some (Asset.id a)
         ∧ Asset.site a = site.

(** *** Listings *)

(** [q] occurs in the title or in the notes of the task. *)
Definition task_matches_query (q : string) (t : MaintenanceTask.t) : Prop :=
  ci_substring q (MaintenanceTask.title t) ∨ ci_substring q (MaintenanceTask.notes t).

(** *** Referential integrity *)

(** The primary keys in use in a table. *)
Definition keys {A : Type} `{Model A} (t : Table A) : list Z := pk <$> rows t.

(** Every reference held by a row of [child] is a key of the parent. *)
Definition refs_ok {A : Type} (fk : A → option Z) (child : list A) (parent : list Z)
    : Prop :=
  Forall (λ r, ∀ k, fk r = Some k → k ∈ parent) child.

(** The foreign keys [models.py] declares between the six tables of the
    store, all satisfied. *)
Definition fk_ok (db : DB) : Prop :=
  refs_ok (λ a, Some (Asset.site a)) (rows (assets db)) (keys (sites db))
  ∧ refs_ok (λ t, Some (MaintenanceTask.site t)) (rows (tasks db)) (keys (sites db))
  ∧ refs_ok ChecklistTemplate.site (rows (templates db)) (keys (sites db))
  ∧ refs_ok (λ i, Some (ChecklistTemplateItem.template i)) (rows (template_items db))
            (keys (templates db))
  ∧ refs_ok (λ i, Some (TaskChecklistItem.task i)) (rows (checklist_items db))
            (keys (tasks db))
  ∧ refs_ok TaskChecklistItem.asset (rows (checklist_items db)) (keys (assets db))
  ∧ refs_ok TaskChecklistItem.template_item (rows (checklist_items db))
            (keys (template_items db)).

(** * Properties *)

(** A decidable closed goal, settled by evaluating its decision. *)
Ltac by_evaluation :=
  match goal with
  | |- ?P => apply (bool_decide_unpack P); vm_compute; exact I
  end.

(** ** The model on sample inputs *)

Example strip_both_ends : strip "  done " = "done".
Proof. reflexivity. Qed.

Example strip_blank : strip "   " = "".
Proof. reflexivity. Qed.

Example splitlines_mixed :
  splitlines ("a" +:+ String "013" (String "010" "b") +:+ String "010" (String "010" "c"))
  = ["a"; "b"; ""; "c"].
Proof. reflexivity. Qed.

Example icontains_folds_case : icontains "Vivaio Nord" "NORD" = true.
Proof. reflexivity. Qed.

Example icontains_misses : icontains "Vivaio Nord" "sud" = false.
Proof. reflexivity. Qed.

Example template_order :
  template_items_all Demo.db Demo.pump_template
  = [Demo.leaks; Demo.picture; Demo.pressure].
Proof. by vm_compute. Qed.

Example answer_of_number :
  _format_task_item_answer (RT := plain_runtime) Demo.pressure_answer = "2500E-3 bar".
Proof. by vm_compute. Qed.

(** The decimal column of the worked examples: three places, rounded half
    to even, twelve digits; a value that is not finite is refused by the
    field before it reaches the adapter. *)
Example column_rounds :
  get_db_prep_save (RT := plain_runtime) (Finite false 212345 (-5))
  = inr (Finite false 2123 (-3)).
Proof. reflexivity. Qed.

Example column_pads :
  get_db_prep_save (RT := plain_runtime) (Finite false 31 (-1))
  = inr (Finite false 3100 (-3)).
Proof. reflexivity. Qed.

Example column_keeps_its_own_values :
  get_db_prep_save (RT := plain_runtime) (Finite false 2500 (-3))
  = inr (Finite false 2500 (-3)).
Proof. reflexivity. Qed.

Example column_refuses_long_numbers :
  Decimal (Runtime := plain_runtime) "1234567890123" = Some (Finite false 1234567890123 0)
  ∧ get_db_prep_save (RT := plain_runtime) (Finite false 1234567890123 0)
    = inl InvalidOperation.
Proof. split; reflexivity. Qed.

Example column_refuses_nan :
  Decimal (Runtime := plain_runtime) "NaN" = Some (NaN false false 0)
  ∧ get_db_prep_save (RT := plain_runtime) (NaN false false 0) = inl ValidationError.
Proof. split; reflexivity. Qed.

(** A submission that is refused half way: the first item is saved, the
    second raises, the others are not reached. *)
Example refused_half_way :
  let request := Demo.post [("action", "save_answers"); ("item_1_yesno", "no");
                           ("item_2_number", "NaN"); ("item_3_text", "nuovo")] in
  task_detail (RT := plain_runtime) Demo.db request 1
  = (set_checklist_items
       (mk_table [TaskChecklistItem.set_value_bool (Some false) Demo.leaks_answer;
                  Demo.pressure_answer; Demo.remarks_answer; Demo.picture_answer] 5)
       Demo.db,
     Raised ValidationError).
Proof. by vm_compute. Qed.

(** The task page offers a task the templates of its own site and the
    global ones. *)
Example templates_offered :
  page_checklist_templates (task_detail_page Demo.db Demo.inspection)
  = [Demo.general_template].
Proof. by vm_compute. Qed.

(** A closing submission on a task without items: the whole report. *)
Example report_of_inspection :
  let request := Demo.post [("action", "save_answers"); ("close_task", "1")] in
  MaintenanceTask.report_pdf
    <$> objects.get (tasks (task_detail (RT := plain_runtime) Demo.db request 3).1) 3
  = Some (Some (mk_report "reports/task-3-report.pdf"
      [ Heading "Report intervento";
        SectionTitle "Dati intervento";
        LabelValue "Sede" "Serra Sud";
        LabelValue "Titolo" "Ispezione";
        LabelValue "Stato" "In corso";
        LabelValue "Pianificato" "80";
        LabelValue "Data esecuzione" "900";
        LabelValue "Report generato" "901";
        SectionTitle "Checklist";
        Wrapped "Nessuna voce in checklist." "Helvetica" 10 ])).
Proof. by vm_compute. Qed.

(** ** Strings *)

Lemma startswith_spec p s : startswith p s = true ↔ ∃ r, s = p +:+ r.
Proof.
  revert s. induction p as [|a p IH]; intros s; simpl.
  - split; [intros _; by exists s | done].
  - destruct s as [|b s].
    + split; [done | intros [r Hr]; discriminate].
    + rewrite andb_true_iff, bool_decide_eq_true, IH. split.
      * intros [-> [r ->]]. by exists r.
      * intros [r Hr]. injection Hr as -> ->. eauto.
Qed.

Lemma contains_spec needle hay :
  contains needle hay = true ↔ ∃ l r, hay = l +:+ needle +:+ r.
Proof.
  induction hay as [|c hay IH]; simpl.
  - rewrite orb_false_r, startswith_spec. split.
    + intros [r Hr]. by exists "", r.
    + intros [l [r Hr]]. destruct l; [by exists r | discriminate].
  - rewrite orb_true_iff, startswith_spec, IH. split.
    + intros [[r Hr] | [l [r Hr]]].
      * by exists "", r.
      * exists (String c l), r. by rewrite Hr.
    + intros [l [r Hr]]. destruct l as [|c' l].
      * left. by exists r.
      * right. injection Hr as _ Hr. by exists l, r.
Qed.

Lemma upper_app s1 s2 : upper (s1 +:+ s2) = upper s1 +:+ upper s2.
Proof. induction s1 as [|c s1 IH]; simpl; [done | by rewrite IH]. Qed.

Lemma string_app_cons c (s1 s2 : string) : String c s1 +:+ s2 = String c (s1 +:+ s2).
Proof. reflexivity. Qed.

Lemma string_app_assoc (s1 s2 s3 : string) : (s1 +:+ s2) +:+ s3 = s1 +:+ s2 +:+ s3.
Proof.
  induction s1 as [|c s1 IH]; [done|].
  by rewrite !string_app_cons, IH.
Qed.

Lemma lstrip_suffix s : ∃ l, s = l +:+ lstrip s.
Proof.
  induction s as [|c s [l IH]]; simpl.
  - by exists "".
  - destruct (isspace c).
    + exists (String c l). by rewrite string_app_cons, <- IH.
    + by exists "".
Qed.

Lemma rstrip_prefix s : ∃ r, s = rstrip s +:+ r.
Proof.
  induction s as [|c s [r IH]]; simpl.
  - by exists "".
  - destruct (rstrip s) as [|c' s'] eqn:E.
    + destruct (isspace c).
      * by exists (String c s).
      * by exists s.
    + exists r. by rewrite string_app_cons, <- IH.
Qed.

(** The stripped text sits inside the raw text. *)
Lemma strip_inside s : ∃ l r, s = l +:+ strip s +:+ r.
Proof.
  destruct (rstrip_prefix s) as [r Hr]. destruct (lstrip_suffix (rstrip s)) as [l Hl].
  exists l, r. unfold strip. by rewrite <- string_app_assoc, <- Hl.
Qed.

(** ** The store *)

Section Store.
Context {A : Type} `{Model A}.

Lemma get_Some_pk (t : Table A) k r : objects.get t k = Some r → pk r = k.
Proof.
  unfold objects.get. intros Hf. apply find_some in Hf as [_ Hf].
  by apply bool_decide_eq_true in Hf.
Qed.

Lemma get_Some_In (t : Table A) k r : objects.get t k = Some r → r ∈ rows t.
Proof.
  unfold objects.get. intros Hf. apply find_some in Hf as [Hf _].
  by apply list_elem_of_In.
Qed.

Lemma get_update_eq (t : Table A) k f :
  (∀ r, pk (f r) = pk r) →
  objects.get (objects.update k f t) k = f <$> objects.get t k.
Proof.
  intros Hpk. unfold objects.get, objects.update. simpl.
  induction (rows t) as [|r l IH]; simpl; [done|].
  destruct (bool_decide (pk r = k)) eqn:E; simpl.
  - rewrite Hpk, E. done.
  - rewrite E. done.
Qed.

Lemma get_update_ne (t : Table A) k k' f :
  (∀ r, pk (f r) = pk r) → k ≠ k' →
  objects.get (objects.update k f t) k' = objects.get t k'.
Proof.
  intros Hpk Hne. unfold objects.get, objects.update. simpl.
  induction (rows t) as [|r l IH]; simpl; [done|].
  destruct (bool_decide (pk r = k)) eqn:E; simpl.
  - rewrite Hpk. apply bool_decide_eq_true in E.
    rewrite !bool_decide_eq_false_2 by congruence. done.
  - by rewrite IH.
Qed.
End Store.

(** ** Dispatch of [task_detail] *)

Section Dispatch.
Context {RT : Runtime}.
Implicit Types (db : DB) (request : Request) (task : MaintenanceTask.t).

Lemma task_detail_update_task_eq db request task_id task :
  objects.get (tasks db) task_id = Some task → posts request "update_task" →
  task_detail db request task_id = task_detail_update_task db request task.
Proof.
  intros Hget ([u Hu] & Hm & Ha).
  unfold task_detail, login_required, task_detail_view, QueryDict_get.
  by rewrite Hu, Hget, Hm, Ha.
Qed.

Lemma task_detail_generate_checklist_eq db request task_id task :
  objects.get (tasks db) task_id = Some task → posts request "generate_checklist" →
  task_detail db request task_id = task_detail_generate_checklist db request task.
Proof.
  intros Hget ([u Hu] & Hm & Ha).
  unfold task_detail, login_required, task_detail_view, QueryDict_get.
  by rewrite Hu, Hget, Hm, Ha.
Qed.

Lemma task_detail_add_checklist_item_eq db request task_id task :
  objects.get (tasks db) task_id = Some task → posts request "add_checklist_item" →
  task_detail db request task_id = task_detail_add_checklist_item db request task.
Proof.
  intros Hget ([u Hu] & Hm & Ha).
  unfold task_detail, login_required, task_detail_view, QueryDict_get.
  by rewrite Hu, Hget, Hm, Ha.
Qed.

Lemma task_detail_save_answers_eq db request task_id task :
  objects.get (tasks db) task_id = Some task → posts request "save_answers" →
  task_detail db request task_id = task_detail_save_answers db request task.
Proof.
  intros Hget ([u Hu] & Hm & Ha).
  unfold task_detail, login_required, task_detail_view, QueryDict_get.
  by rewrite Hu, Hget, Hm, Ha.
Qed.

(** Saving checklist items touches no other table. *)
Lemma save_items_frame db (items : list TaskChecklistItem.t) :
  let db' := foldl (λ db item,
                      set_checklist_items (objects.save item (checklist_items db)) db)
                   db items in
  sites db' = sites db ∧ assets db' = assets db ∧ tasks db' = tasks db
  ∧ templates db' = templates db ∧ template_items db' = template_items db.
Proof.
  revert db. induction items as [|i items IH]; intros db; simpl; [done|].
  specialize (IH (set_checklist_items (objects.save i (checklist_items db)) db)).
  simpl in IH. done.
Qed.

(** The loop of [save_answers], as the saves it performs. *)
Lemma save_answers_items_eq db request items :
  save_answers_items db request items
  = (foldl (λ db item,
              set_checklist_items (objects.save item (checklist_items db)) db)
           db (answers_saved request items),
     answers_refused request items).
Proof.
  revert db. induction items as [|i items IH]; intros db; simpl; [done|].
  destruct (row_for_save (capture_answer request i)); [done|]. simpl. apply IH.
Qed.

Lemma answers_refused_accepted request items :
  answers_refused request items = None
  ↔ Forall (λ i, accepted request i = true) items.
Proof.
  induction items as [|i items IH]; simpl; [by split|].
  rewrite Forall_cons. unfold accepted at 1.
  destruct (row_for_save (capture_answer request i)); [|tauto].
  split; [done | by intros [? _]].
Qed.

Lemma answers_saved_accepted request items :
  Forall (λ i, accepted request i = true) items →
  answers_saved request items = map (stored_answer request) items.
Proof.
  induction 1 as [|i items Hi _ IH]; simpl; [done|].
  unfold accepted, stored_answer in *.
  destruct (row_for_save (capture_answer request i)); [done|]. by rewrite IH.
Qed.

(** What [save_answers] answers, and the saves it has performed by then. *)
Lemma save_answers_outcome db request task :
  let items := items_of db (MaintenanceTask.id task) in
  let db1 := foldl (λ db item,
                      set_checklist_items (objects.save item (checklist_items db)) db)
                   db (answers_saved request items) in
  task_detail_save_answers db request task
  = match answers_refused request items with
    | Some e => (db1, Raised e)
    | None =>
        (if bool_decide (POST request !! "close_task" = Some "1")
         then close_task db1 request task (map (capture_answer request) items)
         else db1,
         Redirect "task_detail" (MaintenanceTask.id task))
    end.
Proof.
  cbv zeta. unfold task_detail_save_answers, items_of.
  rewrite save_answers_items_eq. by destruct (answers_refused _ _).
Qed.

(** The row of the task after a status update. *)
Lemma update_task_row db request task :
  objects.get (tasks db) (MaintenanceTask.id task) = Some task →
  let target := strip (QueryDict_get (POST request) "status" "") in
  objects.get (tasks (task_detail_update_task db request task).1)
              (MaintenanceTask.id task)
  = Some (if bool_decide (target ∈ valid_status) then
            MaintenanceTask.set_completed_at
              (if bool_decide (target = "done")
               then stamped (now request) task
               else MaintenanceTask.completed_at task)
              (MaintenanceTask.set_status target task)
          else task).
Proof.
  intros Hget target. unfold task_detail_update_task. fold target.
  destruct (bool_decide (target ∈ valid_status)); simpl; [|done].
  rewrite get_update_eq, Hget; simpl.
  - f_equal. unfold stamped.
    destruct (bool_decide (target = "done")); simpl; [|by destruct task].
    destruct (decide (MaintenanceTask.status task = "done")) as [Hs|Hs],
             (decide (MaintenanceTask.completed_at task = None)) as [Hc|Hc];
      rewrite ?(bool_decide_eq_true_2 _ Hs), ?(bool_decide_eq_false_2 _ Hs),
              ?(bool_decide_eq_true_2 _ Hc), ?(bool_decide_eq_false_2 _ Hc);
      simpl.
    1,3,4: by rewrite decide_True by tauto.
    rewrite decide_False by tauto. by destruct task.
  - intros r. by destruct (_ && _).
Qed.

(** The row of the task after [close_task]. *)
Lemma close_task_row db request task items :
  objects.get (tasks db) (MaintenanceTask.id task) = Some task →
  let task' := MaintenanceTask.set_completed_at (stamped (now request) task) task in
  let report :=
    mk_report
      (storage_save request
         ("reports/task-" +:+ pretty (MaintenanceTask.id task) +:+ "-report.pdf"))
      (_build_task_report_pdf db (report_now request) task' items) in
  objects.get (tasks (close_task db request task items)) (MaintenanceTask.id task)
  = Some (MaintenanceTask.set_completed_at (stamped (now request) task)
            (MaintenanceTask.set_report_pdf (Some report)
               (MaintenanceTask.set_status "done" task))).
Proof.
  intros Hget. unfold close_task, stamped.
  destruct (decide (MaintenanceTask.status task = "done")) as [Hs|Hs],
           (decide (MaintenanceTask.completed_at task = None)) as [Hc|Hc];
    rewrite ?(bool_decide_eq_true_2 _ Hs), ?(bool_decide_eq_false_2 _ Hs),
            ?(bool_decide_eq_true_2 _ Hc), ?(bool_decide_eq_false_2 _ Hc);
    cbn [negb orb].
  1,3,4: rewrite decide_True by tauto; cbn [tasks set_tasks];
         by rewrite get_update_eq, Hget.
  rewrite decide_False by tauto. cbn [tasks set_tasks].
  rewrite get_update_eq, Hget by done. by destruct task.
Qed.
End Dispatch.

(** ** Frame conditions *)

Lemma only_checklist_items_refl db : only_checklist_items db db.
Proof. by repeat split. Qed.

Lemma only_tasks_refl db : only_tasks db db.
Proof. by repeat split. Qed.

Lemma only_checklist_items_set db v :
  only_checklist_items db (set_checklist_items v db).
Proof. by repeat split. Qed.

Lemma only_tasks_set db v : only_tasks db (set_tasks v db).
Proof. by repeat split. Qed.

Create HintDb frame.
Global Hint Resolve only_checklist_items_refl only_tasks_refl
  only_checklist_items_set only_tasks_set : frame.

Section Frames.
Context {RT : Runtime}.
Implicit Types (db : DB) (request : Request) (task : MaintenanceTask.t).

Lemma create_checklist_frame db task template asset :
  only_checklist_items db (_create_checklist_from_template db task template asset).
Proof.
  unfold _create_checklist_from_template.
  destruct (map _ _); auto with frame.
Qed.

Lemma generate_checklist_frame db request task :
  only_checklist_items db (task_detail_generate_checklist db request task).1.
Proof.
  unfold task_detail_generate_checklist.
  repeat (case_match; simpl; auto using create_checklist_frame with frame).
Qed.

Lemma add_checklist_item_frame db request task :
  only_checklist_items db (task_detail_add_checklist_item db request task).1.
Proof.
  unfold task_detail_add_checklist_item.
  repeat (case_match; simpl; auto with frame).
Qed.

Lemma save_items_only_checklist db (items : list TaskChecklistItem.t) :
  only_checklist_items db
    (foldl (λ db item, set_checklist_items (objects.save item (checklist_items db)) db)
           db items).
Proof. apply save_items_frame. Qed.

Lemma update_task_frame db request task :
  only_tasks db (task_detail_update_task db request task).1.
Proof.
  unfold task_detail_update_task. simpl. case_match; auto with frame.
Qed.

Lemma close_task_frame db request task items :
  only_tasks db (close_task db request task items).
Proof. unfold close_task. auto with frame. Qed.

(** Answer submission touches the checklist items and the task rows
    only. *)
Lemma save_answers_frame db request task :
  let db' := (task_detail_save_answers db request task).1 in
  sites db' = sites db ∧ assets db' = assets db
  ∧ templates db' = templates db ∧ template_items db' = template_items db.
Proof.
  cbv zeta. rewrite save_answers_outcome.
  match goal with |- context [foldl ?f db ?items] =>
    destruct (save_items_frame db items) as (Es & Ea & _ & Etp & Eti);
    set (db1 := foldl f db items) in * end.
  destruct (answers_refused _ _); cbn [fst]; [done|].
  case_bool_decide; [|done].
  destruct (close_task_frame db1 request task
              (map (capture_answer request) (items_of db (MaintenanceTask.id task))))
    as (-> & -> & -> & -> & _).
  done.
Qed.

(** It leaves the task rows alone unless it closes the task. *)
Lemma save_answers_tasks db request task :
  tasks (task_detail_save_answers db request task).1 = tasks db
  ∨ (answers_refused request (items_of db (MaintenanceTask.id task)) = None
     ∧ POST request !! "close_task" = Some "1"
     ∧ ∃ db1, tasks db1 = tasks db
              ∧ (task_detail_save_answers db request task).1
                = close_task db1 request task
                    (map (capture_answer request)
                       (items_of db (MaintenanceTask.id task)))).
Proof.
  rewrite save_answers_outcome.
  match goal with |- context [foldl ?f db ?items] =>
    destruct (save_items_frame db items) as (_ & _ & Et & _);
    set (db1 := foldl f db items) in * end.
  destruct (answers_refused _ _); cbn [fst]; [by left|].
  case_bool_decide; [|by left].
  right. split_and!; [done..|]. by exists db1.
Qed.
End Frames.

(** ** Task lifecycle *)

Section Lifecycle.
Context {RT : Runtime}.
Implicit Types (db : DB) (request : Request) (task : MaintenanceTask.t).

Lemma posts_action request a b : posts request a → posts request b → a = b.
Proof. intros (_ & _ & Ha) (_ & _ & Hb). congruence. Qed.

(** Any request to [task_detail] that is neither a status update nor a
    closing submission whose answers the store takes leaves the task table
    as it is. *)
Lemma task_detail_tasks_unchanged db request task_id :
  ¬ posts request "update_task" →
  ¬ (posts request "save_answers" ∧ POST request !! "close_task" = Some "1"
     ∧ answers_accepted db request task_id) →
  tasks (task_detail db request task_id).1 = tasks db.
Proof.
  intros Hu Hc. unfold task_detail, login_required.
  destruct (user request) as [u|] eqn:Hus; [|done].
  unfold task_detail_view.
  destruct (objects.get (tasks db) task_id) as [task|] eqn:Hget; [|done].
  pose proof (get_Some_pk _ _ _ Hget) as Hpk. simpl in Hpk. subst task_id.
  destruct (bool_decide (method request = "POST")) eqn:Hm; simpl; [|done].
  apply bool_decide_eq_true in Hm.
  assert (∀ a, QueryDict_get (POST request) "action" "" = a → a ≠ "" → posts request a)
    as Hposts.
  { intros a Ha Hne. repeat split; [by rewrite Hus | done |].
    unfold QueryDict_get in Ha. destruct (POST request !! "action"); simpl in Ha;
      congruence. }
  repeat case_bool_decide; simpl; try done.
  - destruct Hu. by apply Hposts.
  - apply generate_checklist_frame.
  - apply add_checklist_item_frame.
  - rewrite save_answers_outcome.
    destruct (answers_refused _ _) eqn:Href; cbn [fst]; [apply save_items_frame|].
    rewrite bool_decide_eq_false_2; [apply save_items_frame|].
    intros Hcl. apply Hc. split_and!; [by apply Hposts | done |].
    by apply answers_refused_accepted.
Qed.

End Lifecycle.


(** C3, as amended.  A status update whose target, once the surrounding
    white space is trimmed, is none of [scheduled], [in_progress], [done],
    [cancelled] changes nothing in the database, so the status and the
    completion time of the task stay, and the caller is redirected to the
    task page rather than shown an error. *)
Theorem unrecognised_status_is_noop {RT : Runtime} db request task_id task :
  objects.get (tasks db) task_id = Some task →
  posts request "update_task" →
  strip (QueryDict_get (POST request) "status" "") ∉ valid_status →
  task_detail db request task_id = (db, Redirect "task_detail" task_id).
Proof.
  intros Hget Hp Hv.
  rewrite (task_detail_update_task_eq _ _ _ _ Hget Hp).
  unfold task_detail_update_task.
  rewrite (bool_decide_eq_false_2 _ Hv).
  pose proof (get_Some_pk _ _ _ Hget) as Hpk. simpl in Hpk. by rewrite Hpk.
Qed.

Lemma unrecognised_status_is_noop_witness :
  let request := Demo.post [("action", "update_task"); ("status", "closed")] in
  task_detail (RT := plain_runtime) Demo.db request 1
  = (Demo.db, Redirect "task_detail" 1).
Proof.
  apply (unrecognised_status_is_noop (RT := plain_runtime) Demo.db _ 1 Demo.monthly).
  - reflexivity.
  - vm_compute. repeat split; eauto.
  - vm_compute. intros Hin. repeat (apply elem_of_cons in Hin as [Hin|Hin]; [discriminate|]).
    by apply elem_of_nil in Hin.
Defined.

(** C3, as stated, fails on a target with surrounding white space: the
    value [" done"] is none of the four codes, yet the view trims it and
    moves the scheduled task to [done], stamping its completion time. *)
Lemma unrecognised_status_counterexample :
  let request := Demo.post [("action", "update_task"); ("status", " done")] in
  (QueryDict_get (POST request) "status" "" ∉ valid_status)
  ∧ objects.get (tasks Demo.db) 1 = Some Demo.monthly
  ∧ MaintenanceTask.status Demo.monthly = "scheduled"
  ∧ objects.get (tasks (task_detail (RT := plain_runtime) Demo.db request 1).1) 1
    = Some (MaintenanceTask.set_completed_at (Some 900)
              (MaintenanceTask.set_status "done" Demo.monthly)).
Proof.
  cbv zeta. split; [|by vm_compute].
  vm_compute. intros Hin.
  repeat (apply elem_of_cons in Hin as [Hin|Hin]; [discriminate|]).
  by apply elem_of_nil in Hin.
Qed.

(** ** Template scoping *)

Section Scoping.
Context {RT : Runtime}.
Implicit Types (db : DB) (request : Request) (task : MaintenanceTask.t).

(** Creating a task with a template of another site: the guard of
    [task_list] drops the template and no checklist item is written. *)
Lemma create_task_drops_foreign_template db request site task k template s :
  to_pk (strip (QueryDict_get (POST request) "template_id" "")) = Some k →
  objects.get (templates db) k = Some template →
  ChecklistTemplate.site template = Some s → s ≠ 0 → s ≠ Site.id site →
  checklist_items (create_task_checklist db request site task).1 = checklist_items db.
Proof.
  intros Hk Ht Hs H0 Hne. unfold create_task_checklist.
  rewrite Hk, Ht, Hs.
  rewrite (bool_decide_eq_false_2 _ H0), (bool_decide_eq_false_2 _ Hne). simpl.
  repeat case_match; done.
Qed.

(** Creating a task with a global template instantiates it. *)
Lemma create_task_takes_global_template db request site task k template asset :
  to_pk (strip (QueryDict_get (POST request) "template_id" "")) = Some k →
  objects.get (templates db) k = Some template →
  ChecklistTemplate.site template = None →
  truthy (strip (QueryDict_get (POST request) "template_id" "")) = true →
  asset_of_site db (strip (QueryDict_get (POST request) "asset_id" "")) (Site.id site)
  = Some asset →
  create_task_checklist db request site task
  = (_create_checklist_from_template db task template asset,
     Redirect "task_detail" (MaintenanceTask.id task)).
Proof.
  intros Hk Ht Hs Hty Ha. unfold create_task_checklist.
  by rewrite Hty, Hk, Ht, Hs, Ha.
Qed.

(** Generating a checklist on an existing task instantiates the template
    whatever its site is: the branch never reads [template.site]. *)
Lemma generate_checklist_reads_no_site db request task k template asset :
  to_pk (strip (QueryDict_get (POST request) "template_id" "")) = Some k →
  objects.get (templates db) k = Some template →
  truthy (strip (QueryDict_get (POST request) "template_id" "")) = true →
  asset_of_site db (strip (QueryDict_get (POST request) "asset_id" ""))
    (MaintenanceTask.site task) = Some asset →
  task_detail_generate_checklist db request task
  = (_create_checklist_from_template db task template asset,
     Redirect "task_detail" (MaintenanceTask.id task)).
Proof.
  intros Hk Ht Hty Ha. unfold task_detail_generate_checklist.
  by rewrite Hty, Hk, Ht, Ha.
Qed.
End Scoping.

(** C1.  The template "Controllo pompa" belongs to site 1.  Creating a task
    for site 2 with it writes the task and no checklist item; generating a
    checklist from it on task 3, which belongs to site 2, writes its three
    items on that task. *)
Theorem foreign_template_on_existing_task :
  let create := Demo.post [("action", "create_task"); ("title", "Nuovo");
                           ("site_id", "2"); ("template_id", "1")] in
  let generate := Demo.post [("action", "generate_checklist"); ("template_id", "1")] in
  ChecklistTemplate.site Demo.pump_template = Some 1
  ∧ MaintenanceTask.site Demo.inspection = 2
  ∧ rows (checklist_items (task_list (RT := plain_runtime) Demo.db create).1)
    = rows (checklist_items Demo.db)
  ∧ rows (checklist_items (task_detail (RT := plain_runtime) Demo.db generate 3).1)
    = (rows (checklist_items Demo.db)
       ++ [ TaskChecklistItem.mk 5 3 None (Some 2) "Perdite visibili" "yesno" true ""
              "" None None None;
            TaskChecklistItem.mk 6 3 None (Some 4) "Foto" "photo" false ""
              "" None None None;
            TaskChecklistItem.mk 7 3 None (Some 1) "Pressione" "number" true "bar"
              "" None None None ])%list.
Proof. cbv zeta. repeat split; vm_compute; reflexivity. Qed.

(** ** Saving a batch of rows *)

Section SaveBatch.
Context {A : Type} `{Model A}.

Lemma overwritten_pk r items : pk (overwritten r items) = pk r.
Proof.
  revert r. induction items as [|x items IH]; intros r; simpl; [done|].
  rewrite IH. case_bool_decide; congruence.
Qed.

Lemma rows_save_all (t : Table A) items :
  rows (foldl (λ t x, objects.save x t) t items)
  = map (λ r, overwritten r items) (rows t).
Proof.
  revert t. induction items as [|x items IH]; intros t; simpl.
  - by rewrite map_id.
  - rewrite IH. simpl. by rewrite map_map.
Qed.

Lemma next_pk_save_all (t : Table A) items :
  next_pk (foldl (λ t x, objects.save x t) t items) = next_pk t.
Proof.
  revert t. induction items as [|x items IH]; intros t; simpl; [done|].
  by rewrite IH.
Qed.

Lemma overwritten_other r items :
  Forall (λ x, pk x ≠ pk r) items → overwritten r items = r.
Proof.
  induction 1 as [|x items Hx _ IH]; simpl; [done|].
  by rewrite bool_decide_eq_false_2.
Qed.

Lemma overwritten_app r l1 l2 :
  overwritten r (l1 ++ l2) = overwritten (overwritten r l1) l2.
Proof. unfold overwritten. by rewrite foldl_app. Qed.

(** Each row that satisfies [P] stays a row that satisfies [P] when the
    saved rows do. *)
Lemma overwritten_Forall (P : A → Prop) r items :
  P r → Forall P items → P (overwritten r items).
Proof.
  intros Hr Hi. revert r Hr. induction Hi as [|x items Hx _ IH]; intros r Hr; simpl.
  - done.
  - apply IH. by case_bool_decide.
Qed.

Lemma overwritten_cons r x items :
  overwritten r (x :: items)
  = overwritten (if bool_decide (pk r = pk x) then x else r) items.
Proof. done. Qed.

Lemma overwritten_same r items :
  (∀ x, x ∈ items → pk x = pk r → x = r) → overwritten r items = r.
Proof.
  induction items as [|x items IH]; intros Hx; simpl; [done|].
  case_bool_decide as Hpk.
  - rewrite (Hx x) by (by left || done). apply IH. intros y Hy. apply Hx. by right.
  - apply IH. intros y Hy. apply Hx. by right.
Qed.

(** Saving the rewritten copies of some rows, among rows told apart by
    their keys, rewrites exactly those rows. *)
Lemma overwritten_map_in `{EqDecision A} (f : A → A) (saved : list A) r :
  (∀ x, pk (f x) = pk x) →
  (∀ x, x ∈ saved → pk x = pk r → x = r) →
  overwritten r (map f saved) = if decide (r ∈ saved) then f r else r.
Proof.
  intros Hf. induction saved as [|x saved IH]; intros Hx; cbn [map].
  - rewrite decide_False; [done|]. apply not_elem_of_nil.
  - rewrite overwritten_cons, Hf. case_bool_decide as Hpk.
    + assert (x = r) as -> by (apply Hx; [by left | done]).
      rewrite decide_True by (by left).
      apply overwritten_same. intros y Hy Hpy.
      apply list_elem_of_In, in_map_iff in Hy as (z & <- & Hz).
      apply list_elem_of_In in Hz. rewrite !Hf in Hpy.
      by rewrite (Hx z) by (by right || done).
    + rewrite IH by (intros y Hy; apply Hx; by right).
      assert (r ≠ x) as Hne by congruence.
      destruct (decide (r ∈ saved)) as [Hin|Hin].
      * rewrite decide_True by (by right). done.
      * rewrite decide_False; [done|]. intros [->|?]%elem_of_cons; done.
Qed.

(** With distinct primary keys, saving the rewritten copies of the rows
    selected by [cond] rewrites exactly those rows. *)
Lemma overwritten_filter (f : A → A) (cond : A → bool) (l : list A) r :
  (∀ x, pk (f x) = pk x) → NoDup (pk <$> l) → r ∈ l →
  overwritten r (map f (List.filter cond l)) = if cond r then f r else r.
Proof.
  intros Hf Hnd Hin.
  apply list_elem_of_split in Hin as (l1 & l2 & ->).
  rewrite fmap_app, fmap_cons in Hnd.
  apply NoDup_app in Hnd as (_ & Hl1 & Hnd). apply NoDup_cons in Hnd as [Hl2 _].
  assert (∀ l', pk r ∉ pk <$> l' →
            Forall (λ x, pk x ≠ pk r) (map f (List.filter cond l'))) as Hoth.
  { intros l' Hl'. apply Forall_forall. intros x Hx.
    apply list_elem_of_In, in_map_iff in Hx as (y & <- & Hy).
    apply filter_In in Hy as [Hy _]. rewrite Hf. intros Heq. apply Hl'.
    rewrite <- Heq. apply list_elem_of_fmap. exists y. split; [done|].
    by apply list_elem_of_In. }
  rewrite List.filter_app, map_app, overwritten_app.
  rewrite (overwritten_other r (map f (List.filter cond l1)))
    by (apply Hoth; intros Hc; apply (Hl1 _ Hc); left).
  simpl. destruct (cond r); simpl.
  - rewrite Hf, bool_decide_eq_true_2 by done.
    fold (overwritten (f r) (map f (List.filter cond l2))).
    apply overwritten_other. rewrite Forall_forall. intros x Hx.
    rewrite Hf. revert x Hx. apply Forall_forall, Hoth, Hl2.
  - fold (overwritten r (map f (List.filter cond l2))).
    apply overwritten_other, Hoth, Hl2.
Qed.
End SaveBatch.

(** ** Answer capture *)

Section Lookup.
Context {A : Type} `{Model A}.

Lemma get_In_NoDup (t : Table A) r :
  NoDup (pk <$> rows t) → r ∈ rows t → objects.get t (pk r) = Some r.
Proof.
  unfold objects.get. induction (rows t) as [|x l IH]; intros Hnd Hin.
  - by apply elem_of_nil in Hin.
  - rewrite fmap_cons in Hnd. apply NoDup_cons in Hnd as [Hx Hnd]. simpl.
    apply elem_of_cons in Hin as [->|Hin].
    + by rewrite bool_decide_eq_true_2.
    + rewrite bool_decide_eq_false_2; [by apply IH|].
      intros Heq. apply Hx. rewrite Heq. apply list_elem_of_fmap. eauto.
Qed.

Lemma get_map_rows (g : A → A) l n k :
  (∀ r, pk (g r) = pk r) →
  objects.get (mk_table (map g l) n) k = g <$> objects.get (mk_table l n) k.
Proof.
  intros Hg. unfold objects.get. simpl.
  induction l as [|x l IH]; simpl; [done|].
  rewrite Hg. case_bool_decide; [done | apply IH].
Qed.
End Lookup.

Section Answers.
Context {RT : Runtime}.
Implicit Types (db : DB) (request : Request) (task : MaintenanceTask.t).
Implicit Types (item : TaskChecklistItem.t).

Lemma capture_answer_wrote request item :
  wrote_selected_value item (capture_answer request item).
Proof.
  unfold capture_answer, wrote_selected_value.
  repeat case_bool_decide; repeat case_match; destruct item; simpl in *;
    repeat split; congruence.
Qed.

Lemma capture_answer_pk request item :
  pk (capture_answer request item) = pk item.
Proof. apply capture_answer_wrote. Qed.

Lemma capture_answer_only_selected request item :
  only_selected_value item → only_selected_value (capture_answer request item).
Proof.
  intros (Ht & Hn & Hb & Ha).
  pose proof (capture_answer_wrote request item)
    as (_ & _ & _ & _ & _ & Hty & _ & _ & Ht' & Hn' & Hb' & Ha').
  unfold only_selected_value. rewrite Hty.
  repeat split; intros Hne.
  - by rewrite Ht', Ht.
  - by rewrite Hn', Hn.
  - by rewrite Hb', Hb.
  - by rewrite Ha', Ha.
Qed.

(** The checklist table after the items were saved one by one. *)
Lemma checklist_items_save_all db (items : list TaskChecklistItem.t) :
  checklist_items
    (foldl (λ db item, set_checklist_items (objects.save item (checklist_items db)) db)
           db items)
  = foldl (λ t x, objects.save x t) (checklist_items db) items.
Proof.
  revert db. induction items as [|x items IH]; intros db; simpl; [done|].
  by rewrite IH.
Qed.

Lemma save_answers_checklist_items db request task :
  checklist_items (task_detail_save_answers db request task).1
  = foldl (λ t x, objects.save x t) (checklist_items db)
      (answers_saved request (items_of db (MaintenanceTask.id task))).
Proof.
  rewrite save_answers_outcome.
  destruct (answers_refused _ _); cbn [fst]; [apply checklist_items_save_all|].
  case_bool_decide; [|apply checklist_items_save_all].
  match goal with |- context [close_task ?d _ _ ?i] =>
    destruct (close_task_frame d request task i) as (_ & _ & _ & _ & ->) end.
  apply checklist_items_save_all.
Qed.

(** The store takes an answer exactly when the item, as captured, has no
    number or one the column takes. *)
Lemma accepted_iff request item :
  accepted request item = true
  ↔ match TaskChecklistItem.value_number (capture_answer request item) with
    | None => True
    | Some d => ∃ stored, get_db_prep_save d = inr stored
    end.
Proof.
  unfold accepted, row_for_save.
  destruct (TaskChecklistItem.value_number (capture_answer request item)) as [d|];
    [|done].
  destruct (get_db_prep_save d) as [e|stored]; split; try done.
  - by intros [? ?].
  - by eexists.
Qed.

(** The row [save] writes is the item but for its number, which is set
    exactly when the item has one. *)
Lemma row_for_save_fields item row :
  row_for_save item = inr row →
  row = TaskChecklistItem.set_value_number (TaskChecklistItem.value_number row) item
  ∧ (TaskChecklistItem.value_number row = None
     ↔ TaskChecklistItem.value_number item = None).
Proof.
  unfold row_for_save.
  destruct (TaskChecklistItem.value_number item) as [d|] eqn:Hd.
  - destruct (get_db_prep_save d); [done|]. intros [= <-]. by split.
  - intros [= <-]. destruct item; simpl in *; subst; by split.
Qed.

Lemma row_for_save_None item :
  TaskChecklistItem.value_number item = None → row_for_save item = inr item.
Proof. unfold row_for_save. by intros ->. Qed.

Lemma stored_answer_fields request item :
  accepted request item = true →
  stored_answer request item
  = TaskChecklistItem.set_value_number
      (TaskChecklistItem.value_number (stored_answer request item))
      (capture_answer request item)
  ∧ (TaskChecklistItem.value_number (stored_answer request item) = None
     ↔ TaskChecklistItem.value_number (capture_answer request item) = None).
Proof.
  unfold accepted, stored_answer.
  destruct (row_for_save (capture_answer request item)) as [e|row] eqn:Hrow; [done|].
  intros _. by apply row_for_save_fields.
Qed.

(** The row stored for an item points where the item points. *)
Lemma stored_answer_refs request item :
  TaskChecklistItem.task (stored_answer request item) = TaskChecklistItem.task item
  ∧ TaskChecklistItem.asset (stored_answer request item) = TaskChecklistItem.asset item
  ∧ TaskChecklistItem.template_item (stored_answer request item)
    = TaskChecklistItem.template_item item.
Proof.
  unfold stored_answer.
  destruct (row_for_save (capture_answer request item)) as [e|row] eqn:Hrow; [done|].
  destruct (row_for_save_fields _ _ Hrow) as [-> _]. simpl.
  pose proof (capture_answer_wrote request item) as (_ & E1 & E2 & E3 & _).
  by rewrite E1, E2, E3.
Qed.

Lemma stored_answer_pk request item : pk (stored_answer request item) = pk item.
Proof.
  unfold stored_answer.
  destruct (row_for_save (capture_answer request item)) as [e|row] eqn:Hrow; [done|].
  destruct (row_for_save_fields _ _ Hrow) as [-> _]. simpl.
  apply capture_answer_pk.
Qed.

Lemma answers_saved_reached request items :
  answers_saved request items
  = map (stored_answer request) (answers_reached request items).
Proof.
  induction items as [|i items IH]; cbn [answers_saved answers_reached]; [done|].
  unfold accepted.
  destruct (row_for_save (capture_answer request i)) eqn:Hrow; [done|].
  cbn [map]. rewrite IH. f_equal. unfold stored_answer. by rewrite Hrow.
Qed.

(** The items reached are the items before the first refusal. *)
Lemma answers_reached_split request items :
  ∃ rest,
    items = (answers_reached request items ++ rest)%list
    ∧ Forall (λ i, accepted request i = true) (answers_reached request items)
    ∧ match answers_refused request items with
      | None => rest = []
      | Some e =>
          ∃ failing after,
            rest = failing :: after
            ∧ row_for_save (capture_answer request failing) = inl e
      end.
Proof.
  induction items as [|i items (rest & Hsplit & Hacc & Hrest)]; simpl.
  - by exists [].
  - unfold accepted at 1 2 3.
    destruct (row_for_save (capture_answer request i)) as [e|row] eqn:Hrow.
    + exists (i :: items). split_and!; [done|done|]. by exists i, items.
    + exists rest. split_and!.
      * simpl. by rewrite <- Hsplit.
      * apply Forall_cons. split; [|done]. unfold accepted. by rewrite Hrow.
      * done.
Qed.

Lemma answers_reached_accepted request items :
  Forall (λ i, accepted request i = true) items →
  answers_reached request items = items.
Proof.
  induction 1 as [|i items Hi _ IH]; simpl; [done|]. by rewrite Hi, IH.
Qed.

Lemma answers_reached_elem request items i :
  i ∈ answers_reached request items → i ∈ items ∧ accepted request i = true.
Proof.
  destruct (answers_reached_split request items) as (rest & Hsplit & Hacc & _).
  intros Hi. split.
  - rewrite Hsplit. apply elem_of_app. by left.
  - by apply (proj1 (Forall_forall _ _) Hacc).
Qed.

(** Answer submission, as one statement: the items the loop reached are
    replaced by the rows stored for them, all other rows stay. *)
Lemma save_answers_rows db request task_id task :
  objects.get (tasks db) task_id = Some task →
  posts request "save_answers" →
  NoDup (pk <$> rows (checklist_items db)) →
  rows (checklist_items (task_detail db request task_id).1)
  = map (λ i, if decide (i ∈ answers_reached request (items_of db task_id))
              then stored_answer request i else i)
        (rows (checklist_items db)).
Proof.
  intros Hget Hp Hnd.
  rewrite (task_detail_save_answers_eq _ _ _ _ Hget Hp).
  pose proof (get_Some_pk _ _ _ Hget) as Hpk. simpl in Hpk. subst task_id.
  rewrite save_answers_checklist_items, rows_save_all, answers_saved_reached.
  apply map_ext_in. intros i Hi. apply list_elem_of_In in Hi.
  apply overwritten_map_in; [apply stored_answer_pk|].
  intros x Hx Hpk.
  apply answers_reached_elem in Hx as [Hx _].
  unfold items_of, objects.filter in Hx.
  apply list_elem_of_In, filter_In in Hx as [Hx _]. apply list_elem_of_In in Hx.
  pose proof (get_In_NoDup _ _ Hnd Hx) as Hgx.
  pose proof (get_In_NoDup _ _ Hnd Hi) as Hgi.
  rewrite Hpk in Hgx. congruence.
Qed.

(** The stored row of an item after answer submission. *)
Lemma save_answers_stored db request task_id task item :
  objects.get (tasks db) task_id = Some task →
  posts request "save_answers" →
  NoDup (pk <$> rows (checklist_items db)) →
  item ∈ rows (checklist_items db) →
  objects.get (checklist_items (task_detail db request task_id).1)
              (TaskChecklistItem.id item)
  = Some (if decide (item ∈ answers_reached request (items_of db task_id))
          then stored_answer request item else item).
Proof.
  intros Hget Hp Hnd Hin.
  pose proof (save_answers_rows db request task_id task Hget Hp Hnd) as Hrows.
  pose proof (get_In_NoDup _ _ Hnd Hin) as Hg. simpl in Hg.
  destruct (checklist_items (task_detail db request task_id).1) as [l n].
  simpl in Hrows. subst l.
  rewrite get_map_rows.
  - destruct (checklist_items db) as [l0 n0]. simpl in *.
    unfold objects.get in *. simpl in *. by rewrite Hg.
  - intros r. case_decide; [apply stored_answer_pk | done].
Qed.

(** What a submission whose answers the store takes is answered with. *)
Lemma save_answers_response db request task_id task :
  objects.get (tasks db) task_id = Some task →
  posts request "save_answers" →
  (task_detail db request task_id).2
  = match answers_refused request (items_of db task_id) with
    | Some e => Raised e
    | None => Redirect "task_detail" task_id
    end.
Proof.
  intros Hget Hp.
  rewrite (task_detail_save_answers_eq _ _ _ _ Hget Hp).
  pose proof (get_Some_pk _ _ _ Hget) as Hpk. simpl in Hpk. subst task_id.
  rewrite save_answers_outcome. by destruct (answers_refused _ _).
Qed.
End Answers.

(** ** Instantiation *)

Global Instance ordering_total : Total ChecklistTemplateItem.ordering.
Proof. intros a b. unfold ChecklistTemplateItem.ordering. lia. Qed.

Global Instance ordering_trans : Transitive ChecklistTemplateItem.ordering.
Proof. intros a b c. unfold ChecklistTemplateItem.ordering. lia. Qed.

Section BulkCreate.
Context {A : Type} `{Model A}.

Lemma bulk_create_rows (t : Table A) items :
  rows (objects.bulk_create items t)
  = (rows t ++ imap (λ j x, set_pk (next_pk t + Z.of_nat j) x) items)%list.
Proof.
  unfold objects.bulk_create. revert t.
  induction items as [|x items IH]; intros t; simpl.
  - by rewrite app_nil_r.
  - rewrite IH. simpl. rewrite <- app_assoc. f_equal. simpl.
    rewrite Z.add_0_r. f_equal. apply imap_ext. intros j y _. simpl.
    f_equal. lia.
Qed.

Lemma bulk_create_next_pk (t : Table A) items :
  next_pk (objects.bulk_create items t) = next_pk t + Z.of_nat (length items).
Proof.
  unfold objects.bulk_create. revert t.
  induction items as [|x items IH]; intros t; simpl; [lia|].
  rewrite IH. simpl. lia.
Qed.
End BulkCreate.

Lemma imap_map {A B C} (f : nat → B → C) (g : A → B) (l : list A) :
  imap f (map g l) = imap (λ n x, f n (g x)) l.
Proof.
  revert f. induction l as [|x l IH]; intros f; simpl; [done|].
  by rewrite IH.
Qed.

Section Instantiation.
Context {RT : Runtime}.
Implicit Types (db : DB) (request : Request) (task : MaintenanceTask.t).

(** The rows that instantiation appends, with their primary keys. *)
Lemma create_checklist_rows db task template asset :
  rows (checklist_items (_create_checklist_from_template db task template asset))
  = (rows (checklist_items db)
     ++ imap (λ j ti, TaskChecklistItem.set_id
                        (next_pk (checklist_items db) + Z.of_nat j)
                        (snapshot task asset ti))
             (template_items_all db template))%list.
Proof.
  unfold _create_checklist_from_template.
  change (λ item, TaskChecklistItem.new _ _ _ _ _ _ _) with (snapshot task asset).
  destruct (template_items_all db template) as [|ti l] eqn:E.
  - simpl. by rewrite app_nil_r.
  - rewrite <- E. destruct (map _ _) eqn:E2.
    + rewrite E in E2. discriminate.
    + rewrite <- E2. cbn [checklist_items set_checklist_items].
      rewrite bulk_create_rows. f_equal. apply imap_map.
Qed.

Lemma template_items_all_sorted db template :
  StronglySorted ChecklistTemplateItem.ordering (template_items_all db template).
Proof. apply StronglySorted_merge_sort; apply _. Qed.

Lemma template_items_all_perm db template :
  template_items_all db template
  ≡ₚ List.filter
       (λ i, bool_decide (ChecklistTemplateItem.template i = ChecklistTemplate.id template))
       (rows (template_items db)).
Proof. apply merge_sort_Permutation. Qed.

Lemma same_snapshot_null gone (ci : TaskChecklistItem.t) :
  same_snapshot ci (null_template_item gone ci).
Proof.
  unfold same_snapshot, null_template_item.
  destruct ci as [? ? ? [k|] ? ? ? ? ? ? ? ?]; simpl; [|done].
  by destruct (gone k).
Qed.

(** Editing or deleting a template or its questions keeps every checklist
    item, in place, with its snapshot and its answer. *)
Lemma template_edit_keeps_snapshots db op db' :
  edits_template op = true → admin_site db op = Some db' →
  Forall2 same_snapshot (rows (checklist_items db)) (rows (checklist_items db')).
Proof.
  assert (∀ l, Forall2 same_snapshot l l) as Hrefl.
  { intros l. apply Forall_Forall2_diag, Forall_forall. by intros. }
  assert (∀ gone l, Forall2 same_snapshot l (map (null_template_item gone) l)) as Hnull.
  { intros gone l. apply Forall2_fmap_r, Forall_Forall2_diag, Forall_forall.
    intros ci _. apply same_snapshot_null. }
  intros Hop Hadm. destruct op; try discriminate Hop; simpl in Hadm;
    repeat case_match; simplify_eq; simpl; auto.
Qed.
End Instantiation.

Lemma Forall2_imap_r {A B} (P : A → B → Prop) (f : nat → A → B) l :
  (∀ j x, P x (f j x)) → Forall2 P l (imap f l).
Proof.
  revert f. induction l as [|x l IH]; intros f Hf; simpl; constructor; [done|].
  apply IH. intros j y. apply Hf.
Qed.

Global Instance same_snapshot_equiv : Equivalence same_snapshot.
Proof.
  unfold same_snapshot. split.
  - by intros x.
  - by intros x y.
  - intros x y z Hxy Hyz. by rewrite Hyz.
Qed.

(** C5.  Instantiating a template onto a task reads the template's items in
    the template's order (ascending [order], ties by primary key, that is
    by creation), appends one checklist item per template item to the
    task, in that order, each an unanswered copy of the label, type,
    required flag and unit the template item has at that moment; whatever
    edits and deletions of templates and template items follow, every
    checklist item keeps its place, its snapshot and its answer. *)
Theorem instantiation_copies_template {RT : Runtime}
    db (task : MaintenanceTask.t) (template : ChecklistTemplate.t) asset :
  let of_template i :=
    bool_decide (ChecklistTemplateItem.template i = ChecklistTemplate.id template) in
  let source := template_items_all db template in
  let db' := _create_checklist_from_template db task template asset in
  source ≡ₚ List.filter of_template (rows (template_items db))
  ∧ StronglySorted ChecklistTemplateItem.ordering source
  ∧ (∃ created,
       rows (checklist_items db') = (rows (checklist_items db) ++ created)%list
       ∧ length created = length (List.filter of_template (rows (template_items db)))
       ∧ Forall2 (copies task asset) source created)
  ∧ (∀ edits, Forall (λ e, is_template_edit e = true) edits →
       Forall2 same_snapshot (rows (checklist_items db'))
                             (rows (checklist_items (run db' edits)))).
Proof.
  cbv zeta. split; [apply template_items_all_perm|].
  split; [apply template_items_all_sorted|]. split.
  - eexists. split; [apply create_checklist_rows|]. split.
    + rewrite length_imap. apply Permutation_length, template_items_all_perm.
    + apply Forall2_imap_r. intros j ti. by repeat split.
  - generalize (_create_checklist_from_template db task template asset).
    intros db0 edits. revert db0.
    induction edits as [|e edits IH]; intros db0 Hed.
    + simpl. apply Forall_Forall2_diag, Forall_forall. by intros.
    + apply Forall_cons in Hed as [He Hed]. unfold run. simpl.
      etrans; [|apply IH, Hed].
      destruct e; try discriminate He. simpl.
      destruct (admin_site db0 op) as [db1|] eqn:Hop; simpl.
      * by apply (template_edit_keeps_snapshots db0 op).
      * apply Forall_Forall2_diag, Forall_forall. by intros.
Qed.

Lemma instantiation_copies_template_witness :
  let db' := _create_checklist_from_template Demo.db Demo.inspection
               Demo.pump_template (Some Demo.boiler) in
  let edits :=
    [ Admin (ChangeTemplateItem
               (ChecklistTemplateItem.mk 1 1 0 "Pressione mandata" "text" false "kPa"));
      Admin (DeleteTemplateItem 2) ] in
  template_items_all Demo.db Demo.pump_template
  = [Demo.leaks; Demo.picture; Demo.pressure]
  ∧ Forall2 same_snapshot (rows (checklist_items db'))
      (rows (checklist_items (run (RT := plain_runtime) db' edits)))
  ∧ (TaskChecklistItem.label_snapshot
       <$> rows (checklist_items (run (RT := plain_runtime) db' edits)))
    = ["Perdite visibili"; "Pressione"; "Osservazioni"; "Foto";
       "Perdite visibili"; "Foto"; "Pressione"].
Proof.
  cbv zeta. split; [by vm_compute|]. split; [|by vm_compute].
  apply (instantiation_copies_template (RT := plain_runtime)
           Demo.db Demo.inspection Demo.pump_template (Some Demo.boiler)).
  repeat constructor.
Defined.

(** ** Stored answers *)

(** Clearing, when nothing is refused: if the store takes every answer of
    the submission, a number item whose field is empty or blank, or whose
    trimmed field [Decimal] rejects, is stored with its numeric value
    unset, whatever it held before, and the caller is redirected to the
    task page. *)
Lemma unparsable_number_cleared_when_accepted {RT : Runtime}
    db request task_id task item :
  objects.get (tasks db) task_id = Some task →
  posts request "save_answers" →
  NoDup (pk <$> rows (checklist_items db)) →
  item ∈ rows (checklist_items db) →
  TaskChecklistItem.task item = task_id →
  TaskChecklistItem.item_type item = "number" →
  let answer := strip (QueryDict_get (POST request) (answer_key item "_number") "") in
  answer = "" ∨ Decimal answer = None →
  answers_accepted db request task_id →
  (task_detail db request task_id).2 = Redirect "task_detail" task_id
  ∧ ∃ item',
      objects.get (checklist_items (task_detail db request task_id).1)
                  (TaskChecklistItem.id item) = Some item'
      ∧ TaskChecklistItem.value_number item' = None.
Proof.
  intros Hget Hp Hnd Hin Htask Hty answer Hans Hacc. split.
  - rewrite (save_answers_response db request task_id task Hget Hp).
    by rewrite (proj2 (answers_refused_accepted _ _) Hacc).
  - eexists. split; [by apply (save_answers_stored db request task_id task)|].
    rewrite (answers_reached_accepted _ _ Hacc).
    rewrite decide_True
      by (unfold items_of, objects.filter; apply list_elem_of_In, filter_In;
          split; [by apply list_elem_of_In | by apply bool_decide_eq_true]).
    assert (TaskChecklistItem.value_number (capture_answer request item) = None) as Hnone.
    { unfold capture_answer. fold (answer_key item "_number"). fold answer.
      rewrite Hty. simpl.
      destruct Hans as [->| ->]; [done|]. by destruct (truthy answer). }
    unfold stored_answer. by rewrite (row_for_save_None _ Hnone).
Qed.

(** The item itself never makes the request fail: the save of a number
    item whose field is empty or does not parse is taken by the store. *)
Lemma unparsable_number_is_accepted {RT : Runtime} request item :
  TaskChecklistItem.item_type item = "number" →
  let answer := strip (QueryDict_get (POST request) (answer_key item "_number") "") in
  answer = "" ∨ Decimal answer = None →
  accepted request item = true.
Proof.
  intros Hty answer Hans.
  assert (TaskChecklistItem.value_number (capture_answer request item) = None) as Hnone.
  { unfold capture_answer. fold (answer_key item "_number"). fold answer.
    rewrite Hty. simpl.
    destruct Hans as [->| ->]; [done|]. by destruct (truthy answer). }
  unfold accepted. by rewrite (row_for_save_None _ Hnone).
Qed.

Lemma NoDup_List_filter {A} (c : A → bool) (l : list A) :
  NoDup l → NoDup (List.filter c l).
Proof.
  induction 1 as [|x l Hx _ IH]; cbn [List.filter]; [constructor|].
  destruct (c x); [|done]. constructor; [|done].
  intros Hin. apply Hx. by apply list_elem_of_In, filter_In in Hin as [?%list_elem_of_In _].
Qed.

Lemma answers_refused_at {RT : Runtime} request before failing after e :
  Forall (λ i, accepted request i = true) before →
  row_for_save (capture_answer request failing) = inl e →
  answers_refused request (before ++ failing :: after) = Some e
  ∧ answers_reached request (before ++ failing :: after) = before.
Proof.
  intros Hacc Hfail. induction Hacc as [|i before Hi _ [IH1 IH2]]; simpl.
  - unfold accepted. by rewrite Hfail.
  - rewrite Hi, IH2. unfold accepted in Hi.
    destruct (row_for_save (capture_answer request i)); [done|]. by rewrite IH1.
Qed.

(** The defect, for every runtime: when the store refuses the number
    captured for an item, the request is answered with the exception of
    that save, the task row is untouched, and the refused item and every
    item after it keep the row they had, whatever their fields say. *)
Lemma refused_save_ends_the_request {RT : Runtime}
    db request task_id task before failing after e :
  objects.get (tasks db) task_id = Some task →
  posts request "save_answers" →
  NoDup (pk <$> rows (checklist_items db)) →
  items_of db task_id = (before ++ failing :: after)%list →
  Forall (λ i, accepted request i = true) before →
  row_for_save (capture_answer request failing) = inl e →
  let r := task_detail db request task_id in
  r.2 = Raised e
  ∧ tasks r.1 = tasks db
  ∧ ∀ item, item ∈ failing :: after →
      objects.get (checklist_items r.1) (TaskChecklistItem.id item) = Some item.
Proof.
  intros Hget Hp Hnd Hitems Hacc Hfail. cbv zeta.
  destruct (answers_refused_at request before failing after e Hacc Hfail)
    as [Href Hreached].
  rewrite <- Hitems in Href, Hreached.
  split_and!.
  - by rewrite (save_answers_response db request task_id task Hget Hp), Href.
  - apply task_detail_tasks_unchanged.
    + intros Hu. by pose proof (posts_action _ _ _ Hp Hu).
    + intros (_ & _ & Ha). apply answers_refused_accepted in Ha. congruence.
  - intros item Hin.
    assert (item ∈ items_of db task_id) as Hitem
      by (rewrite Hitems; apply elem_of_app; by right).
    assert (item ∈ rows (checklist_items db)) as Hrow.
    { unfold items_of, objects.filter in Hitem.
      by apply list_elem_of_In, filter_In in Hitem as [?%list_elem_of_In _]. }
    rewrite (save_answers_stored db request task_id task item Hget Hp Hnd Hrow).
    rewrite Hreached, decide_False; [done|].
    assert (NoDup (items_of db task_id)) as Hnd'
      by (apply NoDup_List_filter; by apply NoDup_fmap_1 in Hnd).
    rewrite Hitems in Hnd'. apply NoDup_app in Hnd' as (_ & Hdisj & _).
    intros Hb. by apply (Hdisj item).
Qed.

(** C4.  The view does raise to the caller, and does keep the previous
    value.  On a task with two number items, a submission gives the first
    one [NaN], which [Decimal] reads and the column refuses, and the
    second one [abc], which [Decimal] rejects: the save of the first item
    raises, the caller gets [ValidationError], and the second item, never
    reached, keeps the number it had.  A number with more digits than the
    column holds has the same effect, with [InvalidOperation].  The
    refused item keeps its old number as well. *)
Theorem refused_number_raises :
  let db := Demo.two_numbers in
  let after request k :=
    TaskChecklistItem.value_number
      <$> objects.get (checklist_items (task_detail (RT := plain_runtime) db request 1).1) k in
  let nan :=
    Demo.post [("action", "save_answers"); ("item_2_number", "NaN");
               ("item_5_number", "abc")] in
  let long :=
    Demo.post [("action", "save_answers"); ("item_2_number", "1234567890123");
               ("item_5_number", "abc")] in
  Decimal (Runtime := plain_runtime) "abc" = None
  ∧ (TaskChecklistItem.item_type <$> objects.get (checklist_items db) 5) = Some "number"
  ∧ (task_detail (RT := plain_runtime) db nan 1).2 = Raised ValidationError
  ∧ after nan 5 = Some (Some (Finite false 7000 (-3)))
  ∧ after nan 2 = Some (Some (Finite false 2500 (-3)))
  ∧ (task_detail (RT := plain_runtime) db long 1).2 = Raised InvalidOperation
  ∧ after long 5 = Some (Some (Finite false 7000 (-3))).
Proof. cbv zeta. split_and!; by vm_compute. Qed.

(** Omission, for the items reached: the items that answer submission
    reaches, which are all the items of the task when the store takes
    every answer, are rewritten in one pass and the others are left
    alone.  For an item
    reached whose field is absent from the submission, the stored answer
    becomes unknown for a yes/no item, unset for a number item and empty
    for a text item; a photo item for which no file is uploaded keeps the
    attachment it has. *)
Lemma omitted_answers_cleared_when_reached {RT : Runtime} db request task_id task :
  objects.get (tasks db) task_id = Some task →
  posts request "save_answers" →
  NoDup (pk <$> rows (checklist_items db)) →
  let db' := (task_detail db request task_id).1 in
  let reached := answers_reached request (items_of db task_id) in
  rows (checklist_items db')
  = map (λ i, if decide (i ∈ reached) then stored_answer request i else i)
        (rows (checklist_items db))
  ∧ (answers_accepted db request task_id →
     reached = items_of db task_id
     ∧ (task_detail db request task_id).2 = Redirect "task_detail" task_id)
  ∧ ∀ item, item ∈ reached →
      ∃ item',
        objects.get (checklist_items db') (TaskChecklistItem.id item) = Some item'
        ∧ (TaskChecklistItem.item_type item = "yesno" →
           POST request !! answer_key item "_yesno" = None →
           TaskChecklistItem.value_bool item' = None)
        ∧ (TaskChecklistItem.item_type item = "number" →
           POST request !! answer_key item "_number" = None →
           TaskChecklistItem.value_number item' = None)
        ∧ (TaskChecklistItem.item_type item = "text" →
           POST request !! answer_key item "_text" = None →
           TaskChecklistItem.value_text item' = "")
        ∧ (TaskChecklistItem.item_type item = "photo" →
           FILES request !! answer_key item "_photo" = None →
           TaskChecklistItem.attachment item' = TaskChecklistItem.attachment item).
Proof.
  intros Hget Hp Hnd db' reached. split_and!.
  - by apply (save_answers_rows db request task_id task).
  - intros Hacc. split; [by apply answers_reached_accepted|].
    rewrite (save_answers_response db request task_id task Hget Hp).
    by rewrite (proj2 (answers_refused_accepted _ _) Hacc).
  - intros item Hreached.
    destruct (answers_reached_elem _ _ _ Hreached) as [Hin Hacc].
    unfold items_of, objects.filter in Hin.
    apply list_elem_of_In, filter_In in Hin as [Hin _]. apply list_elem_of_In in Hin.
    eexists. split; [by apply (save_answers_stored db request task_id task)|].
    fold reached. rewrite decide_True by done.
    destruct (stored_answer_fields request item Hacc) as [-> Hnone].
    cbn [TaskChecklistItem.value_bool TaskChecklistItem.value_number
         TaskChecklistItem.value_text TaskChecklistItem.attachment
         TaskChecklistItem.set_value_number].
    split_and!; intros Hty Habs.
    2: apply Hnone.
    all: unfold capture_answer, QueryDict_get;
         fold (answer_key item "_yesno") (answer_key item "_number")
              (answer_key item "_text") (answer_key item "_photo");
         rewrite Hty, Habs; done.
Qed.

(** C10.  The batch can stop half way.  A submission that leaves every
    field out but gives the number item [Infinity], which [Decimal] reads
    and the column refuses, is answered with [ValidationError]: the
    yes/no item before the number item has been rewritten and lost its
    answer, while the text item after it, whose field is absent too, keeps
    its text, and so does the number item its number. *)
Theorem refused_answer_stops_the_batch :
  let request := Demo.post [("action", "save_answers"); ("item_2_number", "Infinity")] in
  let r := task_detail (RT := plain_runtime) Demo.db request 1 in
  POST request !! answer_key Demo.remarks_answer "_text" = None
  ∧ r.2 = Raised ValidationError
  ∧ rows (checklist_items Demo.db)
    = [Demo.leaks_answer; Demo.pressure_answer; Demo.remarks_answer; Demo.picture_answer]
  ∧ rows (checklist_items r.1)
    = [TaskChecklistItem.set_value_bool None Demo.leaks_answer;
       Demo.pressure_answer; Demo.remarks_answer; Demo.picture_answer]
  ∧ TaskChecklistItem.value_bool Demo.leaks_answer = Some true
  ∧ TaskChecklistItem.value_text Demo.remarks_answer = "tutto in ordine".
Proof. cbv zeta. split_and!; by vm_compute. Qed.

(** ** The value-field invariant *)

Section Invariant.
Context {RT : Runtime}.
Implicit Types (db : DB) (request : Request) (task : MaintenanceTask.t).

Lemma only_selected_new k task_id asset template_item label item_type required unit :
  only_selected_value
    (TaskChecklistItem.set_id k
       (TaskChecklistItem.new task_id asset template_item label item_type required unit)).
Proof. by repeat split. Qed.

Lemma checklist_ok_only_tasks db db' :
  only_tasks db db' → checklist_ok db → checklist_ok db'.
Proof. intros (_ & _ & _ & _ & Hc). unfold checklist_ok. by rewrite Hc. Qed.

Lemma create_checklist_ok db task template asset :
  checklist_ok db →
  checklist_ok (_create_checklist_from_template db task template asset).
Proof.
  unfold checklist_ok. rewrite create_checklist_rows. intros Hok.
  apply Forall_app. split; [done|].
  apply Forall_forall. intros ci Hci.
  apply elem_of_lookup_imap in Hci as (j & ti & -> & _).
  apply only_selected_new.
Qed.

Lemma generate_checklist_ok db request task :
  checklist_ok db → checklist_ok (task_detail_generate_checklist db request task).1.
Proof.
  intros Hok. unfold task_detail_generate_checklist.
  repeat case_match; simpl; auto using create_checklist_ok.
Qed.

Lemma add_checklist_item_ok db request task :
  checklist_ok db → checklist_ok (task_detail_add_checklist_item db request task).1.
Proof.
  intros Hok. unfold task_detail_add_checklist_item.
  repeat case_match; simpl; auto.
  all: unfold checklist_ok; simpl; apply Forall_app; split; [done|].
  all: repeat constructor; done.
Qed.

Lemma save_answers_ok db request task :
  checklist_ok db → checklist_ok (task_detail_save_answers db request task).1.
Proof.
  intros Hok. unfold checklist_ok.
  rewrite save_answers_checklist_items, rows_save_all.
  apply Forall_forall. intros ci Hci.
  apply list_elem_of_In, in_map_iff in Hci as (r & <- & Hr).
  apply list_elem_of_In in Hr.
  apply overwritten_Forall.
  - by apply (proj1 (Forall_forall _ _) Hok).
  - rewrite answers_saved_reached. apply Forall_forall. intros x Hx.
    apply list_elem_of_In, in_map_iff in Hx as (y & <- & Hy).
    apply list_elem_of_In, answers_reached_elem in Hy as [Hy Hacc].
    unfold items_of, objects.filter in Hy.
    apply list_elem_of_In, filter_In in Hy as [Hy _]. apply list_elem_of_In in Hy.
    pose proof (capture_answer_only_selected request y
                  (proj1 (Forall_forall _ _) Hok y Hy)) as (Ht & Hn & Hb & Ha).
    destruct (stored_answer_fields request y Hacc) as [-> Hnone].
    unfold only_selected_value. cbn. split_and!; [done| |done|done].
    intros Hne. apply Hnone. by apply Hn.
Qed.

Lemma task_detail_ok db request task_id :
  checklist_ok db → checklist_ok (task_detail db request task_id).1.
Proof.
  intros Hok. unfold task_detail, login_required.
  destruct (user request); [|done].
  unfold task_detail_view.
  destruct (objects.get (tasks db) task_id) as [task|]; [|done].
  repeat case_bool_decide; simpl; try done.
  - apply (checklist_ok_only_tasks db); [apply update_task_frame | done].
  - by apply generate_checklist_ok.
  - by apply add_checklist_item_ok.
  - by apply save_answers_ok.
Qed.

Lemma task_list_page_db db request : (task_list_page db request).1 = db.
Proof. unfold task_list_page. by repeat case_match. Qed.

Lemma create_task_checklist_ok db request site task :
  checklist_ok db → checklist_ok (create_task_checklist db request site task).1.
Proof.
  intros Hok. unfold create_task_checklist.
  repeat case_match; simpl; auto using create_checklist_ok.
Qed.

Lemma task_list_ok db request :
  checklist_ok db → checklist_ok (task_list db request).1.
Proof.
  intros Hok. unfold task_list, login_required.
  destruct (user request); [|done].
  unfold task_list_view.
  repeat case_match; rewrite ?task_list_page_db; simpl; try done.
  all: by apply create_task_checklist_ok.
Qed.
End Invariant.

(** C9.  If every checklist item has only the value field of its type
    populated, this is still so after any request to [task_detail]
    (template instantiation on an existing task, ad hoc item addition,
    answer capture with or without closing) and after any request to
    [task_list] (creation of a task from a template).  Capturing the answer
    of one item writes at most the value field its type selects: the
    tri-state boolean of a yes/no item, the decimal of a number item, the
    text of a text item, the attachment of a photo item. *)
Theorem value_field_matches_type {RT : Runtime} db request :
  checklist_ok db →
  (∀ task_id, checklist_ok (task_detail db request task_id).1)
  ∧ checklist_ok (task_list db request).1
  ∧ ∀ item, wrote_selected_value item (capture_answer request item).
Proof.
  intros Hok. split; [|split].
  - intros task_id. by apply task_detail_ok.
  - by apply task_list_ok.
  - intros item. apply capture_answer_wrote.
Qed.

Lemma value_field_matches_type_witness :
  let request :=
    mk_request "POST" ∅
      (list_to_map [("action", "save_answers"); ("item_1_yesno", "no");
                    ("item_2_number", "3.1"); ("item_3_text", " perdita  ");
                    ("item_1_text", "ignored"); ("item_3_number", "7")])
      {["item_4_photo" := "nuova.jpg"; "item_1_photo" := "x.jpg"]} (Some 7) 900 901 id in
  checklist_ok Demo.db
  ∧ checklist_ok (task_detail (RT := plain_runtime) Demo.db request 1).1
  ∧ rows (checklist_items (task_detail (RT := plain_runtime) Demo.db request 1).1)
    = [ TaskChecklistItem.mk 1 1 None (Some 2) "Perdite visibili" "yesno" true ""
          "" None (Some false) None;
        TaskChecklistItem.mk 2 1 (Some 1) (Some 1) "Pressione" "number" true "bar"
          "" (Some (Finite false 3100 (-3))) None None;
        TaskChecklistItem.mk 3 1 None None "Osservazioni" "text" false ""
          "perdita" None None None;
        TaskChecklistItem.mk 4 1 None (Some 4) "Foto" "photo" false ""
          "" None None (Some "nuova.jpg") ].
Proof.
  cbv zeta.
  assert (checklist_ok Demo.db) as Hok by (unfold checklist_ok; by_evaluation).
  split; [exact Hok|]. split; [|by vm_compute].
  match goal with |- context [task_detail _ ?request 1] =>
    exact (proj1 (value_field_matches_type (RT := plain_runtime) Demo.db request Hok) 1)
  end.
Defined.

(** ** Closing a task *)

Lemma report_of_empty_checklist {RT : Runtime} db report_now task :
  no_entries_marker ∈ _build_task_report_pdf db report_now task [].
Proof.
  unfold _build_task_report_pdf, no_entries_marker.
  repeat (apply elem_of_app; right). apply list_elem_of_singleton. done.
Qed.



(** ** The asset directory *)

Lemma icontains_strip field q : ci_substring q field → icontains field (strip q) = true.
Proof.
  intros (l & r & Hf). unfold icontains. apply contains_spec.
  destruct (strip_inside q) as (l' & r' & Hq).
  exists (l +:+ upper l'), (upper r' +:+ r).
  rewrite Hf. rewrite Hq at 1. rewrite !upper_app, !string_app_assoc. done.
Qed.

(** C7.  For a logged-in request with free-text query [q], the asset list
    contains every asset in whose name, type, serial or vendor, or in
    whose site's name, [q] occurs letter case aside; so an asset found
    through its site's name alone is listed.  A status filter in the same
    request is a separate condition: the asset is listed when no status is
    asked for or its status is the one asked for. *)
Theorem asset_list_searches_all_fields db request a :
  is_Some (user request) →
  a ∈ rows (assets db) →
  status_admits request a →
  QueryDict_get (GET request) "q" "" ≠ "" →
  matches_query db (QueryDict_get (GET request) "q" "") a →
  ∃ listed status_filter query,
    asset_list db request = (db, RenderAssets listed status_filter query)
    ∧ a ∈ listed.
Proof.
  intros [u Hu] Hin Hst _ Hq.
  unfold asset_list, login_required, asset_list_view. rewrite Hu.
  do 3 eexists. split; [reflexivity|].
  rewrite merge_sort_Permutation.
  assert (a ∈ (if truthy (strip (QueryDict_get (GET request) "status" ""))
               then List.filter
                      (λ a, bool_decide
                              (Asset.status a
                               = strip (QueryDict_get (GET request) "status" "")))
                      (rows (assets db))
               else rows (assets db))) as Hin'.
  { case_match; [|done]. apply list_elem_of_In, filter_In.
    split; [by apply list_elem_of_In|]. apply bool_decide_eq_true.
    destruct Hst as [Hst|Hst]; [|done].
    unfold truthy in *. rewrite Hst in *. done. }
  destruct (truthy (strip (QueryDict_get (GET request) "q" ""))); [|exact Hin'].
  apply list_elem_of_In, filter_In. split; [by apply list_elem_of_In|].
  destruct Hq as [Hq|[Hq|[Hq|[Hq|(site & Hsite & Hq)]]]];
    apply icontains_strip in Hq.
  - by rewrite Hq.
  - by rewrite Hq, orb_true_r.
  - by rewrite Hq, !orb_true_r.
  - by rewrite Hq, !orb_true_r.
  - unfold related_site. rewrite Hsite. simpl. by rewrite Hq, !orb_true_r.
Qed.

Lemma asset_list_searches_all_fields_witness :
  let request := Demo.get [("q", "VIVAIO ")] in
  icontains (Asset.name Demo.pump) "VIVAIO" = false
  ∧ icontains (Asset.asset_type Demo.pump) "VIVAIO" = false
  ∧ icontains (Asset.serial Demo.pump) "VIVAIO" = false
  ∧ icontains (Asset.vendor Demo.pump) "VIVAIO" = false
  ∧ ∃ listed status_filter query,
      asset_list Demo.db request
      = (Demo.db, RenderAssets listed status_filter query)
      ∧ Demo.pump ∈ listed.
Proof.
  cbv zeta. repeat (split; [by vm_compute|]).
  match goal with |- context [asset_list _ ?request] =>
    refine (asset_list_searches_all_fields Demo.db request Demo.pump _ _ _ _ _) end.
  - by eexists.
  - by_evaluation.
  - left. by vm_compute.
  - by vm_compute.
  - do 4 right. eexists. split; [by vm_compute|].
    exists "", "NORD". by vm_compute.
Defined.

(** ** Asset tokens *)

Lemma elem_of_filter_bool {A} (c : A → bool) (l : list A) x :
  x ∈ List.filter c l ↔ x ∈ l ∧ c x = true.
Proof. by rewrite !list_elem_of_In, filter_In. Qed.

Lemma NoDup_fmap_filter {A B} (f : A → B) (c : A → bool) (l : list A) :
  NoDup (f <$> l) → NoDup (f <$> List.filter c l).
Proof.
  induction l as [|x l IH]; [done|].
  rewrite fmap_cons. intros [Hx Hnd]%NoDup_cons.
  cbn [List.filter]. destruct (c x); [|by apply IH].
  rewrite fmap_cons. apply NoDup_cons. split; [|by apply IH].
  intros Hin. apply Hx. apply list_elem_of_fmap in Hin as (y & -> & Hy).
  apply elem_of_filter_bool in Hy as [Hy _]. apply list_elem_of_fmap. eauto.
Qed.

Lemma fmap_map_same {A B} (f : A → B) (g : A → A) (l : list A) :
  (∀ x, f (g x) = f x) → f <$> map g l = f <$> l.
Proof.
  intros Hfg. induction l as [|x l IH]; [done|].
  cbn [map]. by rewrite !fmap_cons, Hfg, IH.
Qed.

Lemma NoDup_fmap_inj {A B} (f : A → B) (l : list A) x y :
  NoDup (f <$> l) → x ∈ l → y ∈ l → f x = f y → x = y.
Proof.
  induction l as [|z l IH]; [by intros _ ?%elem_of_nil|].
  rewrite fmap_cons. intros [Hz Hnd]%NoDup_cons Hx Hy Heq.
  apply elem_of_cons in Hx as [->|Hx]; apply elem_of_cons in Hy as [->|Hy].
  - done.
  - destruct Hz. rewrite Heq. apply list_elem_of_fmap. eauto.
  - destruct Hz. rewrite <- Heq. apply list_elem_of_fmap. eauto.
  - by apply IH.
Qed.

Lemma tokens_kept_refl t : tokens_kept t t.
Proof. split; [lia|]. intros a Ha _. by exists a. Qed.

Lemma tokens_kept_trans t1 t2 t3 :
  tokens_kept t1 t2 → tokens_kept t2 t3 → tokens_kept t1 t3.
Proof.
  intros [Hn12 H12] [Hn23 H23]. split; [lia|].
  intros a3 Ha3 Hlt.
  destruct (H23 a3 Ha3) as (a2 & Ha2 & Hid2 & Htok2); [lia|].
  destruct (H12 a2 Ha2) as (a1 & Ha1 & Hid1 & Htok1); [lia|].
  exists a1. repeat split; [done | congruence | congruence].
Qed.

Lemma tokens_kept_same_id t t' a a' :
  asset_table_ok t → tokens_kept t t' →
  a ∈ rows t → a' ∈ rows t' → Asset.id a' = Asset.id a →
  Asset.qr_token a' = Asset.qr_token a.
Proof.
  intros (_ & Hnd & Hlt) [_ Hk] Ha Ha' Hid.
  destruct (Hk a' Ha') as (a0 & Ha0 & Hid0 & Htok0).
  { rewrite Hid. by apply (proj1 (Forall_forall _ _) Hlt). }
  assert (a0 = a) as ->; [|done].
  apply (NoDup_fmap_inj Asset.id (rows t)); [done..|congruence].
Qed.

Lemma delete_assets_table cond db :
  asset_table_ok (assets db) →
  asset_table_ok (assets (delete_assets cond db))
  ∧ tokens_kept (assets db) (assets (delete_assets cond db)).
Proof.
  intros (Htok & Hid & Hlt). unfold delete_assets, objects.delete. simpl. split.
  - repeat split; simpl.
    + by apply NoDup_fmap_filter.
    + by apply NoDup_fmap_filter.
    + apply Forall_forall. intros a Ha. apply elem_of_filter_bool in Ha as [Ha _].
      by apply (proj1 (Forall_forall _ _) Hlt).
  - split; [simpl; lia|]. simpl. intros a Ha _. exists a.
    by apply elem_of_filter_bool in Ha as [Ha _].
Qed.

Lemma change_asset_table t k form :
  asset_table_ok t →
  asset_table_ok (objects.update k (Asset.write_form form) t)
  ∧ tokens_kept t (objects.update k (Asset.write_form form) t).
Proof.
  intros (Htoks & Hids & Hlt). unfold objects.update, asset_table_ok, tokens_kept.
  set (g := λ r : Asset.t, if bool_decide (pk r = k) then Asset.write_form form r else r).
  cbn [rows next_pk].
  assert (∀ r, Asset.id (g r) = Asset.id r ∧ Asset.qr_token (g r) = Asset.qr_token r)
    as Hg by (intros r; unfold g; by case_bool_decide).
  rewrite (fmap_map_same Asset.qr_token g), (fmap_map_same Asset.id g)
    by (intros r; apply Hg).
  split_and!; [done | done | | lia |].
  - apply Forall_forall. intros a' Ha'.
    apply list_elem_of_In, in_map_iff in Ha' as (r & <- & Hr).
    rewrite (proj1 (Hg r)).
    apply (proj1 (Forall_forall _ _) Hlt). by apply list_elem_of_In.
  - intros a' Ha' _.
    apply list_elem_of_In, in_map_iff in Ha' as (r & <- & Hr).
    exists r. split; [by apply list_elem_of_In|]. split; symmetry; apply Hg.
Qed.

Section Tokens.
Context {RT : Runtime}.
Implicit Types (db : DB) (request : Request).

Lemma task_detail_assets db request task_id :
  assets (task_detail db request task_id).1 = assets db.
Proof.
  unfold task_detail, login_required. destruct (user request); [|done].
  unfold task_detail_view. destruct (objects.get (tasks db) task_id) as [task|]; [|done].
  repeat case_bool_decide; simpl; try done.
  - apply update_task_frame.
  - apply generate_checklist_frame.
  - apply add_checklist_item_frame.
  - apply save_answers_frame.
Qed.

Lemma task_list_assets db request : assets (task_list db request).1 = assets db.
Proof.
  unfold task_list, login_required. destruct (user request); [|done].
  unfold task_list_view.
  repeat case_match; rewrite ?task_list_page_db; simpl; try done.
  all: unfold create_task_checklist; repeat case_match; simpl; try done.
  all: etrans; [apply create_checklist_frame | done].
Qed.

Lemma dashboard_assets db request : assets (dashboard db request).1 = assets db.
Proof.
  unfold dashboard, login_required. destruct (user request); [|done].
  unfold dashboard_view, dashboard_page. by repeat case_match.
Qed.

(** No view writes the asset table. *)
Lemma view_assets db e :
  (∀ op, e ≠ Admin op) → assets (serve db e).1 = assets db.
Proof.
  intros Hview. destruct e; simpl.
  - apply dashboard_assets.
  - done.
  - unfold asset_list, login_required. by destruct (user request).
  - apply task_list_assets.
  - unfold site_list, login_required. by destruct (user request).
  - unfold site_detail, login_required, site_detail_view.
    destruct (user request); [|done]. by case_match.
  - unfold asset_by_token, login_required, asset_by_token_view.
    destruct (user request); [|done]. by repeat case_match.
  - unfold asset_qr_png. by case_match.
  - unfold asset_label_pdf. by case_match.
  - apply task_detail_assets.
  - unfold task_report_pdf, login_required, task_report_pdf_view.
    destruct (user request); [|done]. by repeat case_match.
  - by destruct (Hview op).
Qed.

(** Adding an asset stores the drawn token, and fails on a token in use. *)
Lemma add_asset_table db form uuid4 created_at :
  match admin_site db (AddAsset form uuid4 created_at) with
  | Some db' =>
      (uuid4 ∉ Asset.qr_token <$> rows (assets db))
      ∧ ∃ a, rows (assets db') = (rows (assets db) ++ [a])%list
             ∧ Asset.qr_token a = uuid4 ∧ Asset.id a = next_pk (assets db)
             ∧ next_pk (assets db') = next_pk (assets db) + 1
  | None =>
      uuid4 ∈ Asset.qr_token <$> rows (assets db)
      ∨ objects.get (sites db) (Asset.f_site form) = None
  end.
Proof.
  simpl. unfold has_pk.
  destruct (existsb _ _) eqn:Hex.
  - rewrite andb_false_r. left.
    apply existsb_exists in Hex as (a & Ha & Htok).
    apply bool_decide_eq_true in Htok. apply list_elem_of_fmap.
    exists a. split; [done | by apply list_elem_of_In].
  - rewrite andb_true_r. case_bool_decide as Hsite.
    + split; [|by eexists].
      intros Hin. apply list_elem_of_fmap in Hin as (a & -> & Ha).
      apply not_true_iff_false in Hex. apply Hex, existsb_exists.
      exists a. split; [by apply list_elem_of_In | by apply bool_decide_eq_true].
    + right. destruct (objects.get _ _); [|done]. destruct Hsite. by eexists.
Qed.

Lemma admin_assets db op db' :
  admin_site db op = Some db' →
  asset_table_ok (assets db) →
  asset_table_ok (assets db') ∧ tokens_kept (assets db) (assets db').
Proof.
  intros Hop Hok.
  destruct op; simpl in Hop; try (repeat case_match; simplify_eq; simpl;
    by auto using tokens_kept_refl, delete_assets_table).
  - (* DeleteSite *)
    case_match; simplify_eq. unfold delete_site. simpl.
    by apply delete_assets_table.
  - (* AddAsset *)
    pose proof (add_asset_table db form uuid4 created_at) as Hadd.
    change (admin_site db (AddAsset form uuid4 created_at)) with
      (if has_pk (sites db) (Asset.f_site form)
          && negb (existsb (λ a, bool_decide (Asset.qr_token a = uuid4))
                     (rows (assets db)))
       then Some (set_assets
                (objects.create
                   (Asset.mk 0 (Asset.f_site form) (Asset.f_name form)
                      (Asset.f_asset_type form) (Asset.f_serial form)
                      (Asset.f_vendor form) (Asset.f_status form) uuid4 created_at)
                   (assets db)) db)
       else None) in Hadd.
    rewrite Hop in Hadd. destruct Hadd as (Hfresh & a & Hrows & Htok & Hid & Hnext).
    destruct Hok as (Htoks & Hids & Hlt). split.
    + repeat split.
      * rewrite Hrows, fmap_app. apply NoDup_app. repeat split; [done| |].
        -- intros x Hx Hx'. apply list_elem_of_singleton in Hx'. simpl in Hx'.
           subst x. by rewrite Htok in Hx.
        -- apply NoDup_singleton.
      * rewrite Hrows, fmap_app. apply NoDup_app. repeat split; [done| |].
        -- intros x Hx Hx'. apply list_elem_of_singleton in Hx'. simpl in Hx'.
           subst x. apply list_elem_of_fmap in Hx as (y & Hy & Hin).
           pose proof (proj1 (Forall_forall _ _) Hlt y Hin). simpl in *. lia.
        -- apply NoDup_singleton.
      * rewrite Hrows, Hnext. apply Forall_app. split.
        -- eapply Forall_impl; [exact Hlt|]. simpl. intros; lia.
        -- repeat constructor. lia.
    + split; [lia|]. intros a' Ha' Hlt'. rewrite Hrows in Ha'.
      apply elem_of_app in Ha' as [Ha'|Ha'].
      * by exists a'.
      * apply list_elem_of_singleton in Ha'. subst a'. lia.
  - (* ChangeAsset *)
    case_match; simplify_eq. by apply change_asset_table.
  - (* DeleteAsset *)
    case_match; simplify_eq. by apply delete_assets_table.
Qed.
End Tokens.

Section TokenRuns.
Context {RT : Runtime}.

Lemma serve_assets db e :
  asset_table_ok (assets db) →
  asset_table_ok (assets (serve db e).1)
  ∧ tokens_kept (assets db) (assets (serve db e).1).
Proof.
  intros Hok.
  assert ((∃ op, e = Admin op) ∨ (∀ op, e ≠ Admin op)) as [[op ->]|Hview]
    by (destruct e; try (right; intros ?; discriminate); left; eauto).
  - simpl. destruct (admin_site db op) as [db'|] eqn:Hop; simpl.
    + by apply (admin_assets db op).
    + split; [done | apply tokens_kept_refl].
  - rewrite view_assets by done.
    split; [done | apply tokens_kept_refl].
Qed.

Lemma run_assets db events :
  asset_table_ok (assets db) →
  asset_table_ok (assets (run db events))
  ∧ tokens_kept (assets db) (assets (run db events)).
Proof.
  revert db. induction events as [|e events IH]; intros db Hok.
  - split; [done | apply tokens_kept_refl].
  - destruct (serve_assets db e Hok) as [Hok1 Hk1].
    destruct (IH _ Hok1) as [Hok2 Hk2].
    split; [exact Hok2|]. exact (tokens_kept_trans _ _ _ Hk1 Hk2).
Qed.

Lemma empty_db_assets_ok : asset_table_ok (assets empty_db).
Proof. repeat split; simpl; constructor. Qed.
End TokenRuns.

(** C8.  Start from a fresh installation and let any sequence of requests
    and admin operations run.  In the database reached, no two assets
    share a token.  Whatever runs afterwards, an asset that is still
    there (same primary key) has the token it had: no view and no admin
    operation writes it.  The token is fixed when the asset is added: the
    new row carries the value drawn for it ([uuid4], the random draw being
    an input of the operation), and the addition is refused when that
    value is already the token of an asset. *)
Theorem token_unique_and_immutable {RT : Runtime} (history future : list Event) :
  let db := run empty_db history in
  let db' := run db future in
  NoDup (Asset.qr_token <$> rows (assets db))
  ∧ (∀ a a', a ∈ rows (assets db) → a' ∈ rows (assets db') →
       Asset.id a' = Asset.id a → Asset.qr_token a' = Asset.qr_token a)
  ∧ (∀ form uuid4 created_at,
       match admin_site db (AddAsset form uuid4 created_at) with
       | Some db1 =>
           (uuid4 ∉ Asset.qr_token <$> rows (assets db))
           ∧ ∃ a, rows (assets db1) = (rows (assets db) ++ [a])%list
                  ∧ Asset.qr_token a = uuid4
       | None =>
           uuid4 ∈ Asset.qr_token <$> rows (assets db)
           ∨ objects.get (sites db) (Asset.f_site form) = None
       end).
Proof.
  cbv zeta.
  destruct (run_assets empty_db history empty_db_assets_ok) as [Hok _].
  destruct (run_assets (run empty_db history) future Hok) as [_ Hkept].
  split; [apply Hok|]. split.
  - intros a a' Ha Ha' Hid. by apply (tokens_kept_same_id _ _ a a' Hok Hkept).
  - intros form uuid4 created_at.
    pose proof (add_asset_table (run empty_db history) form uuid4 created_at) as Hadd.
    destruct (admin_site _ _); [|done].
    destruct Hadd as (Hfresh & a & Hrows & Htok & _). eauto.
Qed.

Lemma token_unique_and_immutable_witness :
  let form name := Asset.mk_form 1 name "pompa" "" "" "active" in
  let history :=
    [ Admin (AddSite (Site.mk 0 "Vivaio Nord" "" ""));
      Admin (AddAsset (form "Pompa A") 42 10);
      Admin (AddAsset (form "Pompa B") 43 11) ] in
  let future :=
    [ Admin (ChangeAsset 1 (Asset.mk_form 1 "Pompa A bis" "pompa" "S1" "" "disposed"));
      Admin (AddAsset (form "Pompa C") 42 12);
      Admin (DeleteAsset 2);
      TaskList (Demo.post [("action", "create_task"); ("title", "Giro"); ("site_id", "1")]) ] in
  rows (assets (run (RT := plain_runtime) empty_db history))
  = [ Asset.mk 1 1 "Pompa A" "pompa" "" "" "active" 42 10;
      Asset.mk 2 1 "Pompa B" "pompa" "" "" "active" 43 11 ]
  ∧ rows (assets (run (RT := plain_runtime)
                    (run (RT := plain_runtime) empty_db history) future))
    = [ Asset.mk 1 1 "Pompa A bis" "pompa" "S1" "" "disposed" 42 10 ]
  ∧ Asset.qr_token (Asset.mk 1 1 "Pompa A bis" "pompa" "S1" "" "disposed" 42 10)
    = Asset.qr_token (Asset.mk 1 1 "Pompa A" "pompa" "" "" "active" 42 10).
Proof.
  cbv zeta. split; [by vm_compute|]. split; [by vm_compute|].
  match goal with
  | |- Asset.qr_token ?a' = Asset.qr_token ?a =>
      refine (proj1 (proj2 (token_unique_and_immutable (RT := plain_runtime)
                [ Admin (AddSite (Site.mk 0 "Vivaio Nord" "" ""));
                  Admin (AddAsset (Asset.mk_form 1 "Pompa A" "pompa" "" "" "active") 42 10);
                  Admin (AddAsset (Asset.mk_form 1 "Pompa B" "pompa" "" "" "active") 43 11) ]
                [ Admin (ChangeAsset 1
                           (Asset.mk_form 1 "Pompa A bis" "pompa" "S1" "" "disposed"));
                  Admin (AddAsset (Asset.mk_form 1 "Pompa C" "pompa" "" "" "active") 42 12);
                  Admin (DeleteAsset 2);
                  TaskList (Demo.post [("action", "create_task"); ("title", "Giro");
                                       ("site_id", "1")]) ]))
                a a' _ _ eq_refl)
  end.
  - by_evaluation.
  - by_evaluation.
Defined.

(** ** Primary keys of the checklist table

    The theorems on answer capture assume distinct primary keys in the
    checklist table.  Every database the system reaches from a fresh
    installation has them. *)

Section TableOk.
Context {A : Type} `{Model A}.
Hypothesis pk_set_pk : ∀ k (x : A), pk (set_pk k x) = k.

Lemma table_ok_map (g : A → A) (t : Table A) :
  (∀ r, pk (g r) = pk r) → table_ok t → table_ok (mk_table (map g (rows t)) (next_pk t)).
Proof.
  intros Hg [Hnd Hlt]. unfold table_ok. cbn [rows next_pk].
  rewrite (fmap_map_same pk g) by done. split; [done|].
  apply Forall_forall. intros r' Hr'.
  apply list_elem_of_In, in_map_iff in Hr' as (r & <- & Hr). rewrite Hg.
  apply (proj1 (Forall_forall _ _) Hlt). by apply list_elem_of_In.
Qed.

Lemma table_ok_save x (t : Table A) : table_ok t → table_ok (objects.save x t).
Proof.
  intros Hok. unfold objects.save. apply table_ok_map; [|done].
  intros r. by case_bool_decide.
Qed.

Lemma table_ok_rewrite g (t : Table A) :
  (∀ r, pk (g r) = pk r) → table_ok t → table_ok (objects.rewrite g t).
Proof. intros Hg Hok. by apply table_ok_map. Qed.

Lemma table_ok_delete cond (t : Table A) : table_ok t → table_ok (objects.delete cond t).
Proof.
  intros [Hnd Hlt]. unfold objects.delete, table_ok. cbn [rows next_pk]. split.
  - by apply NoDup_fmap_filter.
  - apply Forall_forall. intros r Hr. apply elem_of_filter_bool in Hr as [Hr _].
    by apply (proj1 (Forall_forall _ _) Hlt).
Qed.

Lemma table_ok_create x (t : Table A) : table_ok t → table_ok (objects.create x t).
Proof.
  intros [Hnd Hlt]. unfold objects.create, table_ok. cbn [rows next_pk]. split.
  - rewrite fmap_app. apply NoDup_app. split_and!; [done | | apply NoDup_singleton].
    intros k Hk Hk'. apply list_elem_of_singleton in Hk'. simpl in Hk'.
    rewrite pk_set_pk in Hk'. subst k.
    apply list_elem_of_fmap in Hk as (r & Hr & Hin).
    pose proof (proj1 (Forall_forall _ _) Hlt r Hin). simpl in *. lia.
  - apply Forall_app. split.
    + eapply Forall_impl; [exact Hlt|]. simpl. intros; lia.
    + repeat constructor. rewrite pk_set_pk. lia.
Qed.

Lemma table_ok_bulk_create items (t : Table A) :
  table_ok t → table_ok (objects.bulk_create items t).
Proof.
  unfold objects.bulk_create. revert t.
  induction items as [|x items IH]; intros t Hok; simpl; [done|].
  by apply IH, table_ok_create.
Qed.

Lemma table_ok_save_all items (t : Table A) :
  table_ok t → table_ok (foldl (λ t x, objects.save x t) t items).
Proof.
  revert t. induction items as [|x items IH]; intros t Hok; simpl; [done|].
  by apply IH, table_ok_save.
Qed.
End TableOk.

Lemma null_asset_pk gone i : pk (null_asset gone i) = pk i.
Proof. unfold null_asset. by repeat case_match. Qed.

Lemma null_template_item_pk gone i : pk (null_template_item gone i) = pk i.
Proof. unfold null_template_item. by repeat case_match. Qed.

Section CheckListKeys.
Context {RT : Runtime}.
Implicit Types (db : DB) (request : Request).

Lemma create_checklist_keys db task template asset :
  table_ok (checklist_items db) →
  table_ok (checklist_items (_create_checklist_from_template db task template asset)).
Proof.
  intros Hok. unfold _create_checklist_from_template.
  destruct (map _ _) eqn:E; [done|]. rewrite <- E. simpl.
  by apply table_ok_bulk_create.
Qed.

Lemma task_detail_keys db request task_id :
  table_ok (checklist_items db) →
  table_ok (checklist_items (task_detail db request task_id).1).
Proof.
  intros Hok. unfold task_detail, login_required.
  destruct (user request); [|done].
  unfold task_detail_view.
  destruct (objects.get (tasks db) task_id) as [task|]; [|done].
  repeat case_bool_decide; cbn [negb]; try done.
  - by destruct (update_task_frame db request task) as (_ & _ & _ & _ & ->).
  - unfold task_detail_generate_checklist.
    repeat case_match; simpl; auto using create_checklist_keys.
  - unfold task_detail_add_checklist_item.
    repeat case_match; simpl; auto using table_ok_create.
  - rewrite save_answers_checklist_items. by apply table_ok_save_all.
Qed.

Lemma task_list_keys db request :
  table_ok (checklist_items db) → table_ok (checklist_items (task_list db request).1).
Proof.
  intros Hok. unfold task_list, login_required.
  destruct (user request); [|done].
  unfold task_list_view.
  repeat case_match; rewrite ?task_list_page_db; simpl; try done.
  all: unfold create_task_checklist.
  all: repeat case_match; simpl; auto using create_checklist_keys.
Qed.

Lemma admin_keys db op db' :
  admin_site db op = Some db' →
  table_ok (checklist_items db) → table_ok (checklist_items db').
Proof.
  intros Hop Hok.
  destruct op; simpl in Hop; repeat case_match; simplify_eq; simpl;
    auto using table_ok_create, table_ok_save, table_ok_delete, table_ok_rewrite,
               null_asset_pk, null_template_item_pk.
Qed.

Lemma serve_keys db e :
  table_ok (checklist_items db) → table_ok (checklist_items (serve db e).1).
Proof.
  intros Hok. destruct e; simpl; try done.
  - unfold dashboard, login_required. destruct (user request); [|done].
    unfold dashboard_view, dashboard_page. by repeat case_match.
  - unfold asset_list, login_required. by destruct (user request).
  - by apply task_list_keys.
  - unfold site_list, login_required. by destruct (user request).
  - unfold site_detail, login_required, site_detail_view.
    destruct (user request); [|done]. by case_match.
  - unfold asset_by_token, login_required, asset_by_token_view.
    destruct (user request); [|done]. by repeat case_match.
  - unfold asset_qr_png. by case_match.
  - unfold asset_label_pdf. by case_match.
  - by apply task_detail_keys.
  - unfold task_report_pdf, login_required, task_report_pdf_view.
    destruct (user request); [|done]. by repeat case_match.
  - destruct (admin_site db op) eqn:Hop; simpl; [|done].
    by apply (admin_keys db op).
Qed.

(** Distinct primary keys in the checklist table, in every database the
    system reaches. *)
Lemma reachable_checklist_keys (history : list Event) :
  NoDup (pk <$> rows (checklist_items (run empty_db history))).
Proof.
  assert (table_ok (checklist_items empty_db)) as Hok
    by (split; simpl; constructor).
  revert Hok. generalize empty_db. unfold run.
  induction history as [|e history IH]; intros db Hok; simpl.
  - apply Hok.
  - by apply IH, serve_keys.
Qed.
End CheckListKeys.

(** * Further properties of the views *)

(** ** Who writes *)

Section Writers.
Context {RT : Runtime}.
Implicit Types (db : DB) (request : Request).

Lemma dashboard_page_db db : (dashboard_page db).1 = db.
Proof. done. Qed.

(** X2.  Only a logged-in POST writes: a view request that carries no
    authenticated user, or whose method is not POST, leaves the whole
    database as it is, whichever entry point it reaches. *)
Theorem only_logged_in_posts_write db e request :
  event_request e = Some request →
  user request = None ∨ method request ≠ "POST" →
  (serve db e).1 = db.
Proof.
  intros He Hro.
  assert (∀ view : DB → Request → DB * Response,
            (method request ≠ "POST" → (view db request).1 = db) →
            (login_required view db request).1 = db) as Hgate.
  { intros view Hview. unfold login_required.
    destruct (user request) eqn:Hu; [|done].
    apply Hview. by destruct Hro. }
  destruct e; simpl in He; simplify_eq; simpl.
  - apply Hgate. intros Hm. unfold dashboard_view.
    by rewrite (bool_decide_eq_false_2 _ Hm).
  - done.
  - unfold asset_list, login_required. by destruct (user request).
  - apply Hgate. intros Hm. unfold task_list_view.
    rewrite (bool_decide_eq_false_2 _ Hm). apply task_list_page_db.
  - unfold site_list, login_required. by destruct (user request).
  - unfold site_detail, login_required, site_detail_view.
    destruct (user request); [|done]. by case_match.
  - unfold asset_by_token, login_required, asset_by_token_view.
    destruct (user request); [|done]. by repeat case_match.
  - unfold asset_qr_png. by case_match.
  - unfold asset_label_pdf. by case_match.
  - apply Hgate. intros Hm. unfold task_detail_view.
    case_match; [|done]. by rewrite (bool_decide_eq_false_2 _ Hm).
  - unfold task_report_pdf, login_required, task_report_pdf_view.
    destruct (user request); [|done]. by repeat case_match.
Qed.

Lemma task_detail_no_redirect db request task_id :
  (∀ view k, (task_detail db request task_id).2 ≠ Redirect view k) →
  (task_detail db request task_id).1 = db
  ∨ ∃ task e,
      objects.get (tasks db) task_id = Some task
      ∧ posts request "save_answers"
      ∧ answers_refused request (items_of db task_id) = Some e
      ∧ task_detail db request task_id
        = (foldl (λ db item,
                    set_checklist_items (objects.save item (checklist_items db)) db)
                 db (answers_saved request (items_of db task_id)),
           Raised e).
Proof.
  unfold task_detail, login_required. destruct (user request) as [u|] eqn:Hu; [|by left].
  unfold task_detail_view.
  destruct (objects.get (tasks db) task_id) as [task|] eqn:Hget; [|by left].
  pose proof (get_Some_pk _ _ _ Hget) as Hpk. simpl in Hpk. subst task_id.
  intros Hresp. repeat case_bool_decide; cbn [negb] in *; try by left.
  - by destruct (Hresp "task_detail" (MaintenanceTask.id task)).
  - left. revert Hresp. unfold task_detail_generate_checklist.
    repeat case_match; simpl; intros Hresp; try done.
    all: by destruct (Hresp "task_detail" (MaintenanceTask.id task)).
  - left. revert Hresp. unfold task_detail_add_checklist_item.
    repeat case_match; simpl; intros Hresp; try done.
    all: by destruct (Hresp "task_detail" (MaintenanceTask.id task)).
  - right. revert Hresp. rewrite save_answers_outcome.
    destruct (answers_refused _ _) as [e|] eqn:Href; cbn [snd]; intros Hresp.
    + exists task, e. split_and!; try done.
      repeat split; [by rewrite Hu | done |].
      match goal with H : QueryDict_get _ "action" "" = _ |- _ =>
        unfold QueryDict_get in H; destruct (POST request !! "action"); simpl in H;
        by subst end.
    + by destruct (Hresp "task_detail" (MaintenanceTask.id task)).
Qed.

End Writers.

Lemma only_logged_in_posts_write_witness :
  let anonymous :=
    mk_request "POST" ∅
      (list_to_map [("action", "update_task"); ("status", "done")]) ∅ None 900 901 id in
  let reader := Demo.get [("action", "update_task"); ("status", "done")] in
  (serve (RT := plain_runtime) Demo.db (TaskDetail anonymous 1)).1 = Demo.db
  ∧ (serve (RT := plain_runtime) Demo.db (TaskDetail reader 1)).1 = Demo.db.
Proof.
  cbv zeta. split.
  all: match goal with |- (serve _ (TaskDetail ?request ?k)).1 = _ =>
         refine (only_logged_in_posts_write (RT := plain_runtime) Demo.db
                   (TaskDetail request k) request eq_refl _) end.
  - by left.
  - right. by vm_compute.
Defined.


(** ** The start shortcut of the dashboard *)

Section Start.
Context {RT : Runtime}.
Implicit Types (db : DB) (request : Request) (task : MaintenanceTask.t).

Lemma update_update_idem {A} `{Model A} (t : Table A) k (f : A → A) :
  (∀ r, f (f r) = f r) → (∀ r, pk (f r) = pk r) →
  objects.update k f (objects.update k f t) = objects.update k f t.
Proof.
  intros Hff Hpk. unfold objects.update. cbn [rows next_pk]. f_equal.
  rewrite map_map. apply map_ext. intros r.
  destruct (bool_decide (pk r = k)) eqn:Hk.
  - by rewrite Hpk, Hk, Hff.
  - by rewrite Hk.
Qed.

Lemma dashboard_start_eq db request k task :
  posts request "start_task" →
  strip (QueryDict_get (POST request) "task_id" "") ≠ "" →
  to_pk (strip (QueryDict_get (POST request) "task_id" "")) = Some k →
  objects.get (tasks db) k = Some task →
  dashboard db request
  = (if bool_decide (MaintenanceTask.status task ∈ ["scheduled"; "in_progress"])
     then set_tasks (objects.update k (MaintenanceTask.set_status "in_progress")
                       (tasks db)) db
     else db,
     Redirect "task_detail" k).
Proof.
  intros ([u Hu] & Hm & Ha) Hne Hk Hget.
  pose proof (get_Some_pk _ _ _ Hget) as Hpk. simpl in Hpk.
  unfold dashboard, login_required, dashboard_view. rewrite Hu, Hm, Ha. simpl.
  unfold truthy. rewrite (bool_decide_eq_false_2 _ Hne). simpl.
  rewrite Hk, Hget, Hpk. done.
Qed.

(** X1.  The start shortcut: a logged-in [start_task] POST on the dashboard
    moves a task that is [scheduled] or [in_progress] to [in_progress] and
    leaves a task in any other status as it is; nothing but the status of
    that task changes (its completion time in particular), the caller is
    sent to the task page, and sending the request again changes nothing
    more. *)
Theorem start_task_shortcut db request k task :
  posts request "start_task" →
  strip (QueryDict_get (POST request) "task_id" "") ≠ "" →
  to_pk (strip (QueryDict_get (POST request) "task_id" "")) = Some k →
  objects.get (tasks db) k = Some task →
  let db' := (dashboard db request).1 in
  (dashboard db request).2 = Redirect "task_detail" k
  ∧ objects.get (tasks db') k = Some (started task)
  ∧ (∀ k', k' ≠ k → objects.get (tasks db') k' = objects.get (tasks db) k')
  ∧ only_tasks db db'
  ∧ (dashboard db' request).1 = db'.
Proof.
  intros Hp Hne Hk Hget. cbv zeta.
  rewrite (dashboard_start_eq db request k task Hp Hne Hk Hget). cbn [fst snd].
  unfold started.
  destruct (bool_decide (MaintenanceTask.status task ∈ ["scheduled"; "in_progress"]))
    eqn:Hst.
  - assert (objects.get (tasks (set_tasks (objects.update k
               (MaintenanceTask.set_status "in_progress") (tasks db)) db)) k
            = Some (MaintenanceTask.set_status "in_progress" task)) as Hrow.
    { cbn [tasks set_tasks]. by rewrite get_update_eq, Hget. }
    split_and!; [done | exact Hrow | | by repeat split |].
    + intros k' Hk'. cbn [tasks set_tasks]. by apply get_update_ne.
    + rewrite (dashboard_start_eq _ request k _ Hp Hne Hk Hrow). cbn [fst].
      rewrite bool_decide_eq_true_2 by (simpl; set_solver).
      cbn [tasks set_tasks]. rewrite update_update_idem by done. done.
  - split_and!; [done | done | done | by repeat split |].
    rewrite (dashboard_start_eq _ request k _ Hp Hne Hk Hget). by rewrite Hst.
Qed.
End Start.

Lemma start_task_shortcut_witness :
  let request := Demo.post [("action", "start_task"); ("task_id", " 1 ")] in
  let db' := (dashboard (RT := plain_runtime) Demo.db request).1 in
  (dashboard (RT := plain_runtime) Demo.db request).2 = Redirect "task_detail" 1
  ∧ objects.get (tasks db') 1 = Some (MaintenanceTask.set_status "in_progress" Demo.monthly)
  ∧ (dashboard (RT := plain_runtime) db' request).1 = db'.
Proof.
  cbv zeta.
  match goal with |- context [dashboard Demo.db ?request] =>
    pose proof (start_task_shortcut (RT := plain_runtime) Demo.db request 1 Demo.monthly)
      as Hstart end.
  cbv zeta in Hstart.
  destruct Hstart as (Hresp & Hrow & _ & _ & Hidem).
  - vm_compute. repeat split; eauto.
  - by vm_compute.
  - by vm_compute.
  - by vm_compute.
  - split_and!; [exact Hresp | exact Hrow | exact Hidem].
Defined.

(** ** Creating a task *)

Section CreateTask.
Context {RT : Runtime}.
Implicit Types (db : DB) (request : Request) (task : MaintenanceTask.t).

Lemma create_task_checklist_frame db request site task :
  only_checklist_items db (create_task_checklist db request site task).1.
Proof.
  unfold create_task_checklist.
  repeat case_match; simpl; auto using create_checklist_frame with frame.
Qed.

(** The creation branch, once the site and the date are resolved. *)
Lemma task_list_create_eq db request k site scheduled_for :
  posts request "create_task" →
  strip (QueryDict_get (POST request) "title" "") ≠ "" →
  strip (QueryDict_get (POST request) "site_id" "") ≠ "" →
  to_pk (strip (QueryDict_get (POST request) "site_id" "")) = Some k →
  objects.get (sites db) k = Some site →
  _parse_datetime_local (now request)
    (strip (QueryDict_get (POST request) "scheduled_for" "")) = Some scheduled_for →
  let status := strip (QueryDict_get (POST request) "status" "scheduled") in
  let task :=
    MaintenanceTask.mk (next_pk (tasks db)) (Site.id site)
      (strip (QueryDict_get (POST request) "title" "")) scheduled_for
      (if bool_decide (status ∈ valid_status) then status else "scheduled")
      (strip (QueryDict_get (POST request) "notes" "")) None None (user request) in
  task_list db request
  = create_task_checklist (set_tasks (objects.create task (tasks db)) db)
      request site task.
Proof.
  intros ([u Hu] & Hm & Ha) Ht Hs Hk Hsite Hdate. cbv zeta.
  unfold task_list, login_required, task_list_view. rewrite Hu, Hm, Ha. simpl.
  unfold truthy.
  rewrite (bool_decide_eq_false_2 _ Ht), (bool_decide_eq_false_2 _ Hs). simpl.
  by rewrite Hk, Hsite, Hdate.
Qed.


End CreateTask.



(** ** Invariants of the task table under the views *)

Section UpdateRows.
Context {A : Type} `{Model A}.

Lemma Forall_update (P : A → Prop) (t : Table A) k f :
  Forall P (rows t) → (∀ r, P r → P (f r)) → Forall P (rows (objects.update k f t)).
Proof.
  intros Hall Hf. unfold objects.update. cbn [rows].
  apply Forall_forall. intros r' Hr'.
  apply list_elem_of_In, in_map_iff in Hr' as (r & <- & Hr).
  apply list_elem_of_In in Hr. pose proof (proj1 (Forall_forall _ _) Hall r Hr).
  case_bool_decide; auto.
Qed.

(** With distinct keys the update reaches the one row read before. *)
Lemma Forall_update_NoDup (P : A → Prop) (t : Table A) k f x :
  NoDup (pk <$> rows t) → objects.get t k = Some x →
  Forall P (rows t) → P (f x) → Forall P (rows (objects.update k f t)).
Proof.
  intros Hnd Hget Hall Hfx. unfold objects.update. cbn [rows].
  apply Forall_forall. intros r' Hr'.
  apply list_elem_of_In, in_map_iff in Hr' as (r & <- & Hr).
  apply list_elem_of_In in Hr. case_bool_decide as Hk.
  - assert (r = x) as ->; [|done].
    apply (NoDup_fmap_inj pk (rows t)); [done | done | by eapply get_Some_In |].
    by rewrite (get_Some_pk _ _ _ Hget).
  - by apply (proj1 (Forall_forall _ _) Hall).
Qed.
End UpdateRows.

Section TaskInvariants.
Context {RT : Runtime}.
Implicit Types (db : DB) (request : Request) (task : MaintenanceTask.t).

Lemma serve_read_only db e : is_read_only_view e = true → (serve db e).1 = db.
Proof.
  destruct e; try discriminate; intros _; simpl.
  - done.
  - unfold asset_list, login_required. by destruct (user request).
  - unfold site_list, login_required. by destruct (user request).
  - unfold site_detail, login_required, site_detail_view.
    destruct (user request); [|done]. by case_match.
  - unfold asset_by_token, login_required, asset_by_token_view.
    destruct (user request); [|done]. by repeat case_match.
  - unfold asset_qr_png. by case_match.
  - unfold asset_label_pdf. by case_match.
  - unfold task_report_pdf, login_required, task_report_pdf_view.
    destruct (user request); [|done]. by repeat case_match.
Qed.

Lemma in_valid_status s : s ∈ valid_status ↔ s ∈ ["scheduled"; "in_progress"; "done"; "cancelled"].
Proof. done. Qed.

Lemma dashboard_statuses db request :
  statuses_valid db → statuses_valid (dashboard db request).1.
Proof.
  intros Hok. unfold dashboard, login_required. destruct (user request); [|done].
  unfold dashboard_view, dashboard_page. repeat case_match; simpl; try done.
  apply Forall_update; [done|]. intros r _. simpl. apply in_valid_status. set_solver.
Qed.

Lemma task_detail_statuses db request task_id :
  statuses_valid db → statuses_valid (task_detail db request task_id).1.
Proof.
  intros Hok. unfold task_detail, login_required. destruct (user request); [|done].
  unfold task_detail_view.
  destruct (objects.get (tasks db) task_id) as [task|]; [|done].
  repeat case_bool_decide; cbn [negb]; try done.
  - unfold task_detail_update_task, statuses_valid. cbn [fst].
    case_bool_decide as Hv; [|done]. cbn [tasks set_tasks].
    apply Forall_update; [done|]. intros r _. by case_match.
  - unfold statuses_valid.
    by destruct (generate_checklist_frame db request task) as (_ & _ & -> & _).
  - unfold statuses_valid.
    by destruct (add_checklist_item_frame db request task) as (_ & _ & -> & _).
  - unfold statuses_valid.
    destruct (save_answers_tasks db request task)
      as [->|(_ & _ & db1 & Ht & ->)]; [done|].
    unfold close_task. cbn [tasks set_tasks]. rewrite Ht.
    apply Forall_update; [done|]. intros r _.
    case_match; simpl; apply in_valid_status; set_solver.
Qed.

Lemma task_list_statuses db request :
  statuses_valid db → statuses_valid (task_list db request).1.
Proof.
  intros Hok. unfold task_list, login_required. destruct (user request); [|done].
  unfold task_list_view.
  repeat case_match; rewrite ?task_list_page_db; simpl; try done.
  all: match goal with |- context [create_task_checklist ?d ?r ?s ?t] =>
         destruct (create_task_checklist_frame d r s t) as (_ & _ & Ht & _) end.
  all: unfold statuses_valid; rewrite Ht; cbn [tasks set_tasks objects.create rows].
  all: apply Forall_app; split; [done|]; apply Forall_singleton.
  all: try (apply in_valid_status; simpl; set_solver).
  all: match goal with H : bool_decide (_ ∈ valid_status) = true |- _ =>
         apply bool_decide_eq_true in H; exact H end.
Qed.

(** X6.  Every view keeps the task statuses inside the four codes: if all
    tasks carry one of [scheduled], [in_progress], [done], [cancelled],
    they still do after any request to any entry point, whatever the
    request submits. *)
Theorem views_keep_statuses_valid db e :
  (∀ op, e ≠ Admin op) → statuses_valid db → statuses_valid (serve db e).1.
Proof.
  intros Hview Hok.
  destruct (is_read_only_view e) eqn:Hro; [by rewrite serve_read_only|].
  destruct e; try discriminate Hro; simpl.
  - by apply dashboard_statuses.
  - by apply task_list_statuses.
  - by apply task_detail_statuses.
  - by destruct (Hview op).
Qed.

Lemma stamped_is_Some now task :
  (MaintenanceTask.status task = "done" → is_Some (MaintenanceTask.completed_at task)) →
  is_Some (stamped now task).
Proof.
  intros Hinv. unfold stamped. case_decide as Hd; [by eexists|].
  apply Hinv. destruct (decide (MaintenanceTask.status task = "done")); [done|].
  destruct Hd. by left.
Qed.

(** X7.  A task that [task_detail] or the dashboard leaves in [done] has a
    completion time: if every done task has one (and primary keys are
    distinct), this is still so after any request to these two views.
    Creation is the exception: the creation form stores the status it is
    given and never a completion time. *)
Theorem done_tasks_keep_a_completion_time db request :
  NoDup (pk <$> rows (tasks db)) →
  done_has_time db →
  (∀ task_id, done_has_time (task_detail db request task_id).1)
  ∧ done_has_time (dashboard db request).1.
Proof.
  intros Hnd Hok. split.
  - intros task_id. unfold task_detail, login_required.
    destruct (user request); [|done]. unfold task_detail_view.
    destruct (objects.get (tasks db) task_id) as [task|] eqn:Hget; [|done].
    pose proof (get_Some_pk _ _ _ Hget) as Hpk. simpl in Hpk. subst task_id.
    pose proof (proj1 (Forall_forall _ _) Hok task (get_Some_In _ _ _ Hget)) as Htask.
    repeat case_bool_decide; cbn [negb]; try done.
    + unfold task_detail_update_task, done_has_time. cbn [fst].
      case_bool_decide as Hv; [|done]. cbn [tasks set_tasks].
      apply (Forall_update_NoDup _ _ _ _ task); [done..|].
      destruct (bool_decide (strip (QueryDict_get (POST request) "status" "") = "done"))
        eqn:Hd; cbn [andb].
      * destruct (decide (MaintenanceTask.status task = "done")) as [Hs|Hs].
        -- rewrite (bool_decide_eq_true_2 _ Hs). cbn [negb orb].
           destruct (Htask Hs) as [t Ht]. rewrite Ht.
           rewrite bool_decide_eq_false_2 by done. simpl. intros _. by apply Htask.
        -- rewrite (bool_decide_eq_false_2 _ Hs). simpl. by eexists.
      * apply bool_decide_eq_false in Hd. simpl. intros Hs. by destruct Hd.
    + unfold done_has_time.
      by destruct (generate_checklist_frame db request task) as (_ & _ & -> & _).
    + unfold done_has_time.
      by destruct (add_checklist_item_frame db request task) as (_ & _ & -> & _).
    + unfold done_has_time.
      destruct (save_answers_tasks db request task)
        as [->|(_ & _ & db1 & Ht & ->)]; [done|].
      unfold close_task. cbn [tasks set_tasks]. rewrite Ht.
      destruct (negb (bool_decide (MaintenanceTask.status task = "done"))
                || bool_decide (MaintenanceTask.completed_at task = None)) eqn:Hch.
      * apply (Forall_update_NoDup _ _ _ _ task); [done..|].
        simpl. intros _. by eexists.
      * apply (Forall_update_NoDup _ _ _ _ task); [done..|].
        simpl. intros _. apply Htask.
        apply orb_false_iff in Hch as [Hs _].
        by apply negb_false_iff, bool_decide_eq_true in Hs.
  - unfold dashboard, login_required. destruct (user request); [|done].
    unfold dashboard_view, dashboard_page. repeat case_match; simpl; try done.
    apply Forall_update; [done|]. intros r _. simpl. discriminate.
Qed.
End TaskInvariants.

Lemma views_keep_statuses_valid_witness :
  let request := Demo.post [("action", "update_task"); ("status", "archived")] in
  statuses_valid Demo.db
  ∧ statuses_valid (serve (RT := plain_runtime) Demo.db (TaskDetail request 1)).1.
Proof.
  cbv zeta.
  assert (statuses_valid Demo.db) as Hok by (unfold statuses_valid; by_evaluation).
  split; [exact Hok|].
  apply (views_keep_statuses_valid (RT := plain_runtime)); [|exact Hok].
  intros op. discriminate.
Defined.

Lemma done_tasks_keep_a_completion_time_witness :
  let request := Demo.post [("action", "update_task"); ("status", "done")] in
  done_has_time Demo.db
  ∧ done_has_time (task_detail (RT := plain_runtime) Demo.db request 3).1.
Proof.
  cbv zeta.
  assert (done_has_time Demo.db) as Hok by (unfold done_has_time; by_evaluation).
  split; [exact Hok|].
  match goal with |- context [task_detail _ ?request 3] =>
    refine (proj1 (done_tasks_keep_a_completion_time (RT := plain_runtime)
                     Demo.db request _ Hok) 3) end.
  by_evaluation.
Defined.

(** A task created as [done] has no completion time: creation does not keep
    what [task_detail] keeps. *)
Example created_done_without_time :
  let request :=
    Demo.post [("action", "create_task"); ("title", "Chiusura"); ("site_id", "2");
               ("status", "done")] in
  done_has_time Demo.db
  ∧ ¬ done_has_time (task_list (RT := plain_runtime) Demo.db request).1.
Proof.
  cbv zeta. split; [unfold done_has_time; by_evaluation|].
  intros Hall. unfold done_has_time in Hall.
  apply (bool_decide_pack _) in Hall. vm_compute in Hall. exact Hall.
Qed.

(** ** Reports *)

Section Reports.
Context {RT : Runtime}.
Implicit Types (db : DB) (request : Request) (task : MaintenanceTask.t).

Lemma reports_update db k f :
  (∀ r, MaintenanceTask.id (f r) = MaintenanceTask.id r
        ∧ MaintenanceTask.report_pdf (f r) = MaintenanceTask.report_pdf r) →
  reports (set_tasks (objects.update k f (tasks db)) db) = reports db.
Proof.
  intros Hf. unfold reports, objects.update. cbn [tasks set_tasks rows].
  apply (fmap_map_same (λ t, (MaintenanceTask.id t, MaintenanceTask.report_pdf t))).
  intros r. case_bool_decide; [|done]. by destruct (Hf r) as [-> ->].
Qed.

Lemma reports_same_tasks db db' : tasks db' = tasks db → reports db' = reports db.
Proof. unfold reports. by intros ->. Qed.

(** X8.  Closing is the only way a report appears or changes: after any
    view request that is not a closing submission of answers, every task
    has the report it had, and a task the request created has none. *)
Theorem reports_change_only_on_closing db e :
  (∀ op, e ≠ Admin op) → ¬ is_closing e →
  reports (serve db e).1 = reports db
  ∨ ∃ k, reports (serve db e).1 = (reports db ++ [(k, None)])%list.
Proof.
  intros Hview Hnc.
  destruct (is_read_only_view e) eqn:Hro; [left; by rewrite serve_read_only|].
  destruct e; try discriminate Hro; simpl.
  - (* dashboard *)
    left. unfold dashboard, login_required. destruct (user request); [|done].
    unfold dashboard_view, dashboard_page. repeat case_match; simpl; try done.
    by apply reports_update.
  - (* task_list *)
    unfold task_list, login_required. destruct (user request); [|by left].
    unfold task_list_view.
    repeat case_match; rewrite ?task_list_page_db; simpl; try (by left).
    all: right; eexists.
    all: match goal with |- context [create_task_checklist ?d ?r ?s ?t] =>
           destruct (create_task_checklist_frame d r s t) as (_ & _ & Ht & _) end.
    all: unfold reports; rewrite Ht; cbn [tasks set_tasks objects.create rows].
    all: rewrite fmap_app; reflexivity.
  - (* task_detail *)
    left. simpl in Hnc. unfold task_detail, login_required.
    destruct (user request) as [u|] eqn:Hu; [|done]. unfold task_detail_view.
    destruct (objects.get (tasks db) task_id) as [task|]; [|done].
    destruct (bool_decide (method request = "POST")) eqn:Hm; cbn [negb]; [|done].
    apply bool_decide_eq_true in Hm.
    repeat case_bool_decide; try done.
    + unfold task_detail_update_task. cbn [fst]. case_bool_decide; [|done].
      apply reports_update. intros r. by case_match.
    + apply reports_same_tasks, generate_checklist_frame.
    + apply reports_same_tasks, add_checklist_item_frame.
    + apply reports_same_tasks.
      destruct (save_answers_tasks db request task)
        as [->|(_ & Hclose & _)]; [done|].
      destruct Hnc. split; [|done].
      repeat split; [by rewrite Hu | done |].
      unfold QueryDict_get in *.
      destruct (POST request !! "action"); simpl in *; congruence.
  - by destruct (Hview op).
Qed.
End Reports.

Lemma reports_change_only_on_closing_witness :
  let request := Demo.post [("action", "save_answers"); ("close_task", "yes")] in
  reports (serve (RT := plain_runtime) Demo.db (TaskDetail request 1)).1
  = [(1, None); (2, None); (3, None)].
Proof.
  cbv zeta.
  match goal with |- context [TaskDetail ?request 1] =>
    destruct (reports_change_only_on_closing (RT := plain_runtime) Demo.db
                (TaskDetail request 1)) as [Hsame|[k Hnew]] end.
  - intros op. discriminate.
  - simpl. intros [_ Hclose]. by vm_compute in Hclose.
  - rewrite Hsame. by vm_compute.
  - exfalso. apply (f_equal length) in Hnew. by vm_compute in Hnew.
Defined.

(** ** Items added to a task *)

Section NewItems.
Context {RT : Runtime}.
Implicit Types (db : DB) (request : Request) (task : MaintenanceTask.t).

Lemma asset_of_site_spec db asset_id site a :
  asset_of_site db asset_id site = Some (Some a) →
  a ∈ rows (assets db) ∧ Asset.site a = site.
Proof.
  unfold asset_of_site. case_match; [|done].
  destruct (to_pk asset_id) as [k|]; simpl; [|done].
  intros [= Hfind]. apply find_some in Hfind as [Hin Hc].
  apply andb_true_iff in Hc as [_ Hs]. apply bool_decide_eq_true in Hs.
  split; [by apply list_elem_of_In | done].
Qed.

Lemma tagged_within_of_site db asset_id site asset i :
  asset_of_site db asset_id site = Some asset →
  TaskChecklistItem.asset i = (Asset.id <$> asset) →
  tagged_within db site i.
Proof.
  intros Ha Hi. destruct asset as [a|]; [|by left].
  right. exists a. by destruct (asset_of_site_spec _ _ _ _ Ha).
Qed.

(** X9.  The asset attached to new checklist items is an asset of the
    task's site or none at all: whatever [asset_id] the request names,
    every item that generating a checklist or adding an item appends to
    the task is linked to an asset of that site, or to no asset. *)
Theorem new_items_are_tagged_within_the_site db request task_id task :
  objects.get (tasks db) task_id = Some task →
  posts request "generate_checklist" ∨ posts request "add_checklist_item" →
  ∃ created,
    rows (checklist_items (task_detail db request task_id).1)
    = (rows (checklist_items db) ++ created)%list
    ∧ Forall (λ i, TaskChecklistItem.task i = task_id
                   ∧ tagged_within db (MaintenanceTask.site task) i) created.
Proof.
  intros Hget Hp.
  pose proof (get_Some_pk _ _ _ Hget) as Hpk. simpl in Hpk.
  assert (∃ created, rows (checklist_items db) = (rows (checklist_items db) ++ created)%list
            ∧ Forall (λ i, TaskChecklistItem.task i = task_id
                           ∧ tagged_within db (MaintenanceTask.site task) i) created)
    as Hnone by (exists []; by rewrite app_nil_r).
  destruct Hp as [Hp|Hp].
  - rewrite (task_detail_generate_checklist_eq _ _ _ _ Hget Hp).
    unfold task_detail_generate_checklist.
    repeat case_match; simpl; try done.
    eexists. split; [apply create_checklist_rows|].
    apply Forall_forall. intros i Hi.
    apply elem_of_lookup_imap in Hi as (j & ti & -> & _).
    split; [done|]. by eapply tagged_within_of_site.
  - rewrite (task_detail_add_checklist_item_eq _ _ _ _ Hget Hp).
    unfold task_detail_add_checklist_item.
    repeat case_match; simpl; try done.
    all: eexists; split; [reflexivity|]; apply Forall_singleton.
    all: split; [done|]; by eapply tagged_within_of_site.
Qed.


(** X11.  An item without an answer is rendered as a dash in the report,
    whatever its type, one of the four known ones or not. *)
Theorem unanswered_item_renders_dash (i : TaskChecklistItem.t) :
  unanswered i → _format_task_item_answer i = "-".
Proof.
  intros (Ht & Hn & Hb & Ha). unfold _format_task_item_answer.
  rewrite Ht, Hn, Hb, Ha. by repeat case_bool_decide.
Qed.
End NewItems.

Lemma new_items_are_tagged_within_the_site_witness :
  (* asset 1 belongs to site 1, task 3 to site 2: the link is dropped *)
  let request := Demo.post [("action", "add_checklist_item"); ("label", "Valvola");
                           ("asset_id", "1")] in
  ∃ created,
    rows (checklist_items (task_detail (RT := plain_runtime) Demo.db request 3).1)
    = (rows (checklist_items Demo.db) ++ created)%list
    ∧ Forall (λ i, TaskChecklistItem.task i = 3 ∧ tagged_within Demo.db 2 i) created.
Proof.
  cbv zeta.
  match goal with |- context [task_detail _ ?request 3] =>
    refine (new_items_are_tagged_within_the_site (RT := plain_runtime) Demo.db request 3
              Demo.inspection eq_refl _) end.
  right. vm_compute. repeat split; eauto.
Defined.


Lemma unanswered_item_renders_dash_witness :
  _format_task_item_answer (RT := plain_runtime)
    (TaskChecklistItem.set_id 9 (snapshot Demo.inspection None Demo.pressure)) = "-".
Proof.
  apply (unanswered_item_renders_dash (RT := plain_runtime)). by repeat split.
Defined.

(** ** The contents of a report *)

Section ReportContents.
Context {RT : Runtime}.
Implicit Types (db : DB) (request : Request) (task : MaintenanceTask.t).

Lemma concat_imap_lookup {A B} (f : nat → A → list B) (l : list A) i x :
  l !! i = Some x → ∃ before after, concat (imap f l) = (before ++ f i x ++ after)%list.
Proof.
  revert f i. induction l as [|y l IH]; intros f i Hi; [done|].
  destruct i as [|i]; simpl in Hi.
  - injection Hi as ->. exists [], (concat (imap (f ∘ S) l)). done.
  - destruct (IH (f ∘ S) i Hi) as (before & after & Hc).
    exists (f 0%nat y ++ before)%list, after. simpl. rewrite Hc.
    by rewrite <- app_assoc.
Qed.

Lemma count_gaps_none (l : list Draw) :
  Forall (λ d, d ≠ Gap) l → length (List.filter (λ d, bool_decide (d = Gap)) l) = 0%nat.
Proof.
  induction 1 as [|d l Hd _ IH]; [done|].
  simpl. by rewrite (bool_decide_eq_false_2 _ Hd).
Qed.

Lemma count_gaps_items db (items : list TaskChecklistItem.t) (f : nat → nat) :
  length (List.filter (λ d, bool_decide (d = Gap))
                      (concat (imap (λ i item, draw_item db (f i) item) items)))
  = length items.
Proof.
  revert f. induction items as [|item items IH]; intros f; [done|].
  cbn [imap concat]. rewrite List.filter_app, length_app.
  assert (length (List.filter (λ d, bool_decide (d = Gap)) (draw_item db (f 0%nat) item))
          = 1%nat) as ->.
  { unfold draw_item. by destruct (TaskChecklistItem.asset item). }
  simpl. f_equal. exact (IH (f ∘ S)).
Qed.

(** The block of the item at position [i]. *)
Lemma report_block db report_now task items i item :
  items !! i = Some item →
  ∃ before after,
    _build_task_report_pdf db report_now task items
    = (before ++ draw_item db (S i) item ++ after)%list.
Proof.
  intros Hi. unfold _build_task_report_pdf.
  destruct (concat_imap_lookup (λ i item, draw_item db (S i) item) items i item Hi)
    as (before & after & ->).
  match goal with
  | |- ∃ _ _, (?H ++ ?N ++ ?S ++ _ ++ ?M)%list = _ =>
      exists (H ++ N ++ S ++ before)%list, (after ++ M)%list
  end.
  by rewrite <- !app_assoc.
Qed.

Lemma report_gaps db report_now task items :
  length (List.filter (λ d, bool_decide (d = Gap))
                      (_build_task_report_pdf db report_now task items))
  = length items.
Proof.
  unfold _build_task_report_pdf.
  rewrite !List.filter_app, !length_app, (count_gaps_items db items S).
  rewrite !count_gaps_none; [lia|..].
  - by destruct items; repeat constructor.
  - by repeat constructor.
  - case_match; [|constructor]. constructor; [done|].
    apply Forall_forall. intros d Hd.
    apply list_elem_of_In, in_map_iff in Hd as (line & <- & _). by case_match.
  - by repeat constructor.
Qed.

(** X12.  The report has one entry per checklist item and drops none: the
    item at position [i] of the list contributes, as one block, its label
    numbered [i + 1], its answer and, when it has one, its asset; and the
    report holds as many entry separators as there are items. *)
Theorem report_has_one_entry_per_item db report_now task items i item :
  items !! i = Some item →
  (∃ before after,
     _build_task_report_pdf db report_now task items
     = (before ++ draw_item db (S i) item ++ after)%list)
  ∧ length (List.filter (λ d, bool_decide (d = Gap))
                        (_build_task_report_pdf db report_now task items))
    = length items.
Proof. intros Hi. split; [by apply report_block | apply report_gaps]. Qed.

Lemma get_status_display_completed v task :
  get_status_display (MaintenanceTask.set_completed_at v task) = get_status_display task.
Proof. done. Qed.

(** The row and the report a closing submission leaves when the store
    takes its answers. *)
Lemma closing_row db request task_id task :
  objects.get (tasks db) task_id = Some task →
  posts request "save_answers" →
  POST request !! "close_task" = Some "1" →
  answers_accepted db request task_id →
  ∃ db1 items report,
    only_checklist_items db db1
    ∧ items = map (capture_answer request) (items_of db task_id)
    ∧ report = mk_report
                 (storage_save request
                    ("reports/task-" +:+ pretty task_id +:+ "-report.pdf"))
                 (_build_task_report_pdf db1 (report_now request)
                    (MaintenanceTask.set_completed_at (stamped (now request) task) task)
                    items)
    ∧ objects.get (tasks (task_detail db request task_id).1) task_id
      = Some (MaintenanceTask.set_completed_at (stamped (now request) task)
                (MaintenanceTask.set_report_pdf (Some report)
                   (MaintenanceTask.set_status "done" task))).
Proof.
  intros Hget Hp Hclose Hacc.
  rewrite (task_detail_save_answers_eq _ _ _ _ Hget Hp).
  pose proof (get_Some_pk _ _ _ Hget) as Hpk. simpl in Hpk. subst task_id.
  rewrite save_answers_outcome.
  rewrite (proj2 (answers_refused_accepted _ _) Hacc). cbn [fst].
  rewrite (bool_decide_eq_true_2 _ Hclose).
  match goal with |- context [close_task ?d _ _ ?i] =>
    pose proof (save_items_frame db
                  (answers_saved request (items_of db (MaintenanceTask.id task))))
      as Hframe;
    pose proof (close_task_row d request task i) as Hrow;
    exists d, i end.
  cbv zeta in Hrow, Hframe. destruct Hframe as (Hs & Ha & Ht & Htp & Hti).
  rewrite Ht in Hrow. specialize (Hrow Hget).
  eexists. split_and!; [done.. | reflexivity | reflexivity | exact Hrow].
Qed.


End ReportContents.

Lemma report_has_one_entry_per_item_witness :
  length (List.filter (λ d, bool_decide (d = Gap))
            (_build_task_report_pdf (RT := plain_runtime) Demo.db 901 Demo.monthly
               Demo.answers)) = 4%nat
  ∧ ∃ before after,
      _build_task_report_pdf (RT := plain_runtime) Demo.db 901 Demo.monthly Demo.answers
      = (before
         ++ [ Wrapped "2. Pressione" "Helvetica-Bold" 10;
              Wrapped "Risposta: 2500E-3 bar" "Helvetica" 10;
              Wrapped "Asset: Pompa irrigazione" "Helvetica" 9;
              Gap ]
         ++ after)%list.
Proof.
  destruct (report_has_one_entry_per_item (RT := plain_runtime) Demo.db 901 Demo.monthly
              Demo.answers 1 Demo.pressure_answer eq_refl) as [Hblock Hgaps].
  split; [exact Hgaps | exact Hblock].
Defined.



(** ** Looking an asset up by its token *)

Lemma filter_absent_key {A B} `{EqDecision B} (f : A → B) (l : list A) b :
  b ∉ f <$> l → List.filter (λ x, bool_decide (f x = b)) l = [].
Proof.
  induction l as [|y l IH]; [done|].
  rewrite fmap_cons. intros Hb. cbn [List.filter].
  rewrite bool_decide_eq_false_2 by (intros Heq; apply Hb; rewrite <- Heq; left).
  apply IH. intros Hin. apply Hb. by right.
Qed.

Lemma filter_unique_key {A B} `{EqDecision B} (f : A → B) (l : list A) a :
  NoDup (f <$> l) → a ∈ l → List.filter (λ x, bool_decide (f x = f a)) l = [a].
Proof.
  induction l as [|y l IH]; [by intros _ ?%elem_of_nil|].
  rewrite fmap_cons. intros [Hy Hnd]%NoDup_cons Hin. cbn [List.filter].
  apply elem_of_cons in Hin as [->|Hin].
  - rewrite bool_decide_eq_true_2 by done. f_equal. by apply filter_absent_key.
  - rewrite bool_decide_eq_false_2; [by apply IH|].
    intros Heq. apply Hy. rewrite Heq. apply list_elem_of_fmap. eauto.
Qed.

(** X15.  In every database the system reaches, the token lookup resolves
    exactly: a logged-in request for the token of an asset gets that
    asset's page, a request for a token no asset has gets "not found", and
    the lookup never finds two assets. *)
Theorem token_lookup_is_exact {RT : Runtime} (history : list Event) request token :
  let db := run empty_db history in
  is_Some (user request) →
  (∀ a, a ∈ rows (assets db) → Asset.qr_token a = token →
        asset_by_token db request token = (db, RenderAsset a))
  ∧ (token ∉ Asset.qr_token <$> rows (assets db) →
     asset_by_token db request token = (db, Raised Http404))
  ∧ (asset_by_token db request token).2 ≠ Raised MultipleObjectsReturned.
Proof.
  cbv zeta. intros [u Hu].
  destruct (run_assets empty_db history empty_db_assets_ok) as [(Hnd & _) _].
  unfold asset_by_token, login_required, asset_by_token_view, objects.filter.
  rewrite Hu.
  assert (∀ a, a ∈ rows (assets (run empty_db history)) → Asset.qr_token a = token →
            List.filter (λ a, bool_decide (Asset.qr_token a = token))
                        (rows (assets (run empty_db history))) = [a]) as Hone.
  { intros a Ha <-. by apply filter_unique_key. }
  split_and!.
  - intros a Ha Htok. by rewrite (Hone a Ha Htok).
  - intros Habs. by rewrite filter_absent_key.
  - destruct (decide (token ∈ Asset.qr_token <$> rows (assets (run empty_db history))))
      as [Hin|Hout].
    + apply list_elem_of_fmap in Hin as (a & Htok & Ha).
      by rewrite (Hone a Ha (eq_sym Htok)).
    + by rewrite filter_absent_key.
Qed.

Lemma token_lookup_is_exact_witness :
  let history :=
    [ Admin (AddSite (Site.mk 0 "Vivaio Nord" "" ""));
      Admin (AddAsset (Asset.mk_form 1 "Pompa A" "pompa" "" "" "active") 42 10);
      Admin (AddAsset (Asset.mk_form 1 "Pompa B" "pompa" "" "" "active") 42 11);
      Admin (AddAsset (Asset.mk_form 1 "Pompa C" "pompa" "" "" "active") 43 12) ] in
  let db := run (RT := plain_runtime) empty_db history in
  asset_by_token db (Demo.get []) 43
  = (db, RenderAsset (Asset.mk 2 1 "Pompa C" "pompa" "" "" "active" 43 12))
  ∧ asset_by_token db (Demo.get []) 44 = (db, Raised Http404).
Proof.
  cbv zeta.
  match goal with |- context [run empty_db ?history] =>
    destruct (token_lookup_is_exact (RT := plain_runtime) history (Demo.get []) 43
                ltac:(by eexists)) as (Hfound & _);
    destruct (token_lookup_is_exact (RT := plain_runtime) history (Demo.get []) 44
                ltac:(by eexists)) as (_ & Hmissing & _)
  end.
  split.
  - apply Hfound; [by_evaluation | reflexivity].
  - apply Hmissing. by_evaluation.
Defined.

(** ** What the listings show *)

Global Instance order_by_str_total {A} (key : A → string) : Total (order_by_str key).
Proof. intros a b. unfold order_by_str. apply (total String.le). Qed.

Global Instance order_by_Z_desc_total {A} (key : A → Z) : Total (order_by_Z_desc key).
Proof. intros a b. unfold order_by_Z_desc. lia. Qed.

Lemma icontains_spec field q : icontains field q = true ↔ ci_substring q field.
Proof. unfold icontains, ci_substring. apply contains_spec. Qed.

Lemma upper_empty q : upper q = "" → q = "".
Proof. by destruct q. Qed.

Lemma ci_substring_empty_field q : ci_substring q "" → q = "".
Proof.
  intros (l & r & Hf). apply upper_empty. simpl in Hf.
  destruct l; [|discriminate]. by destruct (upper q).
Qed.

Lemma icontains_site_name db k q :
  q ≠ "" →
  icontains (Site.name (related_site db k)) q = true
  ↔ ∃ site, objects.get (sites db) k = Some site ∧ ci_substring q (Site.name site).
Proof.
  intros Hq. rewrite icontains_spec. unfold related_site.
  destruct (objects.get (sites db) k) as [site|]; simpl.
  - split; [eauto | by intros (? & [= <-] & ?)].
  - split; [by intros ?%ci_substring_empty_field | by intros (? & ? & _)].
Qed.





(** ** Referential integrity *)

Section Refs.
Context {A : Type}.
Implicit Types (fk : A → option Z) (child : list A) (parent : list Z).

Lemma refs_ok_nil fk parent : refs_ok fk [] parent.
Proof. constructor. Qed.

Lemma refs_ok_app fk child1 child2 parent :
  refs_ok fk child1 parent → refs_ok fk child2 parent →
  refs_ok fk (child1 ++ child2) parent.
Proof. intros. by apply Forall_app. Qed.

Lemma refs_ok_parent fk child parent parent' :
  (∀ k, k ∈ parent → k ∈ parent') → refs_ok fk child parent → refs_ok fk child parent'.
Proof.
  intros Hsub Hok. eapply Forall_impl; [exact Hok|]. simpl. intros r Hr k Hk. eauto.
Qed.

(** Rows rewritten so that each keeps its reference or loses it. *)
Lemma refs_ok_map fk (g : A → A) child parent :
  (∀ r, fk (g r) = fk r ∨ fk (g r) = None) →
  refs_ok fk child parent → refs_ok fk (map g child) parent.
Proof.
  intros Hg Hok. apply Forall_forall. intros r' Hr'.
  apply list_elem_of_In, in_map_iff in Hr' as (r & <- & Hr).
  apply list_elem_of_In in Hr. intros k Hk.
  destruct (Hg r) as [Heq|Heq]; rewrite Heq in Hk; [|done].
  by apply (proj1 (Forall_forall _ _) Hok r Hr).
Qed.

Lemma refs_ok_sub fk child child' parent :
  (∀ r, r ∈ child' → r ∈ child) → refs_ok fk child parent → refs_ok fk child' parent.
Proof.
  intros Hsub Hok. apply Forall_forall. intros r Hr.
  apply (proj1 (Forall_forall _ _) Hok). by apply Hsub.
Qed.

Lemma refs_ok_filter fk (c : A → bool) child parent :
  refs_ok fk child parent → refs_ok fk (List.filter c child) parent.
Proof.
  intros Hok. apply Forall_forall. intros r Hr.
  apply elem_of_filter_bool in Hr as [Hr _].
  by apply (proj1 (Forall_forall _ _) Hok).
Qed.

(** The parent shrinks, and no surviving row points at what went away. *)
Lemma refs_ok_shrink fk child child' parent parent' :
  refs_ok fk child parent →
  (∀ r', r' ∈ child' → ∀ k, fk r' = Some k →
         (∃ r, r ∈ child ∧ fk r = Some k) ∧ (k ∈ parent → k ∈ parent')) →
  refs_ok fk child' parent'.
Proof.
  intros Hok Hkeep. apply Forall_forall. intros r' Hr' k Hk.
  destruct (Hkeep r' Hr' k Hk) as [(r & Hr & Hfk) Hsurv].
  apply Hsurv. by apply (proj1 (Forall_forall _ _) Hok r Hr).
Qed.
End Refs.

Section Keys.
Context {A : Type} `{Model A}.
Hypothesis pk_set_pk : ∀ k (x : A), pk (set_pk k x) = k.

Lemma keys_get (t : Table A) k r : objects.get t k = Some r → k ∈ keys t.
Proof.
  intros Hget. unfold keys. apply list_elem_of_fmap. exists r.
  split; [by rewrite (get_Some_pk _ _ _ Hget) | by eapply get_Some_In].
Qed.

Lemma keys_has_pk (t : Table A) k : has_pk t k = true → k ∈ keys t.
Proof.
  unfold has_pk. intros [r Hr]%bool_decide_eq_true. by eapply keys_get.
Qed.

Lemma keys_has_pk_opt (t : Table A) o k : has_pk_opt t o = true → o = Some k → k ∈ keys t.
Proof. intros Ho ->. by apply keys_has_pk. Qed.

Lemma keys_create x (t : Table A) : keys (objects.create x t) = (keys t ++ [next_pk t])%list.
Proof. unfold keys, objects.create. cbn [rows]. by rewrite fmap_app, fmap_cons, pk_set_pk. Qed.

Lemma keys_bulk_create items (t : Table A) k :
  k ∈ keys t → k ∈ keys (objects.bulk_create items t).
Proof.
  unfold objects.bulk_create. revert t.
  induction items as [|x items IH]; intros t Hk; simpl; [done|].
  apply IH. rewrite keys_create. apply elem_of_app. by left.
Qed.

Lemma keys_save x (t : Table A) : keys (objects.save x t) = keys t.
Proof.
  unfold keys, objects.save. cbn [rows]. apply fmap_map_same.
  intros r. by case_bool_decide.
Qed.

Lemma keys_update k f (t : Table A) :
  (∀ r, pk (f r) = pk r) → keys (objects.update k f t) = keys t.
Proof.
  intros Hf. unfold keys, objects.update. cbn [rows]. apply fmap_map_same.
  intros r. by case_bool_decide.
Qed.

Lemma keys_rewrite g (t : Table A) :
  (∀ r, pk (g r) = pk r) → keys (objects.rewrite g t) = keys t.
Proof. intros Hg. unfold keys, objects.rewrite. cbn [rows]. by apply fmap_map_same. Qed.

(** A key survives a delete that spares all its rows. *)
Lemma keys_delete cond (t : Table A) k :
  k ∈ keys t →
  existsb (λ r, cond r && bool_decide (pk r = k)) (rows t) = false →
  k ∈ keys (objects.delete cond t).
Proof.
  unfold keys, objects.delete. cbn [rows]. intros Hk Hgone.
  apply list_elem_of_fmap in Hk as (r & -> & Hr).
  apply list_elem_of_fmap. exists r. split; [done|].
  apply elem_of_filter_bool. split; [done|].
  apply negb_true_iff. apply not_true_iff_false. intros Hc.
  apply not_true_iff_false in Hgone. apply Hgone, existsb_exists.
  exists r. split; [by apply list_elem_of_In|].
  by rewrite Hc, bool_decide_eq_true_2.
Qed.

Lemma keys_delete_other (t : Table A) k k0 :
  k ∈ keys t → k ≠ k0 →
  k ∈ keys (objects.delete (λ r, bool_decide (pk r = k0)) t).
Proof.
  intros Hk Hne. apply keys_delete; [done|].
  apply not_true_iff_false. intros (r & _ & Hc)%existsb_exists.
  apply andb_true_iff in Hc as [H1%bool_decide_eq_true H2%bool_decide_eq_true].
  congruence.
Qed.

Lemma keys_save_all items (t : Table A) :
  keys (foldl (λ t x, objects.save x t) t items) = keys t.
Proof.
  revert t. induction items as [|x items IH]; intros t; simpl; [done|].
  by rewrite IH, keys_save.
Qed.
End Keys.

Section RefsSave.
Context {A : Type} `{Model A}.

Lemma refs_ok_save_all (fk : A → option Z) items (t : Table A) parent :
  refs_ok fk (rows t) parent → refs_ok fk items parent →
  refs_ok fk (rows (foldl (λ t x, objects.save x t) t items)) parent.
Proof.
  intros Ht Hi. rewrite rows_save_all. apply Forall_forall. intros r' Hr'.
  apply list_elem_of_In, in_map_iff in Hr' as (r & <- & Hr).
  apply list_elem_of_In in Hr.
  apply (overwritten_Forall (λ r, ∀ k, fk r = Some k → k ∈ parent)); [|done].
  by apply (proj1 (Forall_forall _ _) Ht).
Qed.

Lemma refs_ok_save (fk : A → option Z) x (t : Table A) parent :
  refs_ok fk (rows t) parent → (∀ k, fk x = Some k → k ∈ parent) →
  refs_ok fk (rows (objects.save x t)) parent.
Proof.
  intros Ht Hx. apply (refs_ok_save_all fk [x] t parent Ht).
  by apply Forall_singleton.
Qed.

Lemma refs_ok_create (fk : A → option Z) x (t : Table A) parent :
  (∀ k, fk (set_pk k x) = fk x) →
  refs_ok fk (rows t) parent → (∀ k, fk x = Some k → k ∈ parent) →
  refs_ok fk (rows (objects.create x t)) parent.
Proof.
  intros Hfk Ht Hx. unfold objects.create. cbn [rows].
  apply refs_ok_app; [done|]. apply Forall_singleton. by rewrite Hfk.
Qed.

Lemma refs_ok_bulk_create (fk : A → option Z) items (t : Table A) parent :
  (∀ k x, fk (set_pk k x) = fk x) →
  refs_ok fk (rows t) parent → refs_ok fk items parent →
  refs_ok fk (rows (objects.bulk_create items t)) parent.
Proof.
  intros Hfk Ht Hi. unfold objects.bulk_create. revert t Ht.
  induction Hi as [|x items Hx _ IH]; intros t Ht; simpl; [done|].
  apply IH. by apply refs_ok_create.
Qed.

Lemma refs_ok_update (fk : A → option Z) k f (t : Table A) parent :
  (∀ r, fk (f r) = fk r) →
  refs_ok fk (rows t) parent → refs_ok fk (rows (objects.update k f t)) parent.
Proof.
  intros Hf Ht. unfold objects.update. cbn [rows]. apply refs_ok_map; [|done].
  intros r. left. by case_bool_decide.
Qed.

Lemma keys_get_Some (t : Table A) k : k ∈ keys t → is_Some (objects.get t k).
Proof.
  unfold keys, objects.get. intros (r & -> & Hr)%list_elem_of_fmap.
  destruct (find _ _) eqn:Hfind; [by eexists|].
  apply list_elem_of_In in Hr.
  pose proof (find_none _ _ Hfind r Hr) as Hc. simpl in Hc.
  by rewrite bool_decide_eq_true_2 in Hc.
Qed.
End RefsSave.

Lemma site_pk_set_pk k (x : Site.t) : pk (set_pk k x) = k.
Proof. done. Qed.
Lemma asset_pk_set_pk k (x : Asset.t) : pk (set_pk k x) = k.
Proof. done. Qed.
Lemma task_pk_set_pk k (x : MaintenanceTask.t) : pk (set_pk k x) = k.
Proof. done. Qed.
Lemma template_pk_set_pk k (x : ChecklistTemplate.t) : pk (set_pk k x) = k.
Proof. done. Qed.
Lemma template_item_pk_set_pk k (x : ChecklistTemplateItem.t) : pk (set_pk k x) = k.
Proof. done. Qed.
Lemma checklist_item_pk_set_pk k (x : TaskChecklistItem.t) : pk (set_pk k x) = k.
Proof. done. Qed.

Section Integrity.
Context {RT : Runtime}.
Implicit Types (db : DB) (request : Request) (task : MaintenanceTask.t).

Local Ltac tables :=
  cbn [sites assets tasks templates template_items checklist_items
       set_sites set_assets set_tasks set_templates set_template_items
       set_checklist_items] in *.

Lemma fk_ok_update_task db k f :
  (∀ r, pk (f r) = pk r) →
  (∀ r, MaintenanceTask.site (f r) = MaintenanceTask.site r) →
  fk_ok db → fk_ok (set_tasks (objects.update k f (tasks db)) db).
Proof.
  intros Hpk Hsite (Ha & Ht & Htp & Hti & Hct & Hca & Hci).
  unfold fk_ok. tables. rewrite keys_update by done. split_and!; try done.
  apply refs_ok_update; [|done]. intros r. by rewrite Hsite.
Qed.

Lemma fk_ok_create_checklist db task template asset :
  MaintenanceTask.id task ∈ keys (tasks db) →
  (∀ a, asset = Some a → a ∈ rows (assets db)) →
  fk_ok db → fk_ok (_create_checklist_from_template db task template asset).
Proof.
  intros Htask Hasset Hok. unfold _create_checklist_from_template.
  destruct (map _ _) as [|x items] eqn:Hitems; [done|]. rewrite <- Hitems. clear Hitems.
  destruct Hok as (Ha & Ht & Htp & Hti & Hct & Hca & Hci).
  unfold fk_ok. tables. split_and!; try done.
  all: apply refs_ok_bulk_create; [done|done|].
  all: apply Forall_forall; intros i Hi;
       apply list_elem_of_In, in_map_iff in Hi as (ti & <- & Hti');
       apply list_elem_of_In in Hti'; simpl; intros k Hk.
  - by injection Hk as <-.
  - destruct asset as [a|]; [|done]. simpl in Hk. injection Hk as <-.
    apply list_elem_of_fmap. exists a. split; [done|]. by apply Hasset.
  - injection Hk as <-. rewrite template_items_all_perm in Hti'.
    apply elem_of_filter_bool in Hti' as [Hin _].
    apply list_elem_of_fmap. by exists ti.
Qed.

Lemma fk_ok_create_item db task asset label item_type required unit :
  MaintenanceTask.id task ∈ keys (tasks db) →
  (∀ a, asset = Some a → a ∈ rows (assets db)) →
  fk_ok db →
  fk_ok (set_checklist_items
           (objects.create
              (TaskChecklistItem.new (MaintenanceTask.id task) (Asset.id <$> asset)
                 None label item_type required unit)
              (checklist_items db)) db).
Proof.
  intros Htask Hasset (Ha & Ht & Htp & Hti & Hct & Hca & Hci).
  unfold fk_ok. tables. split_and!; try done.
  all: apply refs_ok_create; [done|done|]; simpl; intros k Hk.
  - by injection Hk as <-.
  - destruct asset as [a|]; [|done]. simpl in Hk. injection Hk as <-.
    apply list_elem_of_fmap. exists a. split; [done|]. by apply Hasset.
  - done.
Qed.

Lemma asset_of_site_rows db asset_id site asset :
  asset_of_site db asset_id site = Some asset →
  ∀ a, asset = Some a → a ∈ rows (assets db).
Proof. intros Ha a ->. by destruct (asset_of_site_spec _ _ _ _ Ha). Qed.

Lemma fk_ok_task_detail db request task_id :
  fk_ok db → fk_ok (task_detail db request task_id).1.
Proof.
  intros Hok. unfold task_detail, login_required. destruct (user request); [|done].
  unfold task_detail_view.
  destruct (objects.get (tasks db) task_id) as [task|] eqn:Hget; [|done].
  pose proof (get_Some_pk _ _ _ Hget) as Hpk. simpl in Hpk. subst task_id.
  pose proof (keys_get _ _ _ Hget) as Hkey.
  repeat case_bool_decide; cbn [negb]; try done.
  - unfold task_detail_update_task. cbn [fst]. case_bool_decide; [|done].
    apply fk_ok_update_task; [| |done]; intros r; by case_match.
  - unfold task_detail_generate_checklist.
    repeat case_match; cbn [fst]; try done.
    apply fk_ok_create_checklist; [done| |done]. by eapply asset_of_site_rows.
  - unfold task_detail_add_checklist_item.
    repeat case_match; cbn [fst]; try done.
    all: apply fk_ok_create_item; [done| |done]; by eapply asset_of_site_rows.
  - rewrite save_answers_outcome.
    assert (fk_ok (foldl (λ db item,
                      set_checklist_items (objects.save item (checklist_items db)) db)
                   db (answers_saved request (items_of db (MaintenanceTask.id task)))))
      as Hok1.
    { match goal with |- fk_ok (foldl ?f db ?items) =>
        destruct (save_items_frame db items) as (Es & Ea & Et & Etp & Eti);
        pose proof (checklist_items_save_all db items) as Ec;
        set (db1 := foldl f db items) in * end.
      destruct Hok as (Ha & Ht & Htp & Hti & Hct & Hca & Hci).
      unfold fk_ok. rewrite Es, Ea, Et, Etp, Eti, Ec. split_and!; try done.
      all: apply refs_ok_save_all; [done|].
      all: rewrite answers_saved_reached.
      all: apply refs_ok_map;
           [intros r; left; destruct (stored_answer_refs request r) as (E1 & E2 & E3);
            by rewrite ?E1, ?E2, ?E3|].
      all: eapply refs_ok_sub; [|eassumption].
      all: intros y Hy; apply answers_reached_elem in Hy as [Hy _];
           unfold items_of, objects.filter in Hy;
           by apply elem_of_filter_bool in Hy as [Hy _]. }
    destruct (answers_refused _ _); cbn [fst]; [done|].
    destruct (bool_decide (POST request !! "close_task" = Some "1")); [|done].
    unfold close_task. apply fk_ok_update_task; [| |done]; intros r; by case_match.
Qed.

Lemma fk_ok_dashboard db request : fk_ok db → fk_ok (dashboard db request).1.
Proof.
  intros Hok. unfold dashboard, login_required. destruct (user request); [|done].
  unfold dashboard_view, dashboard_page. repeat case_match; cbn [fst]; try done.
  by apply fk_ok_update_task.
Qed.

Lemma fk_ok_create_task db task :
  MaintenanceTask.site task ∈ keys (sites db) →
  fk_ok db →
  let db' := set_tasks (objects.create task (tasks db)) db in
  fk_ok db' ∧ next_pk (tasks db) ∈ keys (tasks db').
Proof.
  intros Hsite (Ha & Ht & Htp & Hti & Hct & Hca & Hci). cbv zeta.
  unfold fk_ok. tables.
  rewrite (keys_create task_pk_set_pk). split_and!; try done.
  - apply refs_ok_create; [done|done|]. simpl. by intros ? [= <-].
  - eapply refs_ok_parent; [|exact Hct]. intros ? ?. apply elem_of_app. by left.
  - apply elem_of_app. right. by apply list_elem_of_singleton.
Qed.

Lemma fk_ok_task_list db request : fk_ok db → fk_ok (task_list db request).1.
Proof.
  intros Hok. unfold task_list, login_required. destruct (user request); [|done].
  unfold task_list_view.
  repeat case_match; rewrite ?task_list_page_db; cbn [fst]; try done.
  all: match goal with Hs : objects.get (sites _) _ = Some ?site |- _ =>
         pose proof (keys_get _ _ _ Hs) as Hsite;
         rewrite <- (get_Some_pk _ _ _ Hs) in Hsite end.
  all: match goal with |- context [create_task_checklist (set_tasks (objects.create ?t _) _)] =>
         destruct (fk_ok_create_task db t Hsite Hok) as [Hok1 Hkey] end.
  all: unfold create_task_checklist; repeat case_match; cbn [fst]; try done.
  all: apply fk_ok_create_checklist; [done| |done]; by eapply asset_of_site_rows.
Qed.
End Integrity.

(** *** The admin keeps the references *)

Ltac tables :=
  cbn [sites assets tasks templates template_items checklist_items
       set_sites set_assets set_tasks set_templates set_template_items
       set_checklist_items] in *.

Lemma null_asset_refs gone i :
  TaskChecklistItem.task (null_asset gone i) = TaskChecklistItem.task i
  ∧ TaskChecklistItem.template_item (null_asset gone i) = TaskChecklistItem.template_item i
  ∧ (∀ k, TaskChecklistItem.asset (null_asset gone i) = Some k →
          TaskChecklistItem.asset i = Some k ∧ gone k = false).
Proof.
  unfold null_asset. destruct (TaskChecklistItem.asset i) as [a|] eqn:Ha; [|by rewrite Ha].
  destruct (gone a) eqn:Hg; simpl; [done|]. rewrite Ha. split_and!; try done.
  by intros k [= <-].
Qed.

Lemma null_template_item_refs gone i :
  TaskChecklistItem.task (null_template_item gone i) = TaskChecklistItem.task i
  ∧ TaskChecklistItem.asset (null_template_item gone i) = TaskChecklistItem.asset i
  ∧ (∀ k, TaskChecklistItem.template_item (null_template_item gone i) = Some k →
          TaskChecklistItem.template_item i = Some k ∧ gone k = false).
Proof.
  unfold null_template_item.
  destruct (TaskChecklistItem.template_item i) as [a|] eqn:Ha; [|by rewrite Ha].
  destruct (gone a) eqn:Hg; simpl; [done|]. rewrite Ha. split_and!; try done.
  by intros k [= <-].
Qed.

Lemma null_template_site_refs gone t :
  pk (null_template_site gone t) = pk t
  ∧ (∀ k, ChecklistTemplate.site (null_template_site gone t) = Some k →
          ChecklistTemplate.site t = Some k ∧ gone k = false).
Proof.
  unfold null_template_site.
  destruct (ChecklistTemplate.site t) as [a|] eqn:Ha; [|by rewrite Ha].
  destruct (gone a) eqn:Hg; simpl; [done|]. rewrite Ha. split; [done|].
  by intros k [= <-].
Qed.

Lemma fk_ok_delete_assets cond db : fk_ok db → fk_ok (delete_assets cond db).
Proof.
  intros (Ha & Ht & Htp & Hti & Hct & Hca & Hci).
  unfold fk_ok, delete_assets. tables. split_and!; try done.
  - by apply refs_ok_filter.
  - apply refs_ok_map; [|done]. intros i. left.
    by rewrite (proj1 (null_asset_refs _ i)).
  - eapply refs_ok_shrink; [exact Hca|]. intros r' Hr' k Hk.
    apply list_elem_of_In, in_map_iff in Hr' as (r & <- & Hr).
    apply list_elem_of_In in Hr.
    match type of Hk with context [null_asset ?g r] =>
      destruct (null_asset_refs g r) as (_ & _ & Hnull) end.
    destruct (Hnull k Hk) as [Hrk Hgone]. split; [by exists r|].
    intros Hin. by apply keys_delete.
  - apply refs_ok_map; [|done]. intros i. left.
    by rewrite (proj1 (proj2 (null_asset_refs _ i))).
Qed.

Lemma fk_ok_delete_tasks cond db : fk_ok db → fk_ok (delete_tasks cond db).
Proof.
  intros (Ha & Ht & Htp & Hti & Hct & Hca & Hci).
  unfold fk_ok, delete_tasks. tables. split_and!; try done.
  - by apply refs_ok_filter.
  - eapply refs_ok_shrink; [exact Hct|]. intros r' Hr' k [= <-].
    apply elem_of_filter_bool in Hr' as [Hr' Hgone].
    apply negb_true_iff in Hgone. split; [by exists r'|].
    intros Hin. by apply keys_delete.
  - by apply refs_ok_filter.
  - by apply refs_ok_filter.
Qed.

Lemma fk_ok_delete_template_items cond db :
  fk_ok db → fk_ok (delete_template_items cond db).
Proof.
  intros (Ha & Ht & Htp & Hti & Hct & Hca & Hci).
  unfold fk_ok, delete_template_items. tables. split_and!; try done.
  - by apply refs_ok_filter.
  - apply refs_ok_map; [|done]. intros i. left.
    by rewrite (proj1 (null_template_item_refs _ i)).
  - apply refs_ok_map; [|done]. intros i. left.
    by rewrite (proj1 (proj2 (null_template_item_refs _ i))).
  - eapply refs_ok_shrink; [exact Hci|]. intros r' Hr' k Hk.
    apply list_elem_of_In, in_map_iff in Hr' as (r & <- & Hr).
    apply list_elem_of_In in Hr.
    match type of Hk with context [null_template_item ?g r] =>
      destruct (null_template_item_refs g r) as (_ & _ & Hnull) end.
    destruct (Hnull k Hk) as [Hrk Hgone]. split; [by exists r|].
    intros Hin. by apply keys_delete.
Qed.

Lemma fk_ok_delete_template k db : fk_ok db → fk_ok (delete_template k db).
Proof.
  intros Hok. unfold delete_template.
  pose proof (fk_ok_delete_template_items
                (λ i, bool_decide (ChecklistTemplateItem.template i = k)) db Hok) as Hok1.
  set (db1 := delete_template_items _ db) in *.
  destruct Hok1 as (Ha & Ht & Htp & Hti & Hct & Hca & Hci).
  unfold fk_ok. tables. split_and!; try done.
  - by apply refs_ok_filter.
  - eapply refs_ok_shrink; [exact Hti|]. intros r' Hr' k' [= <-].
    split; [by exists r'|]. intros Hin.
    refine (keys_delete_other (templates db1) _ k Hin _).
    subst db1. unfold delete_template_items in Hr'. tables.
    apply elem_of_filter_bool in Hr' as [_ Hne].
    by apply negb_true_iff, bool_decide_eq_false in Hne.
Qed.

Lemma fk_ok_delete_site k db : fk_ok db → fk_ok (delete_site k db).
Proof.
  intros Hok. unfold delete_site.
  pose proof (fk_ok_delete_tasks (λ t, bool_decide (MaintenanceTask.site t = k)) _
                (fk_ok_delete_assets (λ a, bool_decide (Asset.site a = k)) db Hok))
    as Hok2.
  set (db2 := delete_tasks _ (delete_assets _ db)) in *.
  assert (∀ a, a ∈ rows (assets db2) → Asset.site a ≠ k) as Hassets.
  { intros a Hin. subst db2. unfold delete_tasks, delete_assets in Hin. tables.
    apply elem_of_filter_bool in Hin as [_ Hne].
    by apply negb_true_iff, bool_decide_eq_false in Hne. }
  assert (∀ t, t ∈ rows (tasks db2) → MaintenanceTask.site t ≠ k) as Htasks.
  { intros t Hin. subst db2. unfold delete_tasks, delete_assets in Hin. tables.
    apply elem_of_filter_bool in Hin as [_ Hne].
    by apply negb_true_iff, bool_decide_eq_false in Hne. }
  destruct Hok2 as (Ha & Ht & Htp & Hti & Hct & Hca & Hci).
  unfold fk_ok. tables. split_and!; try done.
  - eapply refs_ok_shrink; [exact Ha|]. intros r' Hr' k' [= <-].
    split; [by exists r'|]. intros Hin.
    refine (keys_delete_other (sites db2) _ k Hin _). by apply Hassets.
  - eapply refs_ok_shrink; [exact Ht|]. intros r' Hr' k' [= <-].
    split; [by exists r'|]. intros Hin.
    refine (keys_delete_other (sites db2) _ k Hin _). by apply Htasks.
  - eapply refs_ok_shrink; [exact Htp|]. intros r' Hr' k' Hk'.
    apply list_elem_of_In, in_map_iff in Hr' as (r & <- & Hr).
    apply list_elem_of_In in Hr.
    destruct (null_template_site_refs (λ s, bool_decide (s = k)) r) as (_ & Hnull).
    destruct (Hnull k' Hk') as [Hrk Hgone]. split; [by exists r|].
    intros Hin. refine (keys_delete_other (sites db2) _ k Hin _).
    by apply bool_decide_eq_false in Hgone.
  - rewrite keys_rewrite; [done|]. intros r. apply null_template_site_refs.
Qed.

Ltac grown_parent :=
  eapply refs_ok_parent; [|eassumption]; intros ? ?; apply elem_of_app; by left.

Ltac checked_ref :=
  simpl; let Hk := fresh "Hk" in
  intros ? Hk;
  first [ injection Hk as <-; by apply keys_has_pk
        | by eapply keys_has_pk_opt ].

Lemma fk_ok_admin db op : fk_ok db → fk_ok (default db (admin_site db op)).
Proof.
  intros Hok. destruct op; cbn [admin_site].
  all: try match goal with |- context [if ?c then _ else _] =>
             let Hc := fresh "Hc" in
             destruct c eqn:Hc; [|done];
             repeat (let H' := fresh "Hc" in apply andb_true_iff in Hc as [Hc H'])
           end.
  all: cbn [default from_option id].
  all: try by apply fk_ok_delete_site.
  all: try by apply fk_ok_delete_assets.
  all: try by apply fk_ok_delete_tasks.
  all: try by apply fk_ok_delete_template.
  all: try by apply fk_ok_delete_template_items.
  all: destruct Hok as (Ha & Ht & Htp & Hti & Hct & Hca & Hci).
  all: unfold fk_ok; tables.
  all: rewrite ?keys_save, ?(keys_create site_pk_set_pk), ?(keys_create asset_pk_set_pk),
         ?(keys_create task_pk_set_pk), ?(keys_create template_pk_set_pk),
         ?(keys_create template_item_pk_set_pk).
  all: try (rewrite (keys_update _ (Asset.write_form _)) by done).
  all: split_and!; try done; try grown_parent.
  all: try (apply refs_ok_create; [done|done|checked_ref]).
  all: try (apply refs_ok_save; [done|checked_ref]).
  all: try by apply refs_ok_filter.
  (* an asset rewritten from its change form *)
  apply Forall_forall. intros r' Hr'.
  apply list_elem_of_In, in_map_iff in Hr' as (r & <- & Hr).
  apply list_elem_of_In in Hr. case_bool_decide.
  - simpl. intros ? [= <-]. by apply keys_has_pk.
  - by apply (proj1 (Forall_forall _ _) Ha).
Qed.

Section Reachable.
Context {RT : Runtime}.

Lemma fk_ok_serve db e : fk_ok db → fk_ok (serve db e).1.
Proof.
  intros Hok.
  destruct (is_read_only_view e) eqn:Hro; [by rewrite serve_read_only|].
  destruct e; try discriminate Hro; simpl.
  - by apply fk_ok_dashboard.
  - by apply fk_ok_task_list.
  - by apply fk_ok_task_detail.
  - by apply fk_ok_admin.
Qed.

Lemma fk_ok_run db history : fk_ok db → fk_ok (run db history).
Proof.
  unfold run. revert db. induction history as [|e history IH]; intros db Hok; simpl.
  - done.
  - by apply IH, fk_ok_serve.
Qed.

Lemma fk_ok_empty_db : fk_ok empty_db.
Proof. unfold fk_ok. split_and!; apply refs_ok_nil. Qed.

(** X18.  No view and no admin operation leaves a dangling reference.
    If every foreign key between the six tables of the store points at an
    existing row, then after any sequence of requests and admin operations
    it still does;
    so the site of every asset and task, and the asset of every
    checklist item that has one, is a stored row, which is what the
    listing and the report read through [select_related]. *)
Theorem references_always_resolve db history :
  fk_ok db →
  let db' := run db history in
  fk_ok db'
  ∧ (∀ a, a ∈ rows (assets db') →
          objects.get (sites db') (Asset.site a)
          = Some (related_site db' (Asset.site a)))
  ∧ (∀ t, t ∈ rows (tasks db') →
          objects.get (sites db') (MaintenanceTask.site t)
          = Some (related_site db' (MaintenanceTask.site t)))
  ∧ (∀ i k, i ∈ rows (checklist_items db') → TaskChecklistItem.asset i = Some k →
            objects.get (assets db') k = Some (related_asset db' k)).
Proof.
  intros Hok db'. pose proof (fk_ok_run db history Hok) as Hok'. fold db' in Hok'.
  split; [done|].
  destruct Hok' as (Ha & Ht & _ & _ & _ & Hca & _).
  split_and!.
  - intros a Hin. unfold related_site.
    destruct (keys_get_Some (sites db') (Asset.site a)) as [s ->]; [|done].
    by apply (proj1 (Forall_forall _ _) Ha a Hin).
  - intros t Hin. unfold related_site.
    destruct (keys_get_Some (sites db') (MaintenanceTask.site t)) as [s ->]; [|done].
    by apply (proj1 (Forall_forall _ _) Ht t Hin).
  - intros i k Hin Hk. unfold related_asset.
    destruct (keys_get_Some (assets db') k) as [s ->]; [|done].
    by apply (proj1 (Forall_forall _ _) Hca i Hin).
Qed.
End Reachable.

Lemma fk_ok_demo : fk_ok Demo.db.
Proof.
  unfold fk_ok, refs_ok. split_and!.
  all: repeat first
         [ apply Forall_nil; done
         | apply Forall_cons; split;
           [ simpl; let Hk := fresh in
             intros ? Hk; first [discriminate Hk | injection Hk as <-; by_evaluation] | ] ].
Qed.

Lemma references_always_resolve_witness :
  let history :=
    [ TaskDetail (Demo.post [("action", "generate_checklist"); ("template_id", "1");
                             ("asset_id", "1")]) 1;
      Admin (DeleteSite 1);
      Admin (DeleteTemplateItem 2) ] in
  let db' := run (RT := plain_runtime) Demo.db history in
  fk_ok Demo.db
  ∧ fk_ok db'
  ∧ (∀ a, a ∈ rows (assets db') →
          objects.get (sites db') (Asset.site a)
          = Some (related_site db' (Asset.site a)))
  ∧ (∀ t, t ∈ rows (tasks db') →
          objects.get (sites db') (MaintenanceTask.site t)
          = Some (related_site db' (MaintenanceTask.site t)))
  ∧ (∀ i k, i ∈ rows (checklist_items db') → TaskChecklistItem.asset i = Some k →
            objects.get (assets db') k = Some (related_asset db' k)).
Proof.
  cbv zeta. split; [exact fk_ok_demo|].
  exact (references_always_resolve (RT := plain_runtime) Demo.db _ fk_ok_demo).
Defined.
